(** * Tool-augmented conversation turns

    A shallow embedding of the three programs of the repository that run
    the tool-calling loop against a chat endpoint:

    - [9_Herramientas/asistente_aerolinea.py]               (module [Aerolinea])
    - [10_Asistentes_Multimodales/tutor_robotica_simple.py]  (module [TutorSimple])
    - [10_Asistentes_Multimodales/tutor_robotica_multimodal.py]
                                                             (module [TutorMultimodal])

    Python exceptions are values of [exn] carried by [result]; code that
    also talks to the endpoint or mutates the tutor object runs in the
    state-and-exception monad [M], whose state survives a raise exactly
    as a Python object survives an exception.  The Python standard
    library ([json.loads], [json.dumps], [str.lower], [str()]) and the
    hosted services (chat completions, speech, images) are not code of
    the repository: the first are the fields of the class [Runtime], the
    second the fields of the record [Services], and every theorem holds
    for all of them. *)

From Stdlib Require Import String Ascii List Bool Arith NArith Lia.
Import ListNotations.
Local Open Scope string_scope.
Local Open Scope list_scope.

Infix "+++" := String.append (at level 60, right associativity).

(** ** Python values and exceptions *)

(** The Python objects that travel through the tool channel: what
    [json.loads] can return and what [json.dumps] accepts.  A number keeps
    its lexeme; no program here computes with one. *)
#[local] Set Warnings "-register-all".
Inductive value : Type :=
| VNone
| VBool (b : bool)
| VNum (lexeme : string)
| VStr (s : string)
| VList (items : list value)
| VDict (members : list (string * value)).

Inductive exn : Type :=
| JSONDecodeError
| KeyError (key : string)
| TypeError
| AttributeError
| IndexError
| APIError (detail : string).

Inductive result (A : Type) : Type :=
| Ok (a : A)
| Raise (e : exn).
Arguments Ok {A} a.
Arguments Raise {A} e.

Definition rbind {A B} (r : result A) (k : A -> result B) : result B :=
  match r with
  | Ok a => k a
  | Raise e => Raise e
  end.

Declare Scope py_scope.
Delimit Scope py_scope with py.
Notation "x <- c ;; k" := (rbind c (fun x => k))
  (at level 61, c at next level, right associativity) : py_scope.
Notation "' pat <- c ;; k" := (rbind c (fun x => match x with pat => k end))
  (at level 61, pat pattern, c at next level, right associativity) : py_scope.

(** The part of the Python runtime the programs call. *)
Class Runtime : Type := {
  json_loads : string -> result value;   (* json.loads(text) *)
  json_dumps : value -> string;          (* json.dumps(obj) *)
  str_lower : string -> string;          (* text.lower() *)
  str_of : value -> string;              (* str(obj), as an f-string formats it *)
  str_exn : exn -> string                (* str(e) *)
}.

(** *** Dictionaries with string keys, in insertion order *)

Fixpoint assoc {V : Type} (k : string) (d : list (string * V)) : option V :=
  match d with
  | [] => None
  | (k', v) :: d' => if String.eqb k k' then Some v else assoc k d'
  end.

(** [d.get(k, default)] for a key that is any Python object: lists and
    dictionaries are unhashable, anything else that is not a string is
    simply absent from a table whose keys are strings. *)
Definition dict_get {V : Type} (d : list (string * V)) (k : value) (default : V)
  : result V :=
  match k with
  | VStr s => Ok (match assoc s d with Some v => v | None => default end)
  | VList _ | VDict _ => Raise TypeError
  | VNone | VBool _ | VNum _ => Ok default
  end.

(** [obj[key]] with a string key. *)
Definition getitem (obj : value) (key : string) : result value :=
  match obj with
  | VDict d => match assoc key d with
               | Some v => Ok v
               | None => Raise (KeyError key)
               end
  | _ => Raise TypeError
  end.

(** [obj.get(key, default)]: only a dictionary has the method. *)
Definition method_get (obj : value) (key : string) (default : value)
  : result value :=
  match obj with
  | VDict d => Ok (match assoc key d with Some v => v | None => default end)
  | _ => Raise AttributeError
  end.

(** [obj.lower()]: only a string has the method. *)
Definition method_lower {rt : Runtime} (obj : value) : result string :=
  match obj with
  | VStr s => Ok (str_lower s)
  | _ => Raise AttributeError
  end.

(** [needle in hay] on strings.  Both are UTF-8 text, on which a match of
    bytes is a match of code points. *)
Fixpoint contains (needle hay : string) : bool :=
  prefix needle hay ||
  match hay with
  | EmptyString => false
  | String _ hay' => contains needle hay'
  end.

(** Truth value of an [Optional[str]]. *)
Definition truthy (o : option string) : bool :=
  match o with
  | Some s => negb (String.eqb s "")
  | None => false
  end.

(** ** The chat-completions interface *)

Inductive Role : Type := system | user | assistant | tool.

Definition Role_eqb (a b : Role) : bool :=
  match a, b with
  | system, system | user, user | assistant, assistant | tool, tool => true
  | _, _ => false
  end.

(** [tool_call.id], [tool_call.function.name], [tool_call.function.arguments]. *)
Record ToolCall : Type := {
  tc_id : string;
  tc_name : string;
  tc_arguments : string
}.

(** One entry of a [messages] list.  A field that the dictionary does not
    have is [None]; [content] is also [None] when the endpoint sent null. *)
Record Turn : Type := {
  role : Role;
  content : option string;
  tool_calls : option (list ToolCall);
  tool_call_id : option string
}.

(** [response.choices[0].message]; its role is always assistant. *)
Record ChatCompletionMessage : Type := {
  msg_content : option string;
  msg_tool_calls : option (list ToolCall)
}.

(** [response.choices[0]]. *)
Record Response : Type := {
  finish_reason : string;
  choice_message : ChatCompletionMessage
}.

(** A declared tool: name, parameter names, required parameter names. *)
Record ToolSchema : Type := {
  fn_name : string;
  fn_properties : list string;
  fn_required : list string
}.

(** The arguments of [openai.chat.completions.create] that vary. *)
Record Request : Type := {
  req_messages : list Turn;
  req_tools : option (list ToolSchema)
}.

Definition Image : Type := string.

(** The hosted services as one turn sees them.  [audio_speech_create] and
    [images_generate] stand for the bodies of the [try] blocks of
    [generar_audio_educativo] and [generar_imagen_educativa]. *)
Record Services : Type := {
  chat_completions_create : Request -> result Response;
  audio_speech_create : value -> result string;
  images_generate : value -> value -> value -> result Image
}.

Definition dict_message (r : Role) (c : string) : Turn :=
  {| role := r; content := Some c; tool_calls := None; tool_call_id := None |}.

(** ** State and exceptions *)

Definition M (St A : Type) : Type := St -> result A * St.

Definition ret {St A} (a : A) : M St A := fun s => (Ok a, s).

Definition bind {St A B} (m : M St A) (k : A -> M St B) : M St B :=
  fun s => match m s with
           | (Ok a, s') => k a s'
           | (Raise e, s') => (Raise e, s')
           end.

Definition lift {St A} (r : result A) : M St A := fun s => (r, s).

Definition gets {St A} (f : St -> A) : M St A := fun s => (Ok (f s), s).

Definition modify {St} (f : St -> St) : M St unit := fun s => (Ok tt, f s).

(** [try: body except Exception as e: handler(e)] *)
Definition try_except {St A} (body : M St A) (handler : exn -> M St A) : M St A :=
  fun s => match body s with
           | (Ok a, s') => (Ok a, s')
           | (Raise e, s') => handler e s'
           end.

Declare Scope m_scope.
Delimit Scope m_scope with m.
Notation "x <- c ;; k" := (bind c (fun x => k))
  (at level 61, c at next level, right associativity) : m_scope.
Notation "' pat <- c ;; k" := (bind c (fun x => match x with pat => k end))
  (at level 61, pat pattern, c at next level, right associativity) : m_scope.
Notation "c ;;; k" := (bind c (fun _ => k))
  (at level 61, right associativity) : m_scope.

(** [seq[0]] on a list that may be [None]. *)
Definition first_item {A} (seq : option (list A)) : result A :=
  match seq with
  | None => Raise TypeError
  | Some [] => Raise IndexError
  | Some (x :: _) => Ok x
  end.

(** [for x in seq] on a list that may be [None]. *)
Definition iter {A} (seq : option (list A)) : result (list A) :=
  match seq with
  | None => Raise TypeError
  | Some l => Ok l
  end.

(** ** asistente_aerolinea.py *)

Module Aerolinea.
Section Program.
Context {rt : Runtime}.

Definition system_message : string :=
  "Eres un asistente útil para una aerolínea llamada FlightAI. "
  +++ "Da respuestas breves y corteses, de no más de una oración. "
  +++ "Se siempre preciso. Si no sabes la respuesta, dilo.".

Definition ticket_prices : list (string * string) :=
  [("londres", "799€"); ("parís", "899€"); ("tokyo", "1400€");
   ("berlín", "499€")].

Definition get_ticket_price (destination_city : value) : result string :=
  (city <- method_lower destination_city ;;
   Ok (match assoc city ticket_prices with
       | Some price => price
       | None => "Unknown"
       end))%py.

Definition price_function : ToolSchema :=
  {| fn_name := "get_ticket_price";
     fn_properties := ["destination_city"];
     fn_required := ["destination_city"] |}.

Definition tools : list ToolSchema := [price_function].

Definition handle_tool_call (message : ChatCompletionMessage)
  : result (Turn * value) :=
  (tool_call <- first_item (msg_tool_calls message) ;;
   arguments <- json_loads (tc_arguments tool_call) ;;
   city <- method_get arguments "destination_city" VNone ;;
   price <- get_ticket_price city ;;
   first <- first_item (msg_tool_calls message) ;;
   Ok ({| role := tool;
          content := Some (json_dumps
                             (VDict [("destination_city", city);
                                     ("price", VStr price)]));
          tool_calls := None;
          tool_call_id := Some (tc_id first) |},
       city))%py.

(** [messages.append(message)]: the response object itself joins the list. *)
Definition as_turn (message : ChatCompletionMessage) : Turn :=
  {| role := assistant;
     content := msg_content message;
     tool_calls := msg_tool_calls message;
     tool_call_id := None |}.

(** The state of [chat] is the list of requests sent so far. *)
Definition create (sv : Services) (req : Request) : M (list Request) Response :=
  fun sent => (chat_completions_create sv req, sent ++ [req]).

Definition chat (sv : Services) (message : string) (history : list Turn)
  : M (list Request) (option string) :=
  (let messages :=
     [dict_message system system_message] ++ history
     ++ [dict_message user message] in
   response <- create sv {| req_messages := messages;
                            req_tools := Some tools |} ;;
   if String.eqb (finish_reason response) "tool_calls" then
     let message := choice_message response in
     '(tool_response, city) <- lift (handle_tool_call message) ;;
     let messages := (messages ++ [as_turn message]) ++ [tool_response] in
     response <- create sv {| req_messages := messages;
                              req_tools := None |} ;;
     ret (msg_content (choice_message response))
   else
     ret (msg_content (choice_message response)))%m.

End Program.
End Aerolinea.

(** ** The tutor object, shared by both tutor programs *)

(** The attributes [__init__] sets.  [system_prompt] is the formatted
    prompt text. *)
Record Tutor : Type := {
  nivel : string;
  idioma : string;
  historial_conversacion : list Turn;
  system_prompt : string
}.

(** What [__init__] leaves when it returns: the empty history.  (For a
    [nivel] that is not a key of [NIVELES_EDUCATIVOS] it raises and there
    is no object.)  After that, [responder] is the only code that writes
    [historial_conversacion]. *)
Definition init (nivel idioma prompt : string) : Tutor :=
  {| nivel := nivel; idioma := idioma;
     historial_conversacion := []; system_prompt := prompt |}.

(** The tutor object together with the requests sent to the endpoint. *)
Record World : Type := {
  self : Tutor;
  sent : list Request
}.

Definition set_historial (h : list Turn) (w : World) : World :=
  {| self := {| nivel := nivel (self w); idioma := idioma (self w);
                historial_conversacion := h;
                system_prompt := system_prompt (self w) |};
     sent := sent w |}.

(** [openai.chat.completions.create(...)], recorded. *)
Definition create (sv : Services) (req : Request) : M World Response :=
  fun w => (chat_completions_create sv req,
            {| self := self w; sent := sent w ++ [req] |}).

(** [seq[-n:]], for a positive [n]. *)
Definition last_n {A} (n : nat) (seq : list A) : list A :=
  skipn (length seq - n) seq.

(** [self.historial_conversacion.extend(turns)] (or the same appends one
    by one). *)
Definition historial_extend (turns : list Turn) : M World unit :=
  modify (fun w => set_historial (historial_conversacion (self w) ++ turns) w).

(** [if len(h) > 10: h = h[-10:]] on [self.historial_conversacion]. *)
Definition historial_limitar : M World unit :=
  modify (fun w =>
            let h := historial_conversacion (self w) in
            if Nat.ltb 10 (length h) then set_historial (last_n 10 h) w else w).

(** [None] or a string, as a Python object. *)
Definition of_option (o : option string) : value :=
  match o with
  | Some s => VStr s
  | None => VNone
  end.

(** Truth value of a Python object.  A number is false when its mantissa
    has no digit other than zero. *)
Fixpoint mantissa_zero (lexeme : string) : bool :=
  match lexeme with
  | EmptyString => true
  | String c rest =>
      if (Ascii.eqb c "e" || Ascii.eqb c "E")%bool then true
      else if (Ascii.eqb c "0" || Ascii.eqb c "-" || Ascii.eqb c ".")%bool
           then mantissa_zero rest
           else false
  end.

Definition value_truthy (v : value) : bool :=
  match v with
  | VNone => false
  | VBool b => b
  | VNum lexeme => negb (mantissa_zero lexeme)
  | VStr s => negb (String.eqb s "")
  | VList l => match l with [] => false | _ => true end
  | VDict d => match d with [] => false | _ => true end
  end.

(** The assistant entry built from a tool-call message:
    [{"role": "assistant", "content": message.content, "tool_calls": [...]}] *)
Definition assistant_tool_calls (message : ChatCompletionMessage)
    (calls : list ToolCall) : Turn :=
  {| role := assistant;
     content := msg_content message;
     tool_calls :=
       Some (map (fun tool_call =>
                    {| tc_id := tc_id tool_call;
                       tc_name := tc_name tool_call;
                       tc_arguments := tc_arguments tool_call |}) calls);
     tool_call_id := None |}.

(** ** tutor_robotica_simple.py *)

Module TutorSimple.
Section Program.
Context {rt : Runtime}.

(** [codigos], the table of Arduino listings of [mostrar_codigo_ejemplo]:
    concept, then level, then listing.  The listings are opaque text. *)
Variable codigos : list (string * list (string * string)).

Definition TEMAS_ROBOTICA : list string :=
  ["arduino"; "electronica"; "mecatronica"; "programacion";
   "sensores"; "actuadores"; "motores"; "circuitos"; "codigo";
   "proyectos"; "robotica_basica"; "automatizacion"].

Definition generar_audio_educativo (sv : Services) (texto : value)
  : option string :=
  match audio_speech_create sv texto with
  | Ok temp_file_path => Some temp_file_path
  | Raise _ => None
  end.

Definition explicaciones : list (string * list (string * string)) :=
  [("led",
    [("preescolar", "Un LED es como una lucecita mágica que se enciende cuando le damos energía ⚡✨");
     ("primaria", "Un LED es un diodo emisor de luz que convierte electricidad en luz de colores 💡");
     ("secundaria", "Un LED es un semiconductor que emite luz cuando la corriente eléctrica pasa a través de él");
     ("preparatoria", "Un LED es un diodo semiconductor que emite fotones mediante electroluminiscencia cuando se polariza directamente")]);
   ("sensor",
    [("preescolar", "Un sensor es como los ojos y oídos del robot, le ayuda a ver y sentir el mundo 👀👂");
     ("primaria", "Un sensor detecta cambios en el ambiente como luz, temperatura o movimiento 🌡️");
     ("secundaria", "Un sensor convierte magnitudes físicas en señales eléctricas que Arduino puede leer");
     ("preparatoria", "Un sensor es un transductor que convierte variables físicas en señales eléctricas analógicas o digitales")]);
   ("resistencia",
    [("preescolar", "Una resistencia es como un obstáculo que hace que la electricidad vaya más despacio 🚧");
     ("primaria", "Una resistencia limita la cantidad de corriente que puede pasar por un circuito ⚡");
     ("secundaria", "Una resistencia controla el flujo de corriente eléctrica según la ley de Ohm (V=I×R)");
     ("preparatoria", "Una resistencia es un componente pasivo que se opone al paso de la corriente eléctrica, disipando energía en forma de calor")]);
   ("motor",
    [("preescolar", "Un motor es como el músculo del robot que lo ayuda a moverse 💪🤖");
     ("primaria", "Un motor convierte electricidad en movimiento para hacer girar ruedas o mover partes 🔄");
     ("secundaria", "Un motor eléctrico transforma energía eléctrica en energía mecánica rotacional");
     ("preparatoria", "Un motor es una máquina eléctrica que convierte energía eléctrica en energía mecánica mediante campos magnéticos")])].

Definition explicar_componente_arduino (componente nivel : value)
  : result value :=
  (por_nivel <- dict_get explicaciones componente [] ;;
   explicacion <- dict_get por_nivel nivel
                    ("Información sobre " +++ str_of componente
                     +++ " para nivel " +++ str_of nivel) ;;
   Ok (VDict [("explicacion", VStr explicacion);
              ("generar_audio", VBool true)]))%py.

Definition mostrar_codigo_ejemplo (concepto nivel : value) : result value :=
  (por_nivel <- dict_get codigos concepto [] ;;
   codigo <- dict_get por_nivel nivel
               ("// Código de ejemplo para " +++ str_of concepto) ;;
   Ok (VDict [("codigo", VStr codigo);
              ("explicacion",
               VStr ("Ejemplo de código para " +++ str_of concepto
                     +++ " adaptado al nivel " +++ str_of nivel));
              ("generar_audio", VBool false)]))%py.

Definition herramientas_educativas : list ToolSchema :=
  [{| fn_name := "explicar_componente_arduino";
      fn_properties := ["componente"; "nivel"];
      fn_required := ["componente"; "nivel"] |};
   {| fn_name := "mostrar_codigo_ejemplo";
      fn_properties := ["concepto"; "nivel"];
      fn_required := ["concepto"; "nivel"] |}].

Definition manejar_herramienta (sv : Services) (tool_call : ToolCall)
  : result (Turn * option string) :=
  (let function_name := tc_name tool_call in
   arguments <- json_loads (tc_arguments tool_call) ;;
   let audio_generado : option string := None in
   '(resultado, audio_generado) <-
      (if String.eqb function_name "explicar_componente_arduino" then
         componente <- getitem arguments "componente" ;;
         nivel <- getitem arguments "nivel" ;;
         resultado <- explicar_componente_arduino componente nivel ;;
         flag <- method_get resultado "generar_audio" VNone ;;
         if value_truthy flag then
           texto <- getitem resultado "explicacion" ;;
           Ok (resultado, generar_audio_educativo sv texto)
         else Ok (resultado, audio_generado)
       else if String.eqb function_name "mostrar_codigo_ejemplo" then
         concepto <- getitem arguments "concepto" ;;
         nivel <- getitem arguments "nivel" ;;
         resultado <- mostrar_codigo_ejemplo concepto nivel ;;
         Ok (resultado, audio_generado)
       else
         Ok (VDict [("error",
                     VStr ("Herramienta " +++ function_name
                           +++ " no reconocida"))],
             audio_generado)) ;;
   let respuesta_herramienta :=
     {| role := tool;
        content := Some (json_dumps resultado);
        tool_calls := None;
        tool_call_id := Some (tc_id tool_call) |} in
   Ok (respuesta_herramienta, audio_generado))%py.

(** The loop [for tool_call in message.tool_calls] of [responder]. *)
Fixpoint for_tool_calls (sv : Services) (calls : list ToolCall)
    (mensajes : list Turn) (audio_resultado : option string)
  : result (list Turn * option string) :=
  match calls with
  | [] => Ok (mensajes, audio_resultado)
  | tool_call :: rest =>
      ('(respuesta_herramienta, audio) <- manejar_herramienta sv tool_call ;;
       let audio_resultado :=
         if truthy audio then audio else audio_resultado in
       for_tool_calls sv rest (mensajes ++ [respuesta_herramienta])
                      audio_resultado)%py
  end.

(** The [try] block of [responder]. *)
Definition responder_try (sv : Services) (mensaje : string)
  : M World (option string * option string) :=
    (historial <- gets (fun w => historial_conversacion (self w)) ;;
     prompt <- gets (fun w => system_prompt (self w)) ;;
     let mensajes :=
       [dict_message system prompt] ++ historial
       ++ [dict_message user mensaje] in
     response <- create sv {| req_messages := mensajes;
                              req_tools := Some herramientas_educativas |} ;;
     let audio_resultado : option string := None in
     '(response, audio_resultado) <-
        (if String.eqb (finish_reason response) "tool_calls" then
           let message := choice_message response in
           calls <- lift (iter (msg_tool_calls message)) ;;
           let mensajes := mensajes ++ [assistant_tool_calls message calls] in
           '(mensajes, audio_resultado) <-
              lift (for_tool_calls sv calls mensajes audio_resultado) ;;
           response <- create sv {| req_messages := mensajes;
                                    req_tools := None |} ;;
           ret (response, audio_resultado)
         else ret (response, audio_resultado)) ;;
     let respuesta_texto := msg_content (choice_message response) in
     audio_resultado <-
        (if negb (truthy audio_resultado) then
           let mensaje_lower := str_lower mensaje in
           respuesta_lower <- lift (method_lower (of_option respuesta_texto)) ;;
           if existsb (fun tema => contains tema mensaje_lower
                                   || contains tema respuesta_lower)
                      TEMAS_ROBOTICA
           then ret (generar_audio_educativo sv (of_option respuesta_texto))
           else ret audio_resultado
         else ret audio_resultado) ;;
     historial_extend
       [dict_message user mensaje;
        {| role := assistant; content := respuesta_texto;
           tool_calls := None; tool_call_id := None |}] ;;;
     historial_limitar ;;;
     ret (respuesta_texto, audio_resultado))%m.

Definition responder (sv : Services) (mensaje : string)
  : M World (option string * option string) :=
  try_except (responder_try sv mensaje)
    (fun e =>
       let error_msg := "Error procesando mensaje: " +++ str_exn e in
       ret (Some error_msg, None)).

End Program.
End TutorSimple.

(** ** tutor_robotica_multimodal.py *)

Module TutorMultimodal.
Section Program.
Context {rt : Runtime}.

(** [codigos], the table of Arduino listings of [mostrar_codigo_ejemplo]. *)
Variable codigos : list (string * list (string * string)).

(** The [try] body builds the prompt, calls the image service, downloads
    and opens the picture; any exception gives [None]. *)
Definition generar_imagen_educativa (sv : Services)
    (tema nivel descripcion_especifica : value) : option Image :=
  match images_generate sv tema nivel descripcion_especifica with
  | Ok image => Some image
  | Raise _ => None
  end.

Definition generar_audio_educativo (sv : Services) (texto : value)
  : option string :=
  match audio_speech_create sv texto with
  | Ok temp_file_path => Some temp_file_path
  | Raise _ => None
  end.

Definition explicaciones : list (string * list (string * string)) :=
  [("led",
    [("preescolar", "Un LED es como una lucecita mágica que se enciende cuando le damos energía ⚡✨");
     ("primaria", "Un LED es un diodo emisor de luz que convierte electricidad en luz de colores 💡");
     ("secundaria", "Un LED es un semiconductor que emite luz cuando la corriente eléctrica pasa a través de él");
     ("preparatoria", "Un LED es un diodo semiconductor que emite fotones mediante electroluminiscencia cuando se polariza directamente")]);
   ("sensor",
    [("preescolar", "Un sensor es como los ojos y oídos del robot, le ayuda a ver y sentir el mundo 👀👂");
     ("primaria", "Un sensor detecta cambios en el ambiente como luz, temperatura o movimiento 🌡️");
     ("secundaria", "Un sensor convierte magnitudes físicas en señales eléctricas que Arduino puede leer");
     ("preparatoria", "Un sensor es un transductor que convierte variables físicas en señales eléctricas analógicas o digitales")])].

Definition explicar_componente_arduino (componente nivel : value)
  : result value :=
  (por_nivel <- dict_get explicaciones componente [] ;;
   explicacion <- dict_get por_nivel nivel
                    ("Información sobre " +++ str_of componente
                     +++ " para nivel " +++ str_of nivel) ;;
   Ok (VDict [("explicacion", VStr explicacion);
              ("generar_imagen", VBool true);
              ("tema_imagen", componente);
              ("generar_audio", VBool true)]))%py.

Definition mostrar_codigo_ejemplo (concepto nivel : value) : result value :=
  (por_nivel <- dict_get codigos concepto [] ;;
   codigo <- dict_get por_nivel nivel
               ("// Código de ejemplo para " +++ str_of concepto) ;;
   Ok (VDict [("codigo", VStr codigo);
              ("explicacion",
               VStr ("Ejemplo de código para " +++ str_of concepto
                     +++ " adaptado al nivel " +++ str_of nivel));
              ("generar_imagen", VBool true);
              ("tema_imagen", VStr ("código " +++ str_of concepto));
              ("generar_audio", VBool false)]))%py.

Definition herramientas_educativas : list ToolSchema :=
  [{| fn_name := "explicar_componente_arduino";
      fn_properties := ["componente"; "nivel"];
      fn_required := ["componente"; "nivel"] |};
   {| fn_name := "mostrar_codigo_ejemplo";
      fn_properties := ["concepto"; "nivel"];
      fn_required := ["concepto"; "nivel"] |};
   {| fn_name := "generar_imagen_educativa";
      fn_properties := ["tema"; "nivel"; "descripcion_especifica"];
      fn_required := ["tema"; "nivel"] |}].

Definition manejar_herramienta (sv : Services) (tool_call : ToolCall)
  : result (Turn * option Image * option string) :=
  (let function_name := tc_name tool_call in
   arguments <- json_loads (tc_arguments tool_call) ;;
   let imagen_generada : option Image := None in
   let audio_generado : option string := None in
   '(resultado, imagen_generada, audio_generado) <-
      (if String.eqb function_name "explicar_componente_arduino" then
         componente <- getitem arguments "componente" ;;
         nivel <- getitem arguments "nivel" ;;
         resultado <- explicar_componente_arduino componente nivel ;;
         con_imagen <- method_get resultado "generar_imagen" VNone ;;
         imagen_generada <-
           (if value_truthy con_imagen then
              tema <- getitem resultado "tema_imagen" ;;
              nivel <- getitem arguments "nivel" ;;
              componente <- getitem arguments "componente" ;;
              Ok (generar_imagen_educativa sv tema nivel
                    (VStr ("componente " +++ str_of componente
                           +++ " para educación")))
            else Ok imagen_generada) ;;
         con_audio <- method_get resultado "generar_audio" VNone ;;
         if value_truthy con_audio then
           texto <- getitem resultado "explicacion" ;;
           Ok (resultado, imagen_generada, generar_audio_educativo sv texto)
         else Ok (resultado, imagen_generada, audio_generado)
       else if String.eqb function_name "mostrar_codigo_ejemplo" then
         concepto <- getitem arguments "concepto" ;;
         nivel <- getitem arguments "nivel" ;;
         resultado <- mostrar_codigo_ejemplo concepto nivel ;;
         con_imagen <- method_get resultado "generar_imagen" VNone ;;
         if value_truthy con_imagen then
           nivel <- getitem arguments "nivel" ;;
           concepto <- getitem arguments "concepto" ;;
           Ok (resultado,
               generar_imagen_educativa sv (VStr "programacion arduino") nivel
                 (VStr ("código de ejemplo para " +++ str_of concepto)),
               audio_generado)
         else Ok (resultado, imagen_generada, audio_generado)
       else if String.eqb function_name "generar_imagen_educativa" then
         tema <- getitem arguments "tema" ;;
         nivel <- getitem arguments "nivel" ;;
         descripcion <- method_get arguments "descripcion_especifica" (VStr "") ;;
         let imagen_generada :=
           generar_imagen_educativa sv tema nivel descripcion in
         tema <- getitem arguments "tema" ;;
         Ok (VDict [("mensaje",
                     VStr ("Imagen generada para " +++ str_of tema))],
             imagen_generada, audio_generado)
       else
         Ok (VDict [("error",
                     VStr ("Herramienta " +++ function_name
                           +++ " no reconocida"))],
             imagen_generada, audio_generado)) ;;
   let respuesta_herramienta :=
     {| role := tool;
        content := Some (json_dumps resultado);
        tool_calls := None;
        tool_call_id := Some (tc_id tool_call) |} in
   Ok (respuesta_herramienta, imagen_generada, audio_generado))%py.

(** The loop [for tool_call in message.tool_calls] of [responder]. *)
Fixpoint for_tool_calls (sv : Services) (calls : list ToolCall)
    (mensajes : list Turn) (imagen_resultado : option Image)
    (audio_resultado : option string)
  : result (list Turn * option Image * option string) :=
  match calls with
  | [] => Ok (mensajes, imagen_resultado, audio_resultado)
  | tool_call :: rest =>
      ('(respuesta_herramienta, imagen, audio) <-
          manejar_herramienta sv tool_call ;;
       let imagen_resultado :=
         match imagen with Some _ => imagen | None => imagen_resultado end in
       let audio_resultado :=
         if truthy audio then audio else audio_resultado in
       for_tool_calls sv rest (mensajes ++ [respuesta_herramienta])
                      imagen_resultado audio_resultado)%py
  end.

Definition palabras_clave : list string :=
  ["arduino"; "sensor"; "led"; "motor"; "circuito"; "robot"; "componente";
   "electronica"; "programacion"; "codigo"; "esquema"; "diagrama"].

(** The [try] block of [responder]. *)
Definition responder_try (sv : Services) (mensaje : string)
  : M World (option string * option Image * option string) :=
    (historial <- gets (fun w => historial_conversacion (self w)) ;;
     prompt <- gets (fun w => system_prompt (self w)) ;;
     let mensajes :=
       [dict_message system prompt] ++ historial
       ++ [dict_message user mensaje] in
     response <- create sv {| req_messages := mensajes;
                              req_tools := Some herramientas_educativas |} ;;
     let imagen_resultado : option Image := None in
     let audio_resultado : option string := None in
     '(response, imagen_resultado, audio_resultado) <-
        (if String.eqb (finish_reason response) "tool_calls" then
           let message := choice_message response in
           calls <- lift (iter (msg_tool_calls message)) ;;
           let mensajes := mensajes ++ [assistant_tool_calls message calls] in
           '(mensajes, imagen_resultado, audio_resultado) <-
              lift (for_tool_calls sv calls mensajes
                                   imagen_resultado audio_resultado) ;;
           response <- create sv {| req_messages := mensajes;
                                    req_tools := None |} ;;
           ret (response, imagen_resultado, audio_resultado)
         else ret (response, imagen_resultado, audio_resultado)) ;;
     let respuesta_texto := msg_content (choice_message response) in
     let audio_resultado :=
       if negb (truthy audio_resultado)
       then generar_audio_educativo sv (of_option respuesta_texto)
       else audio_resultado in
     nivel_actual <- gets (fun w => nivel (self w)) ;;
     let imagen_resultado :=
       match imagen_resultado with
       | Some _ => imagen_resultado
       | None =>
           if existsb (fun palabra => contains palabra (str_lower mensaje))
                      palabras_clave
           then
             let tema_detectado :=
               match find (fun palabra => contains palabra (str_lower mensaje))
                          palabras_clave with
               | Some palabra => palabra
               | None => "robotica"
               end in
             generar_imagen_educativa sv (VStr tema_detectado)
               (VStr nivel_actual)
               (VStr ("concepto educativo sobre " +++ tema_detectado))
           else imagen_resultado
       end in
     historial_extend [dict_message user mensaje] ;;;
     historial_extend [{| role := assistant; content := respuesta_texto;
                          tool_calls := None; tool_call_id := None |}] ;;;
     historial_limitar ;;;
     ret (respuesta_texto, imagen_resultado, audio_resultado))%m.

Definition responder (sv : Services) (mensaje : string)
  : M World (option string * option Image * option string) :=
  try_except (responder_try sv mensaje)
    (fun e =>
       let error_msg := "❌ Error procesando mensaje: " +++ str_exn e in
       ret (Some error_msg, None, None)).

End Program.
End TutorMultimodal.

(** ** Successive calls on one tutor object *)

(** The tutor object after a sequence of [responder] calls, each with the
    services as they answered during that call. *)
Definition successive_calls {A}
    (responder : Services -> string -> M World A)
    (calls : list (Services * string)) (w : World) : World :=
  fold_left (fun w call => snd (responder (fst call) (snd call) w)) calls w.

(** A history made of (user, assistant) pairs. *)
Fixpoint alternates (h : list Turn) : bool :=
  match h with
  | [] => true
  | u :: a :: rest =>
      Role_eqb (role u) user && Role_eqb (role a) assistant && alternates rest
  | _ => false
  end.

Definition count_role (r : Role) (turns : list Turn) : nat :=
  length (filter (fun t => Role_eqb (role t) r) turns).

(** A tool turn that answers the request [tc]. *)
Definition answers (tc : ToolCall) (t : Turn) : Prop :=
  role t = tool /\ tool_call_id t = Some (tc_id tc).

Definition is_ok {A} (r : result A) : bool :=
  match r with
  | Ok _ => true
  | Raise _ => false
  end.

(** ** The endpoint exchange of one turn

    What [responder] does up to its last endpoint call, as a relation
    between the requests it sends and what it is left with: the final
    response and the media gathered by the tools, or the exception that
    ended the [try] block.  [dispatch] is the loop over the tool calls,
    started on the media [x0]. *)

Definition first_request (tools : list ToolSchema) (t : Tutor)
    (mensaje : string) : Request :=
  {| req_messages :=
       [dict_message system (system_prompt t)] ++ historial_conversacion t
       ++ [dict_message user mensaje];
     req_tools := Some tools |}.

Definition second_request (mensajes : list Turn) : Request :=
  {| req_messages := mensajes; req_tools := None |}.

Section Exchange.
Context {X : Type}.
Variable sv : Services.
Variable tools : list ToolSchema.
Variable dispatch : list ToolCall -> list Turn -> result (list Turn * X).
Variable x0 : X.
Variable t : Tutor.
Variable mensaje : string.

Let req1 := first_request tools t mensaje.

Inductive exchange : list Request -> result (Response * X) -> Prop :=
| first_raises e :
    chat_completions_create sv req1 = Raise e ->
    exchange [req1] (Raise e)
| no_tools r1 :
    chat_completions_create sv req1 = Ok r1 ->
    String.eqb (finish_reason r1) "tool_calls" = false ->
    exchange [req1] (Ok (r1, x0))
| tool_calls_missing r1 :
    chat_completions_create sv req1 = Ok r1 ->
    String.eqb (finish_reason r1) "tool_calls" = true ->
    msg_tool_calls (choice_message r1) = None ->
    exchange [req1] (Raise TypeError)
| dispatch_raises r1 calls e :
    chat_completions_create sv req1 = Ok r1 ->
    String.eqb (finish_reason r1) "tool_calls" = true ->
    msg_tool_calls (choice_message r1) = Some calls ->
    dispatch calls
      (req_messages req1 ++ [assistant_tool_calls (choice_message r1) calls])
    = Raise e ->
    exchange [req1] (Raise e)
| second_raises r1 calls mensajes x e :
    chat_completions_create sv req1 = Ok r1 ->
    String.eqb (finish_reason r1) "tool_calls" = true ->
    msg_tool_calls (choice_message r1) = Some calls ->
    dispatch calls
      (req_messages req1 ++ [assistant_tool_calls (choice_message r1) calls])
    = Ok (mensajes, x) ->
    chat_completions_create sv (second_request mensajes) = Raise e ->
    exchange [req1; second_request mensajes] (Raise e)
| second_answers r1 calls mensajes x r2 :
    chat_completions_create sv req1 = Ok r1 ->
    String.eqb (finish_reason r1) "tool_calls" = true ->
    msg_tool_calls (choice_message r1) = Some calls ->
    dispatch calls
      (req_messages req1 ++ [assistant_tool_calls (choice_message r1) calls])
    = Ok (mensajes, x) ->
    chat_completions_create sv (second_request mensajes) = Ok r2 ->
    exchange [req1; second_request mensajes] (Ok (r2, x)).
End Exchange.

(** The first request of [chat]. *)
Definition chat_request (message : string) (history : list Turn) : Request :=
  {| req_messages :=
       [dict_message system Aerolinea.system_message] ++ history
       ++ [dict_message user message];
     req_tools := Some Aerolinea.tools |}.

(** [t] is the tool turn [manejar_herramienta] of the simple tutor builds
    for the request [tc]. *)
Definition handled {rt : Runtime} (codigos : list (string * list (string * string)))
    (sv : Services) (tc : ToolCall) (t : Turn) : Prop :=
  exists audio, TutorSimple.manejar_herramienta codigos sv tc = Ok (t, audio).

(** What the handlers of the two [responder]s return for [e]. *)
Definition simple_error {rt : Runtime} (e : exn)
  : option string * option string :=
  (Some ("Error procesando mensaje: " +++ str_exn e), None).

Definition multimodal_error {rt : Runtime} (e : exn)
  : option string * option Image * option string :=
  (Some ("❌ Error procesando mensaje: " +++ str_exn e), None, None).

(** The loop of the multimodal tutor, its two media paired. *)
Definition multimodal_dispatch {rt : Runtime}
    (codigos : list (string * list (string * string))) (sv : Services)
    (calls : list ToolCall) (mensajes : list Turn)
  : result (list Turn * (option Image * option string)) :=
  match TutorMultimodal.for_tool_calls codigos sv calls mensajes None None with
  | Ok (mensajes', imagen, audio) => Ok (mensajes', (imagen, audio))
  | Raise e => Raise e
  end.

(** The properties of a tutor object that [responder] maintains. *)
Definition well_kept (prompt : string) (t : Tutor) : Prop :=
  length (historial_conversacion t) <= 10
  /\ alternates (historial_conversacion t) = true
  /\ system_prompt t = prompt.

(** The requests added to the log [before] to give the log [after]. *)
Definition sent_during (before after : list Request) : list Request :=
  skipn (length before) after.

(** [name] is not the name of a declared tool. *)
Definition undeclared (tools : list ToolSchema) (name : string) : bool :=
  negb (existsb (String.eqb name) (map fn_name tools)).

(** Exactly one system turn, in first position. *)
Definition system_first (req : Request) : Prop :=
  count_role system (req_messages req) = 1
  /\ exists t rest, req_messages req = t :: rest /\ role t = system.

(** The world once [reqs] have been sent. *)
Definition logged (w : World) (reqs : list Request) : World :=
  {| self := self w; sent := sent w ++ reqs |}.

(** The two turns [responder] stores for a reply. *)
Definition stored_pair (mensaje : string) (reply : option string) : list Turn :=
  [dict_message user mensaje;
   {| role := assistant; content := reply;
      tool_calls := None; tool_call_id := None |}].

(** The history after [responder] stored a reply. *)
Definition updated (h : list Turn) (mensaje : string) (reply : option string)
  : list Turn :=
  let h' := h ++ stored_pair mensaje reply in
  if Nat.ltb 10 (length h') then last_n 10 h' else h'.

(** ** A reference runtime for worked examples

    One instance of [Runtime], executable, on which the examples below
    are run.  It follows CPython on the texts the examples use: ASCII and
    Latin-1 letters for [lower]; for [json.loads], objects, arrays,
    strings with the one-letter escapes, numbers and the three literals;
    [json.dumps] with its default separators and [ensure_ascii]. *)

Module Sample.
Local Open Scope nat_scope.

Definition dquote : ascii := "034".
Definition backslash : ascii := "092".
Definition q (s : string) : string := String dquote (s +++ String dquote "").

(** *** [str.lower] *)

Definition lower_ascii (c : ascii) : ascii :=
  let n := nat_of_ascii c in
  if (65 <=? n) && (n <=? 90) then ascii_of_nat (n + 32) else c.

(** Latin-1 capitals are the two-byte sequences [C3 80] to [C3 9E],
    the multiplication sign [C3 97] excepted. *)
Fixpoint lower (s : string) : string :=
  match s with
  | EmptyString => EmptyString
  | String c rest =>
      match rest with
      | String c2 rest2 =>
          let n2 := nat_of_ascii c2 in
          if (nat_of_ascii c =? 195) && (128 <=? n2) && (n2 <=? 158)
             && negb (n2 =? 151)
          then String c (String (ascii_of_nat (n2 + 32)) (lower rest2))
          else String (lower_ascii c) (lower rest)
      | EmptyString => String (lower_ascii c) EmptyString
      end
  end.

(** *** [json.loads] *)

Definition is_ws (c : ascii) : bool :=
  let n := nat_of_ascii c in
  (n =? 32) || (n =? 9) || (n =? 10) || (n =? 13).

Fixpoint skip_ws (s : string) : string :=
  match s with
  | String c rest => if is_ws c then skip_ws rest else s
  | EmptyString => EmptyString
  end.

Definition unescape (c : ascii) : option ascii :=
  let n := nat_of_ascii c in
  if (n =? 34) || (n =? 92) || (n =? 47) then Some c
  else if n =? 110 then Some (ascii_of_nat 10)
  else if n =? 116 then Some (ascii_of_nat 9)
  else if n =? 114 then Some (ascii_of_nat 13)
  else if n =? 98 then Some (ascii_of_nat 8)
  else if n =? 102 then Some (ascii_of_nat 12)
  else None.

(** The characters of a string literal after its opening quote, and the
    text after its closing quote. *)
Fixpoint read_chars (s : string) : option (string * string) :=
  match s with
  | EmptyString => None
  | String c rest =>
      if Ascii.eqb c dquote then Some (EmptyString, rest)
      else if Ascii.eqb c backslash then
        match rest with
        | String e rest2 =>
            match unescape e, read_chars rest2 with
            | Some c', Some (t, r) => Some (String c' t, r)
            | _, _ => None
            end
        | EmptyString => None
        end
      else if nat_of_ascii c <? 32 then None
      else match read_chars rest with
           | Some (t, r) => Some (String c t, r)
           | None => None
           end
  end.

Definition is_digit (c : ascii) : bool :=
  (48 <=? nat_of_ascii c) && (nat_of_ascii c <=? 57).

Fixpoint read_digits (s : string) : string * string :=
  match s with
  | String c rest =>
      if is_digit c then let '(d, r) := read_digits rest in (String c d, r)
      else (EmptyString, s)
  | EmptyString => (EmptyString, EmptyString)
  end.

(** [-? int frac? exp?], the lexeme and the rest. *)
Definition read_number (s : string) : option (string * string) :=
  let '(sign, s1) :=
    match s with
    | String "-" r => ("-", r)
    | _ => (EmptyString, s)
    end in
  let '(int, s2) := read_digits s1 in
  match int with
  | EmptyString => None
  | String "0" (String _ _) => None
  | _ =>
      let frac :=
        match s2 with
        | String "." r =>
            let '(d, r') := read_digits r in
            match d with
            | EmptyString => None
            | _ => Some ("." +++ d, r')
            end
        | _ => Some (EmptyString, s2)
        end in
      match frac with
      | None => None
      | Some (f, s3) =>
          let with_exp (e : ascii) (r : string) :=
            let '(sg, r1) :=
              match r with
              | String "+" r' => ("+", r')
              | String "-" r' => ("-", r')
              | _ => (EmptyString, r)
              end in
            let '(d, r2) := read_digits r1 in
            match d with
            | EmptyString => None
            | _ => Some (sign +++ int +++ f +++ String e sg +++ d, r2)
            end in
          match s3 with
          | String "e" r => with_exp "e"%char r
          | String "E" r => with_exp "E"%char r
          | _ => Some (sign +++ int +++ f, s3)
          end
      end
  end.

(** [d[k] = v] on a dictionary in insertion order. *)
Fixpoint dict_set (k : string) (v : value) (d : list (string * value))
  : list (string * value) :=
  match d with
  | [] => [(k, v)]
  | (k', v') :: d' =>
      if String.eqb k k' then (k, v) :: d' else (k', v') :: dict_set k v d'
  end.

Definition strip_prefix (p s : string) : option string :=
  if prefix p s then Some (substring (String.length p)
                                     (String.length s - String.length p) s)
  else None.

Fixpoint read_value (fuel : nat) (s : string) : option (value * string) :=
  match fuel with
  | 0 => None
  | S fuel =>
      match skip_ws s with
      | EmptyString => None
      | String c rest as s' =>
          if Ascii.eqb c dquote then
            match read_chars rest with
            | Some (t, r) => Some (VStr t, r)
            | None => None
            end
          else if Ascii.eqb c "{" then
            match skip_ws rest with
            | String "}" r => Some (VDict [], r)
            | _ => read_members fuel rest []
            end
          else if Ascii.eqb c "[" then
            match skip_ws rest with
            | String "]" r => Some (VList [], r)
            | _ => read_items fuel rest []
            end
          else match strip_prefix "true" s', strip_prefix "false" s',
                     strip_prefix "null" s' with
               | Some r, _, _ => Some (VBool true, r)
               | _, Some r, _ => Some (VBool false, r)
               | _, _, Some r => Some (VNone, r)
               | _, _, _ =>
                   match read_number s' with
                   | Some (lexeme, r) => Some (VNum lexeme, r)
                   | None => None
                   end
               end
      end
  end
with read_members (fuel : nat) (s : string) (acc : list (string * value))
  : option (value * string) :=
  match fuel with
  | 0 => None
  | S fuel =>
      match skip_ws s with
      | String c rest =>
          if Ascii.eqb c dquote then
            match read_chars rest with
            | Some (k, r) =>
                match skip_ws r with
                | String ":" r2 =>
                    match read_value fuel r2 with
                    | Some (v, r3) =>
                        let acc := dict_set k v acc in
                        match skip_ws r3 with
                        | String "," r4 => read_members fuel r4 acc
                        | String "}" r4 => Some (VDict acc, r4)
                        | _ => None
                        end
                    | None => None
                    end
                | _ => None
                end
            | None => None
            end
          else None
      | EmptyString => None
      end
  end
with read_items (fuel : nat) (s : string) (acc : list value)
  : option (value * string) :=
  match fuel with
  | 0 => None
  | S fuel =>
      match read_value fuel s with
      | Some (v, r) =>
          match skip_ws r with
          | String "," r2 => read_items fuel r2 (acc ++ [v])
          | String "]" r2 => Some (VList (acc ++ [v]), r2)
          | _ => None
          end
      | None => None
      end
  end.

Definition loads (text : string) : result value :=
  match read_value (S (String.length text)) text with
  | Some (v, rest) =>
      match skip_ws rest with
      | EmptyString => Ok v
      | _ => Raise JSONDecodeError
      end
  | None => Raise JSONDecodeError
  end.

(** *** [json.dumps] *)

Definition hex_digit (n : N) : ascii :=
  if (n <? 10)%N then ascii_of_N (48 + n) else ascii_of_N (87 + n).

(** [\uXXXX] for a code unit below 65536. *)
Definition u_escape (n : N) : string :=
  String backslash
    (String "u"
       (String (hex_digit (n / 4096))
          (String (hex_digit ((n / 256) mod 16))
             (String (hex_digit ((n / 16) mod 16))
                (String (hex_digit (n mod 16)) EmptyString)))))%N.

(** A code point as [ensure_ascii] writes it: one escape, or a
    surrogate pair above the basic plane. *)
Definition cp_escape (cp : N) : string :=
  if (cp <? 65536)%N then u_escape cp
  else u_escape (55296 + (cp - 65536) / 1024)%N
       +++ u_escape (56320 + (cp - 65536) mod 1024)%N.

Definition short_escape (n : nat) : option ascii :=
  if (n =? 34) || (n =? 92) then Some (ascii_of_nat n)
  else if n =? 10 then Some "n"%char
  else if n =? 13 then Some "r"%char
  else if n =? 9 then Some "t"%char
  else if n =? 8 then Some "b"%char
  else if n =? 12 then Some "f"%char
  else None.

(** The payload bits of a UTF-8 byte: the low [2^k] values. *)
Definition low (c : ascii) (m : N) : N := (N_of_ascii c mod m)%N.

(** The body of a string literal, from UTF-8 text. *)
Fixpoint escape (s : string) : string :=
  match s with
  | EmptyString => EmptyString
  | String c rest =>
      let n := nat_of_ascii c in
      match short_escape n with
      | Some e => String backslash (String e (escape rest))
      | None =>
          if (32 <=? n) && (n <? 127) then String c (escape rest)
          else if n <? 128 then u_escape (N.of_nat n) +++ escape rest
          else
            match rest with
            | String c2 rest2 =>
                if n <? 224 then
                  cp_escape (low c 32 * 64 + low c2 64)%N +++ escape rest2
                else
                  match rest2 with
                  | String c3 rest3 =>
                      if n <? 240 then
                        cp_escape (low c 16 * 4096 + low c2 64 * 64
                                   + low c3 64)%N
                        +++ escape rest3
                      else
                        match rest3 with
                        | String c4 rest4 =>
                            cp_escape (low c 8 * 262144 + low c2 64 * 4096
                                       + low c3 64 * 64 + low c4 64)%N
                            +++ escape rest4
                        | EmptyString => String c (escape rest)
                        end
                  | EmptyString => String c (escape rest)
                  end
            | EmptyString => String c EmptyString
            end
      end
  end.

(** A number is written back as it was read. *)
Fixpoint dumps (v : value) : string :=
  match v with
  | VNone => "null"
  | VBool true => "true"
  | VBool false => "false"
  | VNum lexeme => lexeme
  | VStr s => q (escape s)
  | VList items =>
      "[" +++ (fix go (l : list value) : string :=
                 match l with
                 | [] => EmptyString
                 | [x] => dumps x
                 | x :: l' => dumps x +++ ", " +++ go l'
                 end) items +++ "]"
  | VDict members =>
      "{" +++ (fix go (l : list (string * value)) : string :=
                 match l with
                 | [] => EmptyString
                 | [(k, x)] => q (escape k) +++ ": " +++ dumps x
                 | (k, x) :: l' =>
                     q (escape k) +++ ": " +++ dumps x +++ ", " +++ go l'
                 end) members +++ "}"
  end.

(** *** [str()] *)

(** Exact on strings, [None] and booleans; a number is shown as read
    and a container in its JSON text. *)
Definition to_str (v : value) : string :=
  match v with
  | VStr s => s
  | VNone => "None"
  | VBool true => "True"
  | VBool false => "False"
  | other => dumps other
  end.

(** The class of the exception stands for its text, which in CPython
    also names the operands. *)
Definition exn_text (e : exn) : string :=
  match e with
  | JSONDecodeError => "JSONDecodeError"
  | KeyError key => "'" +++ key +++ "'"
  | TypeError => "TypeError"
  | AttributeError => "AttributeError"
  | IndexError => "IndexError"
  | APIError detail => detail
  end.

Definition runtime : Runtime :=
  {| json_loads := loads;
     json_dumps := dumps;
     str_lower := lower;
     str_of := to_str;
     str_exn := exn_text |}.

End Sample.

(** ** Scripted conversations

    Test doubles for the hosted services, and the conversations on which
    the examples are run. *)

Module Scenario.
Import Sample.

(** [{"key": "text"}] *)
Definition object1 (key text : string) : string :=
  "{" +++ q key +++ ": " +++ q text +++ "}".

Definition ask (id name arguments : string) : ToolCall :=
  {| tc_id := id; tc_name := name; tc_arguments := arguments |}.

Definition requests_tools (calls : list ToolCall) : Response :=
  {| finish_reason := "tool_calls";
     choice_message := {| msg_content := None;
                          msg_tool_calls := Some calls |} |}.

Definition says (text : string) : Response :=
  {| finish_reason := "stop";
     choice_message := {| msg_content := Some text;
                          msg_tool_calls := None |} |}.

(** An endpoint that answers the request that declares tools with
    [first] and the follow-up request with [second]; the speech and
    image services are down. *)
Definition scripted (first second : result Response) : Services :=
  {| chat_completions_create :=
       fun req => match req_tools req with
                  | Some _ => first
                  | None => second
                  end;
     audio_speech_create := fun _ => Raise (APIError "speech unavailable");
     images_generate := fun _ _ _ => Raise (APIError "images unavailable") |}.

(** *** The airline assistant *)

Definition price_of (id city : string) : ToolCall :=
  ask id "get_ticket_price" (object1 "destination_city" city).

(** The model asks for two prices in one message. *)
Definition two_calls : list ToolCall :=
  [price_of "call_1" "Londres"; price_of "call_2" "París"].

Definition two_prices : Services :=
  scripted (Ok (requests_tools two_calls))
           (Ok (says "Londres cuesta 799€.")).

Definition one_price : Services :=
  scripted (Ok (requests_tools [price_of "call_1" "Londres"]))
           (Ok (says "Un billete a Londres cuesta 799€.")).

(** The tool turn for the price of Londres, asked in "call_1". *)
Definition londres_turn : Turn :=
  {| role := tool;
     content := Some (dumps (VDict [("destination_city", VStr "Londres");
                                    ("price", VStr "799€")]));
     tool_calls := None;
     tool_call_id := Some "call_1" |}.

(** The model sends arguments that are not JSON. *)
Definition bare_word : ToolCall := ask "call_1" "get_ticket_price" "Londres".

Definition bad_arguments : Services :=
  scripted (Ok (requests_tools [bare_word])) (Ok (says "Lo siento.")).

(** The model leaves the city out. *)
Definition empty_object : ToolCall := ask "call_1" "get_ticket_price" "{}".

Definition no_city : Services :=
  scripted (Ok (requests_tools [empty_object])) (Ok (says "Lo siento.")).

(** The model names a tool that was never declared. *)
Definition cancel_booking : ToolCall :=
  ask "call_1" "cancel_booking" (object1 "destination_city" "Londres").

Definition unknown_tool : Services :=
  scripted (Ok (requests_tools [cancel_booking])) (Ok (says "Hecho.")).

(** *** The tutors *)

(** One abbreviated listing stands for the table of the source. *)
Definition codigos : list (string * list (string * string)) :=
  [("led_parpadeo", [("primaria", "// Hacer parpadear un LED")])].

Definition fresh : World :=
  {| self := init "primaria" "Español" "Eres un tutor experto en robótica.";
     sent := [] |}.

Definition explain (id arguments : string) : ToolCall :=
  ask id "explicar_componente_arduino" arguments.

(** [{"componente": "led", "nivel": "primaria"}] *)
Definition led_primaria : string :=
  "{" +++ q "componente" +++ ": " +++ q "led" +++ ", "
  +++ q "nivel" +++ ": " +++ q "primaria" +++ "}".

(** [{"componente": ["led"], "nivel": "primaria"}]: a list where the
    schema asks for a string. *)
Definition led_in_a_list : string :=
  "{" +++ q "componente" +++ ": [" +++ q "led" +++ "], "
  +++ q "nivel" +++ ": " +++ q "primaria" +++ "}".

Definition plain_answer : Services :=
  scripted (Ok (says "Arduino es una placa programable."))
           (Ok (says "")).

(** A declared tool, then a tool that was never declared. *)
Definition led_calls : list ToolCall :=
  [explain "call_1" led_primaria; ask "call_2" "dibujar_circuito" "{}"].

Definition explains_led : Services :=
  scripted (Ok (requests_tools led_calls))
           (Ok (says "Un LED es una luz pequeña.")).

Definition unhashable_component : Services :=
  scripted (Ok (requests_tools [explain "call_1" led_in_a_list]))
           (Ok (says "Lo siento.")).

Definition undecodable : Services :=
  scripted (Ok (requests_tools [explain "call_1" "led, primaria"]))
           (Ok (says "Lo siento.")).

(** Six stored pairs: two turns more than the cap. *)
Definition six_pairs : list Turn :=
  concat (map (fun n => stored_pair ("pregunta " +++ n)
                                    (Some ("respuesta " +++ n)))
              ["1"; "2"; "3"; "4"; "5"; "6"]).

(** A tutor object whose history holds the six pairs. *)
Definition crowded : World :=
  {| self := {| nivel := "primaria"; idioma := "Español";
                historial_conversacion := six_pairs;
                system_prompt := "Eres un tutor." |};
     sent := [] |}.

Definition rate_limited : Services :=
  scripted (Raise (APIError "429 rate limit")) (Ok (says "")).

Definition fails_on_follow_up : Services :=
  scripted (Ok (requests_tools [explain "call_1" led_primaria]))
           (Raise (APIError "503 unavailable")).

End Scenario.

(** ** Configuration of the tutors and their Gradio callbacks

    The constructors, [actualizar_configuracion] and the functions that
    the event handlers of the two interfaces call. *)

Definition nl : string := String "010" EmptyString.

(** [d[key]] on a dictionary whose keys are strings. *)
Definition dict_item {V : Type} (d : list (string * V)) (key : string)
  : result V :=
  match assoc key d with
  | Some v => Ok v
  | None => Raise (KeyError key)
  end.

(** [self.nivel], [self.idioma] and the assignments to the attributes. *)
Definition self_nivel (t : Tutor) : string := nivel t.
Definition self_idioma (t : Tutor) : string := idioma t.

Definition set_nivel (n : string) (t : Tutor) : Tutor :=
  {| nivel := n; idioma := idioma t;
     historial_conversacion := historial_conversacion t;
     system_prompt := system_prompt t |}.

Definition set_idioma (i : string) (t : Tutor) : Tutor :=
  {| nivel := nivel t; idioma := i;
     historial_conversacion := historial_conversacion t;
     system_prompt := system_prompt t |}.

Definition set_system_prompt (prompt : string) (t : Tutor) : Tutor :=
  {| nivel := nivel t; idioma := idioma t;
     historial_conversacion := historial_conversacion t;
     system_prompt := prompt |}.

(** *** [str.replace] *)

(** A byte that continues a UTF-8 sequence. *)
Definition is_continuation (c : ascii) : bool :=
  Nat.eqb (nat_of_ascii c / 64) 2.

(** [s.replace("", new)] puts [new] in front of every code point and at
    the end. *)
Fixpoint insert_before_each (new s : string) : string :=
  match s with
  | EmptyString => EmptyString
  | String c rest =>
      (if is_continuation c then EmptyString else new)
      +++ String c (insert_before_each new rest)
  end.

(** The scan of [s.replace(old, new)] for a non-empty [old]: leftmost
    occurrences, not overlapping; [skip] characters are still part of the
    occurrence just replaced. *)
Fixpoint replace_from (old new : string) (skip : nat) (s : string) : string :=
  match s with
  | EmptyString => EmptyString
  | String c rest =>
      match skip with
      | S k => replace_from old new k rest
      | O =>
          if prefix old s
          then new +++ replace_from old new (String.length old - 1) rest
          else String c (replace_from old new 0 rest)
      end
  end.

Definition str_replace (old new s : string) : string :=
  match old with
  | EmptyString => insert_before_each new s +++ new
  | _ => replace_from old new 0 s
  end.

(** [s] without its first [n] characters. *)
Fixpoint drop_chars (n : nat) (s : string) : string :=
  match n, s with
  | S k, String _ rest => drop_chars k rest
  | _, _ => s
  end.

(** ** The interface of tutor_robotica_simple.py *)

Module SimpleApp.
Section Program.
Context {rt : Runtime}.

(** [codigos], as in [TutorSimple]. *)
Variable codigos : list (string * list (string * string)).

(** [text.strip()] *)
Variable str_strip : string -> string.

Definition NIVELES_EDUCATIVOS : list (string * list (string * string)) :=
  [("preescolar",
    [("edad", "3-6 años");
     ("descripcion", "Conceptos muy básicos con juegos y analogías simples");
     ("vocabulario", "simple");
     ("ejemplos", "cotidianos")]);
   ("primaria",
    [("edad", "6-12 años");
     ("descripcion", "Conceptos básicos con experimentos sencillos");
     ("vocabulario", "básico");
     ("ejemplos", "prácticos")]);
   ("secundaria",
    [("edad", "12-15 años");
     ("descripcion", "Conceptos intermedios con proyectos estructurados");
     ("vocabulario", "técnico básico");
     ("ejemplos", "proyectos")]);
   ("preparatoria",
    [("edad", "15-18 años");
     ("descripcion", "Conceptos avanzados con aplicaciones reales");
     ("vocabulario", "técnico avanzado");
     ("ejemplos", "profesionales")])].

(** [NIVELES_EDUCATIVOS[nivel][key]] *)
Definition campo (nivel key : string) : result string :=
  (datos <- dict_item NIVELES_EDUCATIVOS nivel ;;
   dict_item datos key)%py.

(** The f-string of [__init__]. *)
Definition prompt_init (nivel idioma : string) : result string :=
  (edad <- campo nivel "edad" ;;
   vocabulario <- campo nivel "vocabulario" ;;
   ejemplos <- campo nivel "ejemplos" ;;
   Ok (nl
     +++ "Eres un tutor experto en robótica, Arduino, electrónica y programación especializado en enseñar a estudiantes de nivel " +++ nivel +++ " (" +++ edad +++ ")." +++ nl
     +++ nl
     +++ "INSTRUCCIONES CRÍTICAS DE IDIOMA:" +++ nl
     +++ "- DEBES responder EXCLUSIVAMENTE en " +++ idioma +++ nl
     +++ "- NUNCA uses otro idioma que no sea " +++ idioma +++ nl
     +++ "- Si el usuario pregunta en otro idioma, responde en " +++ idioma +++ nl
     +++ "- Todas tus explicaciones, ejemplos y comentarios deben estar en " +++ idioma +++ nl
     +++ nl
     +++ "CARACTERÍSTICAS DE TU ENSEÑANZA:" +++ nl
     +++ "- Adapta tu lenguaje al nivel " +++ nivel +++ nl
     +++ "- Usa vocabulario " +++ vocabulario +++ nl
     +++ "- Proporciona ejemplos " +++ ejemplos +++ nl
     +++ "- Incluye emojis para hacer más atractiva la explicación" +++ nl
     +++ "- Responde SIEMPRE en " +++ idioma +++ nl
     +++ nl
     +++ "HERRAMIENTAS DISPONIBLES:" +++ nl
     +++ "- Puedes mostrar código de ejemplo adaptado al nivel" +++ nl
     +++ "- Puedes explicar componentes de forma detallada" +++ nl
     +++ "- Enfócate en explicaciones claras y didácticas" +++ nl
     +++ nl
     +++ "INSTRUCCIONES:" +++ nl
     +++ "1. Usa las herramientas cuando sea apropiado para enriquecer la explicación" +++ nl
     +++ "2. Mantén un tono educativo, paciente y motivador" +++ nl
     +++ "3. Fomenta la curiosidad y el aprendizaje práctico" +++ nl
     +++ "4. Proporciona ejemplos prácticos y proyectos" +++ nl
     +++ "5. RESPONDE EXCLUSIVAMENTE EN " +++ idioma +++ nl))%py.

(** The f-string of [actualizar_configuracion], on [self.nivel] and
    [self.idioma]. *)
Definition prompt_actualizado (nivel idioma : string) : result string :=
  (edad <- campo nivel "edad" ;;
   vocabulario <- campo nivel "vocabulario" ;;
   ejemplos <- campo nivel "ejemplos" ;;
   Ok (nl
     +++ "Eres un tutor experto en robótica, Arduino, electrónica y programación especializado en enseñar a estudiantes de nivel " +++ nivel +++ " (" +++ edad +++ ")." +++ nl
     +++ nl
     +++ "INSTRUCCIONES CRÍTICAS DE IDIOMA:" +++ nl
     +++ "- DEBES responder EXCLUSIVAMENTE en " +++ idioma +++ nl
     +++ "- NUNCA uses otro idioma que no sea " +++ idioma +++ nl
     +++ "- Si el usuario pregunta en otro idioma, responde en " +++ idioma +++ nl
     +++ "- Todas tus explicaciones, ejemplos y comentarios deben estar en " +++ idioma +++ nl
     +++ nl
     +++ "CARACTERÍSTICAS DE TU ENSEÑANZA:" +++ nl
     +++ "- Adapta tu lenguaje al nivel " +++ nivel +++ nl
     +++ "- Usa vocabulario " +++ vocabulario +++ nl
     +++ "- Proporciona ejemplos " +++ ejemplos +++ nl
     +++ "- Incluye emojis para hacer más atractiva la explicación" +++ nl
     +++ "- Responde SIEMPRE en " +++ idioma +++ nl
     +++ nl
     +++ "HERRAMIENTAS DISPONIBLES:" +++ nl
     +++ "- Puedes mostrar código de ejemplo adaptado al nivel" +++ nl
     +++ "- Puedes explicar componentes de forma detallada" +++ nl
     +++ "- Enfócate en explicaciones claras y didácticas" +++ nl
     +++ nl
     +++ "INSTRUCCIONES:" +++ nl
     +++ "1. Usa las herramientas cuando sea apropiado para enriquecer la explicación" +++ nl
     +++ "2. Mantén un tono educativo, paciente y motivador" +++ nl
     +++ "3. Fomenta la curiosidad y el aprendizaje práctico" +++ nl
     +++ "4. Proporciona ejemplos prácticos y proyectos" +++ nl
     +++ "5. RESPONDE EXCLUSIVAMENTE EN " +++ idioma +++ nl))%py.

(** [TutorRoboticaSimple(nivel=nivel, idioma=idioma)] *)
Definition TutorRoboticaSimple (nivel idioma : string) : result Tutor :=
  (prompt <- prompt_init nivel idioma ;;
   Ok (init nivel idioma prompt))%py.

(** The state is the tutor object.  [None] is the default of both
    parameters. *)
Definition actualizar_configuracion (nivel idioma : option string)
  : M Tutor unit :=
  (nivel_actual <- gets self_nivel ;;
   match nivel with
   | Some n =>
       if truthy nivel && negb (String.eqb n nivel_actual)
       then modify (set_nivel n) else ret tt
   | None => ret tt
   end ;;;
   idioma_actual <- gets self_idioma ;;
   match idioma with
   | Some i =>
       if truthy idioma && negb (String.eqb i idioma_actual)
       then modify (set_idioma i) else ret tt
   | None => ret tt
   end ;;;
   nivel_actual <- gets self_nivel ;;
   idioma_actual <- gets self_idioma ;;
   prompt <- lift (prompt_actualizado nivel_actual idioma_actual) ;;
   modify (set_system_prompt prompt))%m.

(** The global [tutor], the requests sent so far, and the list that the
    chat component hands to [enviar_mensaje]. *)
Record App : Type := {
  tutor : option Tutor;
  enviados : list Request;
  historial : list Turn
}.

(** [tutor = t] *)
Definition set_tutor (t : Tutor) (a : App) : App :=
  {| tutor := Some t; enviados := enviados a; historial := historial a |}.

(** [historial.append(turn)] *)
Definition historial_append (turn : Turn) : M App unit :=
  modify (fun a => {| tutor := tutor a; enviados := enviados a;
                      historial := historial a ++ [turn] |}).

(** [tutor.responder(mensaje)] on the tutor object [t]. *)
Definition tutor_responder (sv : Services) (mensaje : string) (t : Tutor)
  : M App (option string * option string) :=
  fun a =>
    let '(r, w) :=
      TutorSimple.responder codigos sv mensaje
        {| self := t; sent := enviados a |} in
    (r, {| tutor := Some (self w); enviados := sent w;
           historial := historial a |}).

Definition inicializar_tutor (nivel idioma : string) : M App string :=
  fun a =>
    match TutorRoboticaSimple nivel idioma with
    | Ok t =>
        (Ok ("🤖 Tutor inicializado para nivel " +++ nivel +++ " en " +++ idioma),
         set_tutor t a)
    | Raise e => (Raise e, a)
    end.

Definition procesar_mensaje (sv : Services) (mensaje nivel idioma : string)
  : M App (option string * option string) :=
  fun a =>
    match tutor a with
    | None =>
        match TutorRoboticaSimple nivel idioma with
        | Ok t => tutor_responder sv mensaje t (set_tutor t a)
        | Raise e => (Raise e, a)
        end
    | Some t =>
        match actualizar_configuracion (Some nivel) (Some idioma) t with
        | (Ok _, t') => tutor_responder sv mensaje t' (set_tutor t' a)
        | (Raise e, t') => (Raise e, set_tutor t' a)
        end
    end.

(** The list returned is the list object [historial] itself. *)
Definition enviar_mensaje (sv : Services) (mensaje nivel idioma : string)
  : M App (list Turn * string * option string) :=
  (if String.eqb (str_strip mensaje) "" then
     h <- gets historial ;;
     ret (h, "", None)
   else
     historial_append (dict_message user mensaje) ;;;
     '(respuesta, audio) <- procesar_mensaje sv mensaje nivel idioma ;;
     historial_append {| role := assistant; content := respuesta;
                         tool_calls := None; tool_call_id := None |} ;;;
     h <- gets historial ;;
     ret (h, "", audio))%m.

(** The module starts with [tutor = None]. *)
Definition inicio : App := {| tutor := None; enviados := []; historial := [] |}.

(** What one event of the interface runs. *)
Inductive Evento : Type :=
| Inicializar (nivel idioma : string)
| Enviar (sv : Services) (mensaje nivel idioma : string).

Definition atender (ev : Evento) (a : App) : App :=
  match ev with
  | Inicializar nivel idioma => snd (inicializar_tutor nivel idioma a)
  | Enviar sv mensaje nivel idioma =>
      snd (enviar_mensaje sv mensaje nivel idioma a)
  end.

(** The state after a sequence of events. *)
Definition sesion (eventos : list Evento) (a : App) : App :=
  fold_left (fun a ev => atender ev a) eventos a.

End Program.
End SimpleApp.

(** ** The interface of tutor_robotica_multimodal.py *)

Module MultimodalApp.
Section Program.
Context {rt : Runtime}.

(** [codigos], as in [TutorMultimodal]. *)
Variable codigos : list (string * list (string * string)).

Definition NIVELES_EDUCATIVOS : list (string * list (string * string)) :=
  [("preescolar",
    [("edad", "3-6 años");
     ("descripcion", "Conceptos muy básicos con juegos y analogías simples");
     ("vocabulario", "simple");
     ("ejemplos", "cotidianos");
     ("complejidad_imagen", "simple y colorida")]);
   ("primaria",
    [("edad", "6-12 años");
     ("descripcion", "Conceptos básicos con experimentos sencillos");
     ("vocabulario", "básico");
     ("ejemplos", "prácticos");
     ("complejidad_imagen", "educativa con diagramas simples")]);
   ("secundaria",
    [("edad", "12-15 años");
     ("descripcion", "Conceptos intermedios con proyectos estructurados");
     ("vocabulario", "técnico básico");
     ("ejemplos", "proyectos");
     ("complejidad_imagen", "técnica con esquemas detallados")]);
   ("preparatoria",
    [("edad", "15-18 años");
     ("descripcion", "Conceptos avanzados con aplicaciones reales");
     ("vocabulario", "técnico avanzado");
     ("ejemplos", "profesionales");
     ("complejidad_imagen", "profesional con diagramas complejos")])].

(** [NIVELES_EDUCATIVOS[nivel][key]] *)
Definition campo (nivel key : string) : result string :=
  (datos <- dict_item NIVELES_EDUCATIVOS nivel ;;
   dict_item datos key)%py.

(** The f-string of [__init__]. *)
Definition prompt_init (nivel idioma : string) : result string :=
  (edad <- campo nivel "edad" ;;
   vocabulario <- campo nivel "vocabulario" ;;
   ejemplos <- campo nivel "ejemplos" ;;
   Ok (nl
     +++ "Eres un tutor experto en robótica, Arduino, electrónica y programación especializado en enseñar a estudiantes de nivel " +++ nivel +++ " (" +++ edad +++ ")." +++ nl
     +++ nl
     +++ "INSTRUCCIONES CRÍTICAS DE IDIOMA:" +++ nl
     +++ "- DEBES responder EXCLUSIVAMENTE en " +++ idioma +++ nl
     +++ "- NUNCA uses otro idioma que no sea " +++ idioma +++ nl
     +++ "- Si el usuario pregunta en otro idioma, responde en " +++ idioma +++ nl
     +++ "- Todas tus explicaciones, ejemplos y comentarios deben estar en " +++ idioma +++ nl
     +++ nl
     +++ "CARACTERÍSTICAS DE TU ENSEÑANZA:" +++ nl
     +++ "- Adapta tu lenguaje al nivel " +++ nivel +++ nl
     +++ "- Usa vocabulario " +++ vocabulario +++ nl
     +++ "- Proporciona ejemplos " +++ ejemplos +++ nl
     +++ "- Incluye emojis para hacer más atractiva la explicación" +++ nl
     +++ "- Responde SIEMPRE en " +++ idioma +++ nl
     +++ nl
     +++ "HERRAMIENTAS DISPONIBLES:" +++ nl
     +++ "- Puedes generar imágenes educativas para explicar conceptos" +++ nl
     +++ "- Puedes mostrar código de ejemplo adaptado al nivel" +++ nl
     +++ "- Puedes explicar componentes con apoyo visual" +++ nl
     +++ nl
     +++ "INSTRUCCIONES:" +++ nl
     +++ "1. Siempre considera si una imagen o código de ejemplo ayudaría al estudiante" +++ nl
     +++ "2. Usa las herramientas cuando sea apropiado para enriquecer la explicación" +++ nl
     +++ "3. Mantén un tono educativo, paciente y motivador" +++ nl
     +++ "4. Fomenta la curiosidad y el aprendizaje práctico" +++ nl
     +++ "5. RESPONDE EXCLUSIVAMENTE EN " +++ idioma +++ nl))%py.

(** [TutorRoboticaMultimodal(nivel=nivel, idioma=idioma)] *)
Definition TutorRoboticaMultimodal (nivel idioma : string) : result Tutor :=
  (prompt <- prompt_init nivel idioma ;;
   Ok (init nivel idioma prompt))%py.

(** The tutor object that [crear_interfaz_gradio] creates, the requests
    sent so far, and the list that the chat component hands to
    [procesar_mensaje]. *)
Record Interfaz : Type := {
  mundo : World;
  historial : list Turn
}.

(** The first statement of [procesar_mensaje]: the new level and
    language are stored, then looked for in the prompt. *)
Definition configurar (nivel idioma : string) (t : Tutor) : Tutor :=
  if negb (String.eqb nivel (self_nivel t))
     || negb (String.eqb idioma (self_idioma t))
  then
    let t := set_nivel nivel t in
    let t := set_idioma idioma t in
    set_system_prompt
      (str_replace ("en " +++ self_idioma t) ("en " +++ idioma)
         (str_replace ("nivel " +++ self_nivel t) ("nivel " +++ nivel)
            (system_prompt t)))
      t
  else t.

(** The list returned is the list object [historial] itself. *)
Definition procesar_mensaje (sv : Services) (mensaje nivel idioma : string)
  : M Interfaz (list Turn * option Image * option string * string) :=
  fun i =>
    let t := configurar nivel idioma (self (mundo i)) in
    let '(r, w) :=
      TutorMultimodal.responder codigos sv mensaje
        {| self := t; sent := sent (mundo i) |} in
    match r with
    | Ok (respuesta_texto, imagen, audio) =>
        let h :=
          (historial i ++ [dict_message user mensaje])
          ++ [{| role := assistant; content := respuesta_texto;
                 tool_calls := None; tool_call_id := None |}] in
        (Ok (h, imagen, audio, ""), {| mundo := w; historial := h |})
    | Raise e => (Raise e, {| mundo := w; historial := historial i |})
    end.

(** The interface as [crear_interfaz_gradio] leaves it, when the
    constructor returns [t]. *)
Definition inicio (t : Tutor) : Interfaz :=
  {| mundo := {| self := t; sent := [] |}; historial := [] |}.

(** The state after a sequence of messages, each with the services as
    they answered, the message, and the level and language selected. *)
Definition sesion (mensajes : list (Services * string * string * string))
    (i : Interfaz) : Interfaz :=
  fold_left
    (fun i '(sv, mensaje, nivel, idioma) =>
       snd (procesar_mensaje sv mensaje nivel idioma i))
    mensajes i.

End Program.
End MultimodalApp.

(** ** Notions used to state the further properties *)


Definition is_dict (v : value) : bool :=
  match v with
  | VDict _ => true
  | _ => false
  end.

Definition is_str (v : value) : bool :=
  match v with
  | VStr _ => true
  | _ => false
  end.

(** The keys of [NIVELES_EDUCATIVOS], the same in both tutors. *)
Definition niveles : list string :=
  ["preescolar"; "primaria"; "secundaria"; "preparatoria"].

Definition es_nivel (nivel : string) : bool :=
  existsb (String.eqb nivel) niveles.

(** What [actualizar_configuracion] keeps of an argument: a value that
    is [None] or empty leaves the attribute as it is. *)
Definition elegido (nuevo : option string) (actual : string) : string :=
  match nuevo with
  | Some n => if String.eqb n "" then actual else n
  | None => actual
  end.

(** [t] is the tool turn [manejar_herramienta] of the multimodal tutor
    builds for the request [tc]. *)
Definition handled_mm {rt : Runtime}
    (codigos : list (string * list (string * string)))
    (sv : Services) (tc : ToolCall) (t : Turn) : Prop :=
  exists imagen audio,
    TutorMultimodal.manejar_herramienta codigos sv tc = Ok (t, imagen, audio).

(** A tutor object of the simple interface as its methods leave it: at
    most ten stored turns, in pairs, and the prompt of its constructor
    for the level and language it has. *)
Definition ordenado (t : Tutor) : Prop :=
  length (historial_conversacion t) <= 10
  /\ alternates (historial_conversacion t) = true
  /\ SimpleApp.prompt_init (nivel t) (idioma t) = Ok (system_prompt t).

(** The simple interface: no request before there is a tutor. *)
Definition en_orden (a : SimpleApp.App) : Prop :=
  match SimpleApp.tutor a with
  | None => SimpleApp.enviados a = []
  | Some t => ordenado t
  end.

(** The level selected when the event happened. *)
Definition nivel_del_evento (ev : SimpleApp.Evento) : string :=
  match ev with
  | SimpleApp.Inicializar nivel _ => nivel
  | SimpleApp.Enviar _ _ nivel _ => nivel
  end.

(** The event sends a message that is not blank. *)
Definition es_envio (str_strip : string -> string) (ev : SimpleApp.Evento)
  : bool :=
  match ev with
  | SimpleApp.Inicializar _ _ => false
  | SimpleApp.Enviar _ mensaje _ _ => negb (String.eqb (str_strip mensaje) "")
  end.

(** How many messages of the session were not blank. *)
Definition envios (str_strip : string -> string)
    (eventos : list SimpleApp.Evento) : nat :=
  length (filter (es_envio str_strip) eventos).

(** ** Further scripted conversations *)

Module Cases.
Import Sample.

(** [text.strip()] on text whose white space is ASCII. *)
Fixpoint lstrip (s : string) : string :=
  match s with
  | String c rest => if is_ws c then lstrip rest else s
  | EmptyString => EmptyString
  end.

Fixpoint rstrip (s : string) : string :=
  match s with
  | String c rest =>
      match rstrip rest with
      | EmptyString => if is_ws c then EmptyString else String c EmptyString
      | kept => String c kept
      end
  | EmptyString => EmptyString
  end.

Definition strip (s : string) : string := rstrip (lstrip s).

(** The endpoint answers with neither text nor tool calls. *)
Definition says_nothing : Services :=
  Scenario.scripted
    (Ok {| finish_reason := "stop";
           choice_message := {| msg_content := None;
                                msg_tool_calls := None |} |})
    (Ok (Scenario.says "")).

(** The arguments are a JSON array, and an object without "nivel". *)
Definition array_arguments : ToolCall := Scenario.explain "call_1" "[]".

Definition without_nivel : ToolCall :=
  Scenario.explain "call_1" (Scenario.object1 "componente" "led").

(** The model asks for tools and names none. *)
Definition no_calls : Services :=
  Scenario.scripted (Ok (Scenario.requests_tools []))
                    (Ok (Scenario.says "")).

(** A price request that decodes, then one whose arguments are not
    JSON. *)
Definition good_then_bad_calls : list ToolCall :=
  [Scenario.price_of "call_1" "Londres";
   Scenario.ask "call_2" "get_ticket_price" "París"].

Definition good_then_bad : Services :=
  Scenario.scripted (Ok (Scenario.requests_tools good_then_bad_calls))
                    (Ok (Scenario.says "Londres cuesta 799€.")).

(** Services like [Scenario.scripted] whose speech and image services
    answer. *)
Definition with_media (first second : result Response) : Services :=
  {| chat_completions_create :=
       fun req => match req_tools req with
                  | Some _ => first
                  | None => second
                  end;
     audio_speech_create := fun _ => Ok "/tmp/respuesta.mp3";
     images_generate := fun _ _ _ => Ok "imagen.png" |}.

Definition plain_answer_with_media : Services :=
  with_media (Ok (Scenario.says "Arduino es una placa programable."))
             (Ok (Scenario.says "")).

(** The model asks for a picture of a servo. *)
Definition draw_servo : ToolCall :=
  Scenario.ask "call_1" "generar_imagen_educativa"
    ("{" +++ q "tema" +++ ": " +++ q "servo" +++ ", "
     +++ q "nivel" +++ ": " +++ q "primaria" +++ "}").


End Cases.

(** * Properties *)

(** ** Lists and histories *)

Lemma last_n_short {A} n (l : list A) : length l <= n -> last_n n l = l.
Proof.
  intros Hle. unfold last_n.
  replace (length l - n) with 0 by lia. reflexivity.
Qed.

Lemma last_n_length {A} n (l : list A) : length (last_n n l) <= n.
Proof. unfold last_n. rewrite length_skipn. lia. Qed.

(** The update is the last ten of the extended history. *)
Lemma updated_last_n h mensaje reply :
  updated h mensaje reply = last_n 10 (h ++ stored_pair mensaje reply).
Proof.
  unfold updated. cbv zeta.
  destruct (Nat.ltb 10 _) eqn:Hlt; [reflexivity|].
  apply Nat.ltb_ge in Hlt. symmetry. now apply last_n_short.
Qed.

Lemma updated_length h mensaje reply : length (updated h mensaje reply) <= 10.
Proof. rewrite updated_last_n. apply last_n_length. Qed.

(** Truncation only drops old turns: the stored pair is kept whole. *)
Lemma updated_keeps_pair h mensaje reply :
  updated h mensaje reply
  = skipn (length h + 2 - 10) h ++ stored_pair mensaje reply.
Proof.
  rewrite updated_last_n. unfold last_n.
  rewrite length_app, skipn_app. cbn [length stored_pair].
  replace (length h + 2 - 10 - length h) with 0 by lia.
  reflexivity.
Qed.

Lemma pair_induction {A} (P : list A -> Prop) :
  P [] -> (forall x, P [x]) -> (forall x y l, P l -> P (x :: y :: l)) ->
  forall l, P l.
Proof.
  intros Hnil Hone Hstep.
  assert (Hboth : forall l, P l /\ forall x, P (x :: l)).
  { induction l as [|y l [IHl IHxl]]; split; auto. }
  intro l. apply Hboth.
Qed.

Lemma alternates_app h p :
  alternates h = true -> alternates p = true -> alternates (h ++ p) = true.
Proof.
  induction h as [| x | x y l IH] using pair_induction; cbn; intros Hh Hp.
  - exact Hp.
  - discriminate.
  - apply andb_true_iff in Hh as [Hxy Hl].
    rewrite Hxy. cbn. now apply IH.
Qed.

Lemma alternates_even h : alternates h = true -> Nat.even (length h) = true.
Proof.
  induction h as [| x | x y l IH] using pair_induction; cbn; intros Hh.
  - reflexivity.
  - discriminate.
  - apply andb_true_iff in Hh as [_ Hl]. now apply IH.
Qed.

Lemma alternates_roles h :
  alternates h = true -> Forall (fun t => role t = user \/ role t = assistant) h.
Proof.
  induction h as [| x | x y l IH] using pair_induction; cbn; intros Hh.
  - constructor.
  - discriminate.
  - apply andb_true_iff in Hh as [Hxy Hl].
    apply andb_true_iff in Hxy as [Hx Hy].
    constructor; [left; now destruct (role x)|].
    constructor; [right; now destruct (role y)|].
    now apply IH.
Qed.

(** Dropping an even number of turns from the old end never splits a pair. *)
Lemma alternates_skipn_even k h :
  alternates h = true -> alternates (skipn (2 * k) h) = true.
Proof.
  revert h. induction k as [|k IH]; intros h Hh.
  - exact Hh.
  - replace (2 * S k) with (S (S (2 * k))) by lia.
    destruct h as [|x [|y l]]; cbn in Hh |- *; try reflexivity; try discriminate.
    apply andb_true_iff in Hh as [_ Hl]. now apply IH.
Qed.

Lemma alternates_last_n_even n h :
  Nat.even n = true -> alternates h = true -> alternates (last_n n h) = true.
Proof.
  intros Hn Hh. unfold last_n.
  assert (Heven : Nat.even (length h - n) = true).
  { destruct (Nat.le_ge_cases (length h) n) as [Hle|Hge].
    - now replace (length h - n) with 0 by lia.
    - rewrite Nat.even_sub by exact Hge.
      rewrite (alternates_even h Hh), Hn. reflexivity. }
  apply Nat.even_spec in Heven as [k Hk]. rewrite Hk.
  now apply alternates_skipn_even.
Qed.

Lemma alternates_updated h mensaje reply :
  alternates h = true -> alternates (updated h mensaje reply) = true.
Proof.
  intro Hh. rewrite updated_last_n.
  apply alternates_last_n_even; [reflexivity|].
  now apply alternates_app.
Qed.

Lemma count_role_app r l1 l2 :
  count_role r (l1 ++ l2) = count_role r l1 + count_role r l2.
Proof. unfold count_role. now rewrite filter_app, length_app. Qed.

Lemma count_role_none r turns :
  Forall (fun t => role t <> r) turns -> count_role r turns = 0.
Proof.
  unfold count_role. induction 1 as [|t l Ht _ IH]; cbn; [reflexivity|].
  destruct (Role_eqb (role t) r) eqn:E; [|exact IH].
  exfalso. apply Ht. now destruct (role t), r.
Qed.

(** ** The price tool *)

Section PriceFacts.
Context `{rt : Runtime}.

Lemma get_ticket_price_str city :
  Aerolinea.get_ticket_price (VStr city)
  = Ok (match assoc (str_lower city) Aerolinea.ticket_prices with
        | Some price => price
        | None => "Unknown"
        end).
Proof. reflexivity. Qed.

Lemma ticket_prices_not_empty key price :
  assoc key Aerolinea.ticket_prices = Some price -> price <> "".
Proof.
  unfold Aerolinea.ticket_prices. cbn [assoc].
  repeat (destruct (String.eqb key _);
          [intro Hp; injection Hp as <-; discriminate|]).
  discriminate.
Qed.

(** C9, as amended: the table is keyed in Spanish.  [get_ticket_price]
    depends on a string argument only through its lower-cased form; a
    city whose lower-cased form is "londres" costs "799€"; a city whose
    lower-cased form is not a key of the table gives the literal
    "Unknown"; and on every string the result is a non-empty string,
    never an exception. *)
Theorem get_ticket_price_by_lowercase (city : string) :
  (forall other, str_lower other = str_lower city ->
     Aerolinea.get_ticket_price (VStr other)
     = Aerolinea.get_ticket_price (VStr city))
  /\ (str_lower city = "londres" ->
      Aerolinea.get_ticket_price (VStr city) = Ok "799€")
  /\ (assoc (str_lower city) Aerolinea.ticket_prices = None ->
      Aerolinea.get_ticket_price (VStr city) = Ok "Unknown")
  /\ (exists price,
        Aerolinea.get_ticket_price (VStr city) = Ok price /\ price <> "").
Proof.
  repeat split.
  - intros other Hsame. rewrite !get_ticket_price_str. now rewrite Hsame.
  - intro Hlow. rewrite get_ticket_price_str, Hlow. reflexivity.
  - intro Habsent. rewrite get_ticket_price_str, Habsent. reflexivity.
  - rewrite get_ticket_price_str.
    destruct (assoc _ _) as [price|] eqn:Hfound.
    + exists price. split; [reflexivity|].
      now apply ticket_prices_not_empty with (str_lower city).
    + exists "Unknown". split; [reflexivity|discriminate].
Qed.
End PriceFacts.

(** "LONDRES" and "Londres" cost "799€", "Nairobi" is "Unknown". *)
Lemma get_ticket_price_by_lowercase_witness :
  Aerolinea.get_ticket_price (rt := Sample.runtime) (VStr "LONDRES")
  = Aerolinea.get_ticket_price (rt := Sample.runtime) (VStr "Londres")
  /\ Aerolinea.get_ticket_price (rt := Sample.runtime) (VStr "LONDRES") = Ok "799€"
  /\ Aerolinea.get_ticket_price (rt := Sample.runtime) (VStr "Nairobi") = Ok "Unknown".
Proof.
  split; [|split].
  - apply (proj1 (get_ticket_price_by_lowercase (rt := Sample.runtime) "Londres")).
    reflexivity.
  - apply (proj1 (proj2 (get_ticket_price_by_lowercase (rt := Sample.runtime) "LONDRES"))).
    reflexivity.
  - apply (proj1 (proj2 (proj2 (get_ticket_price_by_lowercase (rt := Sample.runtime) "Nairobi")))).
    reflexivity.
Defined.

(** C9 as stated fails: "london" is not a key of the table, so it is
    priced "Unknown" and not "799€". *)
Lemma london_is_unknown :
  Aerolinea.get_ticket_price (rt := Sample.runtime) (VStr "london") = Ok "Unknown"
  /\ Aerolinea.get_ticket_price (rt := Sample.runtime) (VStr "london") <> Ok "799€".
Proof. split; [reflexivity|discriminate]. Qed.

(** ** The simple tutor *)

Ltac unfold_m :=
  unfold try_except, bind, gets, create, lift, ret, historial_extend,
    historial_limitar, modify in *.

Ltac same_world :=
  unfold updated, logged, stored_pair, set_historial;
  cbn [self sent historial_conversacion nivel idioma system_prompt];
  rewrite <- ?app_assoc; cbn [app];
  try (destruct (Nat.ltb _ _)); reflexivity.

(** Two equations on one endpoint call or one dispatch decide which
    constructor of [exchange] applies. *)
Ltac clash :=
  repeat match goal with
         | H1 : ?x = _, H2 : ?x = _ |- _ =>
             rewrite H1 in H2; (discriminate H2 || (injection H2 as; subst))
         end.

Section SimpleFacts.
Context {rt : Runtime}.
Variable codigos : list (string * list (string * string)).
Variable sv : Services.

Abbreviation manejar := (TutorSimple.manejar_herramienta codigos sv).
Abbreviation for_calls := (TutorSimple.for_tool_calls codigos sv).
Abbreviation tools := TutorSimple.herramientas_educativas.
Abbreviation dispatch :=
  (fun calls mensajes => for_calls calls mensajes None).

Lemma simple_manejar_answers tc t audio :
  manejar tc = Ok (t, audio) -> answers tc t.
Proof.
  unfold TutorSimple.manejar_herramienta, rbind.
  destruct (json_loads _) as [arguments|]; [|discriminate].
  match goal with
  | |- context [match ?body with Ok _ => _ | Raise _ => _ end] =>
      destruct body as [[resultado audio_generado]|]
  end; [|discriminate].
  intro Hok. injection Hok as <- _. now split.
Qed.

Lemma simple_for_tool_calls_turns calls :
  forall mensajes audio mensajes' audio',
    for_calls calls mensajes audio = Ok (mensajes', audio') ->
    exists turns,
      mensajes' = mensajes ++ turns /\ Forall2 (handled codigos sv) calls turns.
Proof.
  induction calls as [|tc rest IH]; cbn [TutorSimple.for_tool_calls];
    intros mensajes audio mensajes' audio' Hrun.
  - injection Hrun as <- _. exists []. now rewrite app_nil_r.
  - unfold rbind in Hrun.
    destruct (manejar tc) as [[t a]|] eqn:Htc; [|discriminate].
    apply IH in Hrun as (turns & -> & Hturns).
    exists (t :: turns). rewrite <- app_assoc. split; [reflexivity|].
    constructor; [now exists a|exact Hturns].
Qed.

Lemma simple_for_tool_calls_ok calls :
  forall mensajes audio,
    forallb (fun tc => is_ok (manejar tc)) calls = true ->
    exists out, for_calls calls mensajes audio = Ok out.
Proof.
  induction calls as [|tc rest IH]; cbn [TutorSimple.for_tool_calls forallb];
    intros mensajes audio Hall.
  - eauto.
  - apply andb_true_iff in Hall as [Htc Hrest]. unfold rbind.
    destruct (manejar tc) as [[t a]|]; [|discriminate].
    now apply IH.
Qed.

(** The loop stops at the first call whose handling raises. *)
Lemma simple_for_tool_calls_raises pre tc post e :
  forall mensajes audio,
    forallb (fun tc => is_ok (manejar tc)) pre = true ->
    manejar tc = Raise e ->
    for_calls (pre ++ tc :: post) mensajes audio = Raise e.
Proof.
  induction pre as [|p pre IH]; cbn [TutorSimple.for_tool_calls forallb app];
    intros mensajes audio Hpre Htc.
  - now rewrite Htc.
  - apply andb_true_iff in Hpre as [Hp Hpre]. unfold rbind.
    destruct (manejar p) as [[t a]|]; [|discriminate].
    now apply IH.
Qed.

Lemma simple_for_tool_calls_not_ok calls :
  forall mensajes audio,
    forallb (fun tc => is_ok (manejar tc)) calls = false ->
    exists e, for_calls calls mensajes audio = Raise e.
Proof.
  induction calls as [|tc rest IH]; cbn [TutorSimple.for_tool_calls forallb];
    intros mensajes audio Hall.
  - discriminate.
  - unfold rbind. destruct (manejar tc) as [[t a]|e] eqn:Htc; [|eauto].
    cbn in Hall. now apply IH.
Qed.

Lemma answers_of_handled calls turns :
  Forall2 (handled codigos sv) calls turns -> Forall2 answers calls turns.
Proof.
  induction 1 as [|tc t calls turns [a Ht] _ IH]; constructor; [|exact IH].
  now apply simple_manejar_answers with a.
Qed.

(** The [try] block: the exchange, then the stored pair unless the
    audio step raises on a reply without text. *)
Lemma simple_responder_try_run mensaje w :
  exists reqs resA,
    exchange sv tools dispatch None (self w) mensaje reqs resA /\
    TutorSimple.responder_try codigos sv mensaje w =
    match resA with
    | Raise e => (Raise e, logged w reqs)
    | Ok (r, a) =>
        let reply := msg_content (choice_message r) in
        match
          (if negb (truthy a) then
             (lower <- method_lower (of_option reply) ;;
              Ok (if existsb (fun tema => contains tema (str_lower mensaje)
                                         || contains tema lower)
                            TutorSimple.TEMAS_ROBOTICA
                  then TutorSimple.generar_audio_educativo sv (of_option reply)
                  else a))%py
           else Ok a)
        with
        | Raise e => (Raise e, logged w reqs)
        | Ok a' =>
            (Ok (reply, a'),
             set_historial
               (updated (historial_conversacion (self w)) mensaje reply)
               (logged w reqs))
        end
    end.
Proof.
  unfold TutorSimple.responder_try. unfold_m. cbn beta iota.
  fold (first_request tools (self w) mensaje).
  set (req1 := first_request _ _ _).
  destruct (chat_completions_create sv req1) as [r1|e] eqn:E1.
  2:{ exists [req1], (Raise e). split; [now constructor|reflexivity]. }
  destruct (String.eqb (finish_reason r1) "tool_calls") eqn:Efin.
  - destruct (msg_tool_calls (choice_message r1)) as [calls|] eqn:Ecalls;
      cbn [iter].
    2:{ exists [req1], (Raise TypeError).
        split; [now apply tool_calls_missing with r1|reflexivity]. }
    destruct (for_calls calls _ None) as [[m' a']|e] eqn:Eloop.
    2:{ exists [req1], (Raise e).
        split; [now apply dispatch_raises with r1 calls|reflexivity]. }
    cbn beta iota. fold (second_request m').
    destruct (chat_completions_create sv (second_request m')) as [r2|e] eqn:E2.
    2:{ exists [req1; second_request m'], (Raise e).
        split; [now apply second_raises with r1 calls a'|].
        unfold logged. cbn. now rewrite <- app_assoc. }
    exists [req1; second_request m'], (Ok (r2, a')).
    split; [now apply second_answers with r1 calls|].
    cbn beta iota.
    destruct (negb (truthy a')).
    + destruct (method_lower _) as [l|e]; cbn [rbind].
      * destruct (existsb _ _); f_equal; same_world.
      * f_equal; same_world.
    + f_equal; same_world.
  - exists [req1], (Ok (r1, None)).
    split; [now apply no_tools|].
    cbn beta iota. cbn [truthy negb].
    destruct (method_lower _) as [l|e]; cbn [rbind].
    + destruct (existsb _ _); f_equal; same_world.
    + f_equal; same_world.
Qed.

Lemma simple_responder_of_try mensaje w :
  TutorSimple.responder codigos sv mensaje w =
  match TutorSimple.responder_try codigos sv mensaje w with
  | (Ok out, w') => (Ok out, w')
  | (Raise e, w') => (Ok (simple_error e), w')
  end.
Proof. reflexivity. Qed.

(** Every call of [responder] is an exchange followed by one of two
    endings: the handler's error text with the tutor object untouched,
    or the reply with the pair stored. *)
Lemma simple_responder_cases mensaje w :
  exists reqs resA,
    exchange sv tools dispatch None (self w) mensaje reqs resA /\
    ((exists e,
        TutorSimple.responder_try codigos sv mensaje w
        = (Raise e, logged w reqs)
        /\ TutorSimple.responder codigos sv mensaje w
           = (Ok (simple_error e), logged w reqs)
        /\ (resA = Raise e \/ exists r a, resA = Ok (r, a)))
     \/
     (exists r a a',
        resA = Ok (r, a)
        /\ TutorSimple.responder_try codigos sv mensaje w
           = (Ok (msg_content (choice_message r), a'),
              set_historial
                (updated (historial_conversacion (self w)) mensaje
                         (msg_content (choice_message r)))
                (logged w reqs))
        /\ TutorSimple.responder codigos sv mensaje w
           = TutorSimple.responder_try codigos sv mensaje w)).
Proof.
  destruct (simple_responder_try_run mensaje w) as (reqs & resA & Hex & Hrun).
  exists reqs, resA. split; [exact Hex|].
  rewrite simple_responder_of_try, Hrun.
  destruct resA as [[r a]|e].
  - cbv zeta.
    match goal with
    | |- context [match ?step with Ok _ => _ | Raise _ => _ end] =>
        destruct step as [a'|e]
    end.
    + right. exists r, a, a'. auto.
    + left. exists e. eauto 6.
  - left. exists e. auto.
Qed.

End SimpleFacts.

(** ** The multimodal tutor *)

Section MultimodalFacts.
Context {rt : Runtime}.
Variable codigos : list (string * list (string * string)).
Variable sv : Services.

Abbreviation mm_tools := TutorMultimodal.herramientas_educativas.

(** The [try] block: the exchange, then always the stored pair; a reply
    without text is stored and returned as [None]. *)
Lemma multimodal_responder_try_run mensaje w :
  exists reqs resA,
    exchange sv mm_tools (multimodal_dispatch codigos sv) (None, None)
             (self w) mensaje reqs resA /\
    match resA with
    | Raise e =>
        TutorMultimodal.responder_try codigos sv mensaje w
        = (Raise e, logged w reqs)
    | Ok (r, _) =>
        exists imagen audio,
          TutorMultimodal.responder_try codigos sv mensaje w
          = (Ok (msg_content (choice_message r), imagen, audio),
             set_historial
               (updated (historial_conversacion (self w)) mensaje
                        (msg_content (choice_message r)))
               (logged w reqs))
    end.
Proof.
  unfold TutorMultimodal.responder_try. unfold_m. cbn beta iota.
  fold (first_request mm_tools (self w) mensaje).
  set (req1 := first_request _ _ _).
  destruct (chat_completions_create sv req1) as [r1|e] eqn:E1.
  2:{ exists [req1], (Raise e). split; [now constructor|reflexivity]. }
  destruct (String.eqb (finish_reason r1) "tool_calls") eqn:Efin.
  - destruct (msg_tool_calls (choice_message r1)) as [calls|] eqn:Ecalls;
      cbn [iter].
    2:{ exists [req1], (Raise TypeError).
        split; [now apply tool_calls_missing with r1|reflexivity]. }
    destruct (TutorMultimodal.for_tool_calls codigos sv calls _ None None)
      as [[[m' i'] a']|e] eqn:Eloop.
    2:{ exists [req1], (Raise e). split; [|reflexivity].
        apply dispatch_raises with r1 calls; try assumption.
        unfold multimodal_dispatch. fold req1 in Eloop. cbn in Eloop |- *.
        now rewrite Eloop. }
    cbn beta iota. fold (second_request m').
    assert (Hdispatch :
              multimodal_dispatch codigos sv calls
                (req_messages req1
                 ++ [assistant_tool_calls (choice_message r1) calls])
              = Ok (m', (i', a'))).
    { unfold multimodal_dispatch. fold req1 in Eloop. cbn in Eloop |- *.
      now rewrite Eloop. }
    destruct (chat_completions_create sv (second_request m')) as [r2|e] eqn:E2.
    2:{ exists [req1; second_request m'], (Raise e).
        split; [now apply second_raises with r1 calls (i', a')|].
        unfold logged. cbn. now rewrite <- app_assoc. }
    exists [req1; second_request m'], (Ok (r2, (i', a'))).
    split; [now apply second_answers with r1 calls|].
    do 2 eexists. f_equal. same_world.
  - exists [req1], (Ok (r1, (None, None))).
    split; [now apply no_tools|].
    do 2 eexists. f_equal. same_world.
Qed.

Lemma multimodal_responder_of_try mensaje w :
  TutorMultimodal.responder codigos sv mensaje w =
  match TutorMultimodal.responder_try codigos sv mensaje w with
  | (Ok out, w') => (Ok out, w')
  | (Raise e, w') => (Ok (multimodal_error e), w')
  end.
Proof. reflexivity. Qed.

Lemma multimodal_responder_cases mensaje w :
  exists reqs resA,
    exchange sv mm_tools (multimodal_dispatch codigos sv) (None, None)
             (self w) mensaje reqs resA /\
    ((exists e,
        resA = Raise e
        /\ TutorMultimodal.responder_try codigos sv mensaje w
           = (Raise e, logged w reqs)
        /\ TutorMultimodal.responder codigos sv mensaje w
           = (Ok (multimodal_error e), logged w reqs))
     \/
     (exists r x imagen audio,
        resA = Ok (r, x)
        /\ TutorMultimodal.responder_try codigos sv mensaje w
           = (Ok (msg_content (choice_message r), imagen, audio),
              set_historial
                (updated (historial_conversacion (self w)) mensaje
                         (msg_content (choice_message r)))
                (logged w reqs))
        /\ TutorMultimodal.responder codigos sv mensaje w
           = TutorMultimodal.responder_try codigos sv mensaje w)).
Proof.
  destruct (multimodal_responder_try_run mensaje w)
    as (reqs & resA & Hex & Hrun).
  exists reqs, resA. split; [exact Hex|].
  rewrite multimodal_responder_of_try.
  destruct resA as [[r x]|e].
  - destruct Hrun as (imagen & audio & Hrun). rewrite Hrun.
    right. exists r, x, imagen, audio. auto.
  - rewrite Hrun. left. exists e. auto.
Qed.

End MultimodalFacts.

(** ** The airline assistant *)

Section ChatFacts.
Context {rt : Runtime}.
Variable sv : Services.

(** [chat] by cases on what the endpoint and the tool handler return. *)
Lemma chat_run message history sent0 :
  Aerolinea.chat sv message history sent0 =
  let req1 := chat_request message history in
  match chat_completions_create sv req1 with
  | Raise e => (Raise e, sent0 ++ [req1])
  | Ok r1 =>
      if String.eqb (finish_reason r1) "tool_calls" then
        match Aerolinea.handle_tool_call (choice_message r1) with
        | Raise e => (Raise e, sent0 ++ [req1])
        | Ok (tool_response, _) =>
            let req2 :=
              second_request
                ((req_messages req1
                  ++ [Aerolinea.as_turn (choice_message r1)])
                 ++ [tool_response]) in
            match chat_completions_create sv req2 with
            | Raise e => (Raise e, sent0 ++ [req1; req2])
            | Ok r2 =>
                (Ok (msg_content (choice_message r2)), sent0 ++ [req1; req2])
            end
        end
      else (Ok (msg_content (choice_message r1)), sent0 ++ [req1])
  end.
Proof.
  unfold Aerolinea.chat, Aerolinea.create, bind, lift, ret. cbv zeta.
  fold (chat_request message history).
  destruct (chat_completions_create sv (chat_request message history))
    as [r1|e]; [|reflexivity].
  destruct (String.eqb _ _); [|reflexivity].
  destruct (Aerolinea.handle_tool_call _) as [[tr city]|e]; [|reflexivity].
  unfold second_request. cbn [chat_request req_messages].
  destruct (chat_completions_create sv {| req_messages := _ ++ [tr];
                                          req_tools := None |}) as [r2|e];
    now rewrite <- app_assoc.
Qed.

(** With a first tool call, [handle_tool_call] is the decoding, the
    lookup of the city and the price tool, on that call alone. *)
Lemma handle_tool_call_first content tc rest :
  Aerolinea.handle_tool_call
    {| msg_content := content; msg_tool_calls := Some (tc :: rest) |}
  = (arguments <- json_loads (tc_arguments tc) ;;
     city <- method_get arguments "destination_city" VNone ;;
     price <- Aerolinea.get_ticket_price city ;;
     Ok ({| role := tool;
            content := Some (json_dumps
                               (VDict [("destination_city", city);
                                       ("price", VStr price)]));
            tool_calls := None;
            tool_call_id := Some (tc_id tc) |},
         city))%py.
Proof. reflexivity. Qed.

Lemma handle_tool_call_answers message tool_response city :
  Aerolinea.handle_tool_call message = Ok (tool_response, city) ->
  exists tc rest,
    msg_tool_calls message = Some (tc :: rest) /\ answers tc tool_response.
Proof.
  destruct message as [content [[|tc rest]|]]; try discriminate.
  rewrite handle_tool_call_first. unfold rbind.
  destruct (json_loads _) as [arguments|]; [|discriminate].
  destruct (method_get _ _ _) as [c|]; [|discriminate].
  destruct (Aerolinea.get_ticket_price c) as [price|]; [|discriminate].
  intro Hok. injection Hok as <- _.
  exists tc, rest. repeat split.
Qed.

End ChatFacts.

(** ** Exchanges *)

Section ExchangeFacts.
Context {X : Type}.
Variable sv : Services.
Variable tools : list ToolSchema.
Variable dispatch : list ToolCall -> list Turn -> result (list Turn * X).
Variable x0 : X.
Variable t : Tutor.
Variable mensaje : string.

Lemma exchange_sends reqs resA :
  exchange sv tools dispatch x0 t mensaje reqs resA -> reqs <> [].
Proof. destruct 1; discriminate. Qed.

(** A request that the endpoint refuses ends the exchange with that
    exception. *)
Lemma exchange_refused reqs resA req e :
  exchange sv tools dispatch x0 t mensaje reqs resA ->
  In req reqs ->
  chat_completions_create sv req = Raise e ->
  resA = Raise e.
Proof.
  destruct 1; cbn [In]; intros Hin Hraise;
    repeat match goal with
           | H : _ \/ _ |- _ => destruct H as [<- | H]
           | H : False |- _ => destruct H
           end;
    clash; reflexivity.
Qed.

Lemma system_first_first_request :
  count_role system (historial_conversacion t) = 0 ->
  system_first (first_request tools t mensaje).
Proof.
  intro Hnone. split.
  - cbn [first_request req_messages]. rewrite !count_role_app, Hnone.
    reflexivity.
  - now exists (dict_message system (system_prompt t)),
               (historial_conversacion t ++ [dict_message user mensaje]).
Qed.

Lemma system_first_extended req extra :
  system_first req ->
  count_role system extra = 0 ->
  system_first (second_request (req_messages req ++ extra)).
Proof.
  intros [Hone (s & rest & Hshape & Hrole)] Hnone. split.
  - cbn [second_request req_messages]. rewrite count_role_app. lia.
  - exists s, (rest ++ extra). cbn [second_request req_messages].
    now rewrite Hshape.
Qed.

(** When the loop only appends tool turns, every request of the
    exchange has its one system turn in front. *)
Lemma exchange_system_first reqs resA :
  (forall calls mensajes mensajes' x,
      dispatch calls mensajes = Ok (mensajes', x) ->
      exists turns, mensajes' = mensajes ++ turns
                    /\ Forall (fun turn => role turn = tool) turns) ->
  count_role system (historial_conversacion t) = 0 ->
  exchange sv tools dispatch x0 t mensaje reqs resA ->
  Forall system_first reqs.
Proof.
  intros Hdispatch Hnone Hex.
  pose proof (system_first_first_request Hnone) as Hfirst.
  assert (Hsecond : forall r1 calls mensajes x,
             dispatch calls
               (req_messages (first_request tools t mensaje)
                ++ [assistant_tool_calls (choice_message r1) calls])
             = Ok (mensajes, x) ->
             system_first (second_request mensajes)).
  { intros r1 calls mensajes x Hrun.
    apply Hdispatch in Hrun as (turns & -> & Htool).
    rewrite <- app_assoc. apply system_first_extended; [exact Hfirst|].
    rewrite count_role_app. cbn.
    rewrite count_role_none; [reflexivity|].
    eapply Forall_impl; [|exact Htool].
    intros turn ->. discriminate. }
  destruct Hex;
    repeat (apply Forall_cons;
            [first [exact Hfirst | eapply Hsecond; eassumption]|]);
    apply Forall_nil.
Qed.

End ExchangeFacts.

(** ** Invariants of successive calls *)

Lemma successive_calls_invariant {A}
    (responder : Services -> string -> M World A) (P : Tutor -> Prop) :
  (forall sv mensaje w, P (self w) -> P (self (snd (responder sv mensaje w)))) ->
  forall calls w, P (self w) -> P (self (successive_calls responder calls w)).
Proof.
  intros Hstep calls. unfold successive_calls.
  induction calls as [|[sv mensaje] calls IH]; intros w Hw; cbn [fold_left].
  - exact Hw.
  - apply IH. cbn [fst snd]. now apply Hstep.
Qed.

(** ** What a tool round of the simple tutor sends *)

Section SimpleRounds.
Context {rt : Runtime}.
Variable codigos : list (string * list (string * string)).
Variable sv : Services.
Variable mensaje : string.
Variable w : World.
Variable r1 : Response.
Variable calls : list ToolCall.

Abbreviation req1 :=
  (first_request TutorSimple.herramientas_educativas (self w) mensaje).
Abbreviation with_calls :=
  (req_messages req1 ++ [assistant_tool_calls (choice_message r1) calls]).

Hypothesis Hfirst : chat_completions_create sv req1 = Ok r1.
Hypothesis Hfinish : finish_reason r1 = "tool_calls".
Hypothesis Hcalls : msg_tool_calls (choice_message r1) = Some calls.

Lemma finish_eqb : String.eqb (finish_reason r1) "tool_calls" = true.
Proof. now apply String.eqb_eq. Qed.

(** An exception in the loop goes to the handler: one request sent,
    the tutor object as it was. *)
Lemma simple_dispatch_raises e :
  TutorSimple.for_tool_calls codigos sv calls with_calls None = Raise e ->
  TutorSimple.responder codigos sv mensaje w
  = (Ok (simple_error e), logged w [req1]).
Proof.
  intro Hloop. pose proof finish_eqb as Hfin.
  destruct (simple_responder_cases codigos sv mensaje w)
    as (reqs & resA & Hex & Hend).
  inversion Hex; subst; clash.
  destruct Hend as [(e' & _ & Hresp & [Hres | (r & a & Hres)])
                   | (r & a & a' & Hres & _)];
    try discriminate.
  injection Hres as <-. exact Hresp.
Qed.

(** When every call is handled, the second request carries the turns
    that [manejar_herramienta] built, one per call and in order. *)
Lemma simple_second_request_sent :
  forallb (fun tc => is_ok (TutorSimple.manejar_herramienta codigos sv tc))
          calls = true ->
  exists turns,
    sent (snd (TutorSimple.responder codigos sv mensaje w))
    = sent w ++ [req1; second_request (with_calls ++ turns)]
    /\ Forall2 (handled codigos sv) calls turns.
Proof.
  intro Hall. pose proof finish_eqb as Hfin.
  destruct (simple_for_tool_calls_ok codigos sv calls with_calls None Hall)
    as [[mensajes audio] Hloop].
  destruct (simple_for_tool_calls_turns codigos sv calls _ _ _ _ Hloop)
    as (turns & -> & Hturns).
  exists turns. split; [|exact Hturns].
  destruct (simple_responder_cases codigos sv mensaje w)
    as (reqs & resA & Hex & Hend).
  assert (Hreqs : reqs = [req1; second_request (with_calls ++ turns)])
    by (inversion Hex; subst; clash; reflexivity).
  destruct Hend as [(e' & _ & -> & _) | (r & a & a' & _ & Htry & ->)];
    [|rewrite Htry]; now rewrite Hreqs.
Qed.

End SimpleRounds.

(** C1, as amended.  When the first response asks for tools with N
    requests: [responder] of the simple tutor, if handling no request
    raises, sends a second request whose messages are those of the first,
    the assistant turn with the tool calls, and then exactly N tool turns,
    one per request, in the order of the requests, each with the id of
    its request; if handling some request raises, it sends no second
    request.  [chat] of the airline assistant handles the first request
    only: its second request ends with the assistant turn and one tool
    turn that carries the id of the first request, whatever N is,
    provided [handle_tool_call] returns; if it raises, so does [chat],
    after one request and without a tool turn, and with N = 0 it raises
    [IndexError]. *)
Theorem tool_turns_before_second_request {rt : Runtime} :
  (forall codigos sv mensaje w r1 calls,
      let req1 :=
        first_request TutorSimple.herramientas_educativas (self w) mensaje in
      let w' := snd (TutorSimple.responder codigos sv mensaje w) in
      let handles tc :=
        is_ok (TutorSimple.manejar_herramienta codigos sv tc) in
      chat_completions_create sv req1 = Ok r1 ->
      finish_reason r1 = "tool_calls" ->
      msg_tool_calls (choice_message r1) = Some calls ->
      (forallb handles calls = true ->
       exists turns,
         sent w'
         = sent w
           ++ [req1;
               second_request
                 ((req_messages req1
                   ++ [assistant_tool_calls (choice_message r1) calls])
                  ++ turns)]
         /\ length turns = length calls
         /\ Forall2 answers calls turns)
      /\ (forallb handles calls = false -> sent w' = sent w ++ [req1]))
  /\
  (forall sv message history sent0 r1 calls,
      let req1 := chat_request message history in
      chat_completions_create sv req1 = Ok r1 ->
      finish_reason r1 = "tool_calls" ->
      msg_tool_calls (choice_message r1) = Some calls ->
      (forall tool_response city,
          Aerolinea.handle_tool_call (choice_message r1)
          = Ok (tool_response, city) ->
          snd (Aerolinea.chat sv message history sent0)
          = sent0
            ++ [req1;
                second_request
                  ((req_messages req1
                    ++ [Aerolinea.as_turn (choice_message r1)])
                   ++ [tool_response])]
          /\ exists first rest,
               calls = first :: rest /\ answers first tool_response)
      /\ (forall e,
             Aerolinea.handle_tool_call (choice_message r1) = Raise e ->
             Aerolinea.chat sv message history sent0
             = (Raise e, sent0 ++ [req1]))
      /\ (calls = [] ->
          Aerolinea.chat sv message history sent0
          = (Raise IndexError, sent0 ++ [req1]))).
Proof.
  split.
  - intros codigos sv mensaje w r1 calls req1 w' handles Hfirst Hfinish Hcalls.
    split; intro Hall.
    + destruct (simple_second_request_sent codigos sv mensaje w r1 calls
                  Hfirst Hfinish Hcalls Hall) as (turns & Hsent & Hturns).
      exists turns. split; [exact Hsent|].
      apply answers_of_handled in Hturns.
      split; [symmetry; now apply Forall2_length with (1 := Hturns)|exact Hturns].
    + destruct (simple_for_tool_calls_not_ok codigos sv calls
                  (req_messages req1
                   ++ [assistant_tool_calls (choice_message r1) calls])
                  None Hall) as [e Hloop].
      subst w'.
      now rewrite (simple_dispatch_raises codigos sv mensaje w r1 calls
                     Hfirst Hfinish Hcalls e Hloop).
  - intros sv message history sent0 r1 calls req1 Hfirst Hfinish Hcalls.
    apply String.eqb_eq in Hfinish.
    split.
    + intros tool_response city Hhandled.
      rewrite chat_run. cbv zeta. fold req1.
      rewrite Hfirst, Hfinish, Hhandled.
      split.
      * now destruct (chat_completions_create sv (second_request _)).
      * apply handle_tool_call_answers in Hhandled
          as (first & rest & Hsome & Hanswers).
        exists first, rest. split; [congruence|exact Hanswers].
    + split.
      * intros e Hraised. rewrite chat_run. cbv zeta. fold req1.
        now rewrite Hfirst, Hfinish, Hraised.
      * intros ->. rewrite chat_run. cbv zeta. fold req1.
        rewrite Hfirst, Hfinish.
        destruct (choice_message r1) as [content calls].
        cbn in Hcalls. subst calls. reflexivity.
Qed.

(** The tutor is asked about a LED; the model calls the explanation tool
    and an undeclared tool; the follow-up request carries two tool turns,
    for "call_1" and "call_2".  The airline assistant gets one call and
    answers it; given an empty list of calls it raises [IndexError]. *)
Lemma tool_turns_before_second_request_witness :
  (exists turns,
      sent (snd (TutorSimple.responder (rt := Sample.runtime)
                   Scenario.codigos Scenario.explains_led
                   "¿Qué es un LED?" Scenario.fresh))
      = [first_request TutorSimple.herramientas_educativas
                       (self Scenario.fresh) "¿Qué es un LED?";
         second_request
           ((req_messages
               (first_request TutorSimple.herramientas_educativas
                              (self Scenario.fresh) "¿Qué es un LED?")
             ++ [assistant_tool_calls
                   (choice_message (Scenario.requests_tools Scenario.led_calls))
                   Scenario.led_calls])
            ++ turns)]
      /\ length turns = 2
      /\ Forall2 answers Scenario.led_calls turns)
  /\ (snd (Aerolinea.chat (rt := Sample.runtime) Scenario.one_price
                "¿Cuánto cuesta ir a Londres?" [] [])
      = [chat_request "¿Cuánto cuesta ir a Londres?" [];
         second_request
           ((req_messages (chat_request "¿Cuánto cuesta ir a Londres?" [])
             ++ [Aerolinea.as_turn
                   (choice_message
                      (Scenario.requests_tools
                         [Scenario.price_of "call_1" "Londres"]))])
            ++ [Scenario.londres_turn])]
      /\ exists first rest,
           [Scenario.price_of "call_1" "Londres"] = first :: rest
           /\ answers first Scenario.londres_turn)
  /\ Aerolinea.chat (rt := Sample.runtime) Cases.no_calls
       "¿Cuánto cuesta ir a Londres?" [] []
     = (Raise IndexError,
        [] ++ [chat_request "¿Cuánto cuesta ir a Londres?" []]).
Proof.
  split; [|split].
  - apply (proj1 (proj1 (tool_turns_before_second_request (rt := Sample.runtime))
                        Scenario.codigos Scenario.explains_led
                        "¿Qué es un LED?" Scenario.fresh
                        (Scenario.requests_tools Scenario.led_calls)
                        Scenario.led_calls eq_refl eq_refl eq_refl)).
    reflexivity.
  - apply (proj1 (proj2 (tool_turns_before_second_request (rt := Sample.runtime))
                        Scenario.one_price
                        "¿Cuánto cuesta ir a Londres?" [] []
                        (Scenario.requests_tools
                           [Scenario.price_of "call_1" "Londres"])
                        [Scenario.price_of "call_1" "Londres"]
                        eq_refl eq_refl eq_refl)
                 Scenario.londres_turn (VStr "Londres")).
    reflexivity.
  - apply (proj2 (proj2 (proj2 (tool_turns_before_second_request
                                  (rt := Sample.runtime))
                               Cases.no_calls
                               "¿Cuánto cuesta ir a Londres?" [] []
                               (Scenario.requests_tools []) []
                               eq_refl eq_refl eq_refl))).
    reflexivity.
Defined.

(** C1 as stated fails for [chat]: the endpoint returns two tool-call
    requests and the second request carries one tool turn. *)
Lemma chat_answers_one_request_of_two :
  chat_completions_create Scenario.two_prices
    (chat_request "¿Cuánto cuestan Londres y París?" [])
  = Ok (Scenario.requests_tools Scenario.two_calls)
  /\ length Scenario.two_calls = 2
  /\ exists req1 req2,
       snd (Aerolinea.chat (rt := Sample.runtime) Scenario.two_prices
              "¿Cuánto cuestan Londres y París?" [] [])
       = [req1; req2]
       /\ count_role tool (req_messages req2) = 1
       /\ count_role tool (req_messages req2) <> length Scenario.two_calls.
Proof.
  split; [reflexivity|]. split; [reflexivity|].
  do 2 eexists. split; [vm_compute; reflexivity|].
  split; [reflexivity|discriminate].
Qed.

(** ** Failures inside a tool round *)

Section ToolFailures.
Context {rt : Runtime}.
Variable codigos : list (string * list (string * string)).
Variable sv : Services.

Lemma simple_undecodable tc e :
  json_loads (tc_arguments tc) = Raise e ->
  TutorSimple.manejar_herramienta codigos sv tc = Raise e.
Proof.
  intro Hloads. unfold TutorSimple.manejar_herramienta.
  now rewrite Hloads.
Qed.

Lemma simple_explicar_raises tc arguments componente nivel e :
  tc_name tc = "explicar_componente_arduino" ->
  json_loads (tc_arguments tc) = Ok arguments ->
  getitem arguments "componente" = Ok componente ->
  getitem arguments "nivel" = Ok nivel ->
  TutorSimple.explicar_componente_arduino componente nivel = Raise e ->
  TutorSimple.manejar_herramienta codigos sv tc = Raise e.
Proof.
  intros Hname Hloads Hcomponente Hnivel Hraises.
  unfold TutorSimple.manejar_herramienta.
  rewrite Hloads, Hname. cbn [rbind].
  rewrite String.eqb_refl.
  now rewrite Hcomponente, Hnivel; cbn [rbind]; rewrite Hraises.
Qed.

Lemma simple_mostrar_raises tc arguments concepto nivel e :
  tc_name tc = "mostrar_codigo_ejemplo" ->
  json_loads (tc_arguments tc) = Ok arguments ->
  getitem arguments "concepto" = Ok concepto ->
  getitem arguments "nivel" = Ok nivel ->
  TutorSimple.mostrar_codigo_ejemplo codigos concepto nivel = Raise e ->
  TutorSimple.manejar_herramienta codigos sv tc = Raise e.
Proof.
  intros Hname Hloads Hconcepto Hnivel Hraises.
  unfold TutorSimple.manejar_herramienta.
  rewrite Hloads, Hname. cbn [rbind].
  replace (String.eqb "mostrar_codigo_ejemplo" "explicar_componente_arduino")
    with false by reflexivity.
  rewrite String.eqb_refl.
  now rewrite Hconcepto, Hnivel; cbn [rbind]; rewrite Hraises.
Qed.

Lemma simple_unknown_tool tc arguments :
  tc_name tc <> "explicar_componente_arduino" ->
  tc_name tc <> "mostrar_codigo_ejemplo" ->
  json_loads (tc_arguments tc) = Ok arguments ->
  TutorSimple.manejar_herramienta codigos sv tc
  = Ok ({| role := tool;
           content :=
             Some (json_dumps
                     (VDict [("error",
                              VStr ("Herramienta " +++ tc_name tc
                                    +++ " no reconocida"))]));
           tool_calls := None;
           tool_call_id := Some (tc_id tc) |},
        None).
Proof.
  intros Hexplicar Hmostrar Hloads.
  apply String.eqb_neq in Hexplicar, Hmostrar.
  unfold TutorSimple.manejar_herramienta.
  now rewrite Hloads; cbn [rbind]; rewrite Hexplicar, Hmostrar.
Qed.

(** The handler takes over when handling the call [tc] raises, the
    calls before it having been handled. *)
Lemma simple_round_interrupted mensaje w r1 pre tc post e :
  let req1 :=
    first_request TutorSimple.herramientas_educativas (self w) mensaje in
  chat_completions_create sv req1 = Ok r1 ->
  finish_reason r1 = "tool_calls" ->
  msg_tool_calls (choice_message r1) = Some (pre ++ tc :: post) ->
  forallb (fun c => is_ok (TutorSimple.manejar_herramienta codigos sv c)) pre
  = true ->
  TutorSimple.manejar_herramienta codigos sv tc = Raise e ->
  TutorSimple.responder codigos sv mensaje w
  = (Ok (simple_error e), logged w [req1]).
Proof.
  intros req1 Hfirst Hfinish Hcalls Hpre Htc.
  apply simple_dispatch_raises with r1 (pre ++ tc :: post); try assumption.
  now apply simple_for_tool_calls_raises.
Qed.

Lemma chat_round_interrupted message history sent0 r1 e :
  chat_completions_create sv (chat_request message history) = Ok r1 ->
  finish_reason r1 = "tool_calls" ->
  Aerolinea.handle_tool_call (choice_message r1) = Raise e ->
  Aerolinea.chat sv message history sent0
  = (Raise e, sent0 ++ [chat_request message history]).
Proof.
  intros Hfirst Hfinish Hraised. apply String.eqb_eq in Hfinish.
  rewrite chat_run. cbv zeta.
  now rewrite Hfirst, Hfinish, Hraised.
Qed.

End ToolFailures.

(** C4, as amended.  In the simple tutor an exception raised by a tool
    callable ([explicar_componente_arduino] or [mostrar_codigo_ejemplo])
    is raised by [manejar_herramienta]; no tool turn is built from it.
    When handling a call raises [e] in [responder], the round ends there:
    the first request is the only one sent, [responder] returns the text
    "Error procesando mensaje: " followed by [str(e)], with no audio, and
    the tutor object is as it was.  In the airline assistant an exception
    of [get_ticket_price] is raised by [handle_tool_call] and then by
    [chat] itself, after its first request. *)
Theorem tool_exception_ends_the_round {rt : Runtime} :
  (forall codigos sv tc arguments componente nivel e,
      tc_name tc = "explicar_componente_arduino" ->
      json_loads (tc_arguments tc) = Ok arguments ->
      getitem arguments "componente" = Ok componente ->
      getitem arguments "nivel" = Ok nivel ->
      TutorSimple.explicar_componente_arduino componente nivel = Raise e ->
      TutorSimple.manejar_herramienta codigos sv tc = Raise e)
  /\
  (forall codigos sv tc arguments concepto nivel e,
      tc_name tc = "mostrar_codigo_ejemplo" ->
      json_loads (tc_arguments tc) = Ok arguments ->
      getitem arguments "concepto" = Ok concepto ->
      getitem arguments "nivel" = Ok nivel ->
      TutorSimple.mostrar_codigo_ejemplo codigos concepto nivel = Raise e ->
      TutorSimple.manejar_herramienta codigos sv tc = Raise e)
  /\
  (forall codigos sv mensaje w r1 pre tc post e,
      let req1 :=
        first_request TutorSimple.herramientas_educativas (self w) mensaje in
      chat_completions_create sv req1 = Ok r1 ->
      finish_reason r1 = "tool_calls" ->
      msg_tool_calls (choice_message r1) = Some (pre ++ tc :: post) ->
      forallb (fun c => is_ok (TutorSimple.manejar_herramienta codigos sv c))
              pre = true ->
      TutorSimple.manejar_herramienta codigos sv tc = Raise e ->
      TutorSimple.responder codigos sv mensaje w
      = (Ok (Some ("Error procesando mensaje: " +++ str_exn e), None),
         {| self := self w; sent := sent w ++ [req1] |}))
  /\
  (forall content tc rest arguments city e,
      json_loads (tc_arguments tc) = Ok arguments ->
      method_get arguments "destination_city" VNone = Ok city ->
      Aerolinea.get_ticket_price city = Raise e ->
      Aerolinea.handle_tool_call
        {| msg_content := content; msg_tool_calls := Some (tc :: rest) |}
      = Raise e)
  /\
  (forall sv message history sent0 r1 e,
      chat_completions_create sv (chat_request message history) = Ok r1 ->
      finish_reason r1 = "tool_calls" ->
      Aerolinea.handle_tool_call (choice_message r1) = Raise e ->
      Aerolinea.chat sv message history sent0
      = (Raise e, sent0 ++ [chat_request message history])).
Proof.
  split; [|split; [|split; [|split]]].
  - intros. eapply simple_explicar_raises; eassumption.
  - intros. eapply simple_mostrar_raises; eassumption.
  - intros codigos sv mensaje w r1 pre tc post e req1.
    apply simple_round_interrupted.
  - intros content tc rest arguments city e Hloads Hcity Hprice.
    rewrite handle_tool_call_first.
    now rewrite Hloads; cbn [rbind]; rewrite Hcity; cbn [rbind]; rewrite Hprice.
  - intros. now apply chat_round_interrupted with r1.
Qed.

(** The model passes the component as a list: the explanation tool
    raises [TypeError] and the tutor answers with the error text.  The
    model leaves the city out: the price tool raises [AttributeError] and
    so does the handler of the airline assistant. *)
Lemma tool_exception_ends_the_round_witness :
  TutorSimple.responder (rt := Sample.runtime) Scenario.codigos
    Scenario.unhashable_component "¿Qué es un LED?" Scenario.fresh
  = (Ok (Some "Error procesando mensaje: TypeError", None),
     {| self := self Scenario.fresh;
        sent := [first_request TutorSimple.herramientas_educativas
                               (self Scenario.fresh) "¿Qué es un LED?"] |})
  /\ Aerolinea.handle_tool_call (rt := Sample.runtime)
       {| msg_content := None; msg_tool_calls := Some [Scenario.empty_object] |}
     = Raise AttributeError.
Proof.
  split.
  - apply (proj1 (proj2 (proj2 (tool_exception_ends_the_round
                                  (rt := Sample.runtime))))
                 Scenario.codigos Scenario.unhashable_component
                 "¿Qué es un LED?" Scenario.fresh
                 (Scenario.requests_tools
                    [Scenario.explain "call_1" Scenario.led_in_a_list])
                 [] (Scenario.explain "call_1" Scenario.led_in_a_list) []
                 TypeError);
      reflexivity.
  - apply (proj1 (proj2 (proj2 (proj2 (tool_exception_ends_the_round
                                         (rt := Sample.runtime)))))
                 None Scenario.empty_object [] (VDict []) VNone AttributeError);
      reflexivity.
Defined.

(** C4 as stated fails.  With the component given as a list the tool
    callable raises; the tutor then sends no second request and builds no
    tool turn, its one request holding the system and the user turn only.
    With the city left out the price tool raises, and the exception leaves
    [chat]. *)
Lemma tool_exception_is_not_a_tool_result :
  TutorSimple.explicar_componente_arduino (rt := Sample.runtime)
    (VList [VStr "led"]) (VStr "primaria")
  = Raise TypeError
  /\ (let '(out, w') :=
        TutorSimple.responder (rt := Sample.runtime) Scenario.codigos
          Scenario.unhashable_component "¿Qué es un LED?" Scenario.fresh in
      out = Ok (Some "Error procesando mensaje: TypeError", None)
      /\ length (sent w') = 1
      /\ Forall (fun req => count_role tool (req_messages req) = 0) (sent w'))
  /\ Aerolinea.get_ticket_price (rt := Sample.runtime) VNone
     = Raise AttributeError
  /\ fst (Aerolinea.chat (rt := Sample.runtime) Scenario.no_city
            "¿Cuánto cuesta un billete?" [] [])
     = Raise AttributeError.
Proof.
  split; [reflexivity|]. split; [|split; reflexivity].
  vm_compute. repeat split. repeat constructor.
Qed.

(** C5, as amended.  When [json.loads] raises [e] on the argument blob
    of a request, [manejar_herramienta] of the simple tutor raises [e]
    and builds no payload; in [responder] the round ends there: the first
    request is the only one sent, the text "Error procesando mensaje: "
    followed by [str(e)] is returned with no audio, and the tutor object
    is as it was, provided the requests before it in the message were
    handled.  In the airline assistant only the first request is decoded:
    when [json.loads] raises [e] on its blob, [chat] raises [e] after its
    first request; the blobs of the requests after the first are never
    decoded, so when the first request alone is handled, [chat] goes on
    to its second request with the tool turn of the first, whatever
    follows it. *)
Theorem undecodable_arguments_end_the_round {rt : Runtime} :
  (forall codigos sv tc e,
      json_loads (tc_arguments tc) = Raise e ->
      TutorSimple.manejar_herramienta codigos sv tc = Raise e)
  /\
  (forall codigos sv mensaje w r1 pre tc post e,
      let req1 :=
        first_request TutorSimple.herramientas_educativas (self w) mensaje in
      chat_completions_create sv req1 = Ok r1 ->
      finish_reason r1 = "tool_calls" ->
      msg_tool_calls (choice_message r1) = Some (pre ++ tc :: post) ->
      forallb (fun c => is_ok (TutorSimple.manejar_herramienta codigos sv c))
              pre = true ->
      json_loads (tc_arguments tc) = Raise e ->
      TutorSimple.responder codigos sv mensaje w
      = (Ok (Some ("Error procesando mensaje: " +++ str_exn e), None),
         {| self := self w; sent := sent w ++ [req1] |}))
  /\
  (forall sv message history sent0 r1 tc rest e,
      chat_completions_create sv (chat_request message history) = Ok r1 ->
      finish_reason r1 = "tool_calls" ->
      msg_tool_calls (choice_message r1) = Some (tc :: rest) ->
      json_loads (tc_arguments tc) = Raise e ->
      Aerolinea.chat sv message history sent0
      = (Raise e, sent0 ++ [chat_request message history]))
  /\
  (forall sv message history sent0 r1 tc rest tool_response city,
      let req1 := chat_request message history in
      chat_completions_create sv req1 = Ok r1 ->
      finish_reason r1 = "tool_calls" ->
      msg_tool_calls (choice_message r1) = Some (tc :: rest) ->
      Aerolinea.handle_tool_call
        {| msg_content := None; msg_tool_calls := Some [tc] |}
      = Ok (tool_response, city) ->
      snd (Aerolinea.chat sv message history sent0)
      = sent0
        ++ [req1;
            second_request
              ((req_messages req1 ++ [Aerolinea.as_turn (choice_message r1)])
               ++ [tool_response])]).
Proof.
  split; [|split; [|split]].
  - intros. now apply simple_undecodable.
  - intros codigos sv mensaje w r1 pre tc post e req1
           Hfirst Hfinish Hcalls Hpre Hloads.
    apply (simple_round_interrupted codigos sv mensaje w r1 pre tc post e);
      try assumption.
    now apply simple_undecodable.
  - intros sv message history sent0 r1 tc rest e Hfirst Hfinish Hcalls Hloads.
    apply chat_round_interrupted with r1; try assumption.
    destruct (choice_message r1) as [content calls]. cbn in Hcalls. subst calls.
    rewrite handle_tool_call_first. now rewrite Hloads.
  - intros sv message history sent0 r1 tc rest tool_response city req1
           Hfirst Hfinish Hcalls Hhandled.
    apply String.eqb_eq in Hfinish.
    rewrite chat_run. cbv zeta. fold req1. rewrite Hfirst, Hfinish.
    assert (Hsame : Aerolinea.handle_tool_call (choice_message r1)
                    = Ok (tool_response, city)).
    { destruct (choice_message r1) as [content calls].
      cbn in Hcalls. subst calls.
      rewrite handle_tool_call_first.
      now rewrite handle_tool_call_first in Hhandled. }
    rewrite Hsame.
    now destruct (chat_completions_create sv (second_request _)).
Qed.

(** The model sends the arguments "led, primaria" to the tutor and the
    bare word "Londres" to the airline assistant; and it sends the
    airline assistant a request that decodes followed by the bare word
    "París", which is never decoded. *)
Lemma undecodable_arguments_end_the_round_witness :
  TutorSimple.responder (rt := Sample.runtime) Scenario.codigos
    Scenario.undecodable "¿Qué es un LED?" Scenario.fresh
  = (Ok (Some "Error procesando mensaje: JSONDecodeError", None),
     {| self := self Scenario.fresh;
        sent := [first_request TutorSimple.herramientas_educativas
                               (self Scenario.fresh) "¿Qué es un LED?"] |})
  /\ Aerolinea.chat (rt := Sample.runtime) Scenario.bad_arguments
       "¿Cuánto cuesta ir a Londres?" [] []
     = (Raise JSONDecodeError, [chat_request "¿Cuánto cuesta ir a Londres?" []])
  /\ snd (Aerolinea.chat (rt := Sample.runtime) Cases.good_then_bad
            "¿Cuánto cuesta ir a Londres?" [] [])
     = [] ++ [chat_request "¿Cuánto cuesta ir a Londres?" [];
              second_request
                ((req_messages (chat_request "¿Cuánto cuesta ir a Londres?" [])
                  ++ [Aerolinea.as_turn
                        (choice_message
                           (Scenario.requests_tools
                              Cases.good_then_bad_calls))])
                 ++ [Scenario.londres_turn])].
Proof.
  split; [|split].
  - apply (proj1 (proj2 (undecodable_arguments_end_the_round
                           (rt := Sample.runtime)))
                 Scenario.codigos Scenario.undecodable
                 "¿Qué es un LED?" Scenario.fresh
                 (Scenario.requests_tools
                    [Scenario.explain "call_1" "led, primaria"])
                 [] (Scenario.explain "call_1" "led, primaria") []
                 JSONDecodeError);
      reflexivity.
  - apply (proj1 (proj2 (proj2 (undecodable_arguments_end_the_round
                                  (rt := Sample.runtime))))
                 Scenario.bad_arguments "¿Cuánto cuesta ir a Londres?" [] []
                 (Scenario.requests_tools [Scenario.bare_word])
                 Scenario.bare_word [] JSONDecodeError);
      reflexivity.
  - apply (proj2 (proj2 (proj2 (undecodable_arguments_end_the_round
                                  (rt := Sample.runtime))))
                 Cases.good_then_bad "¿Cuánto cuesta ir a Londres?" [] []
                 (Scenario.requests_tools Cases.good_then_bad_calls)
                 (Scenario.price_of "call_1" "Londres")
                 [Scenario.ask "call_2" "get_ticket_price" "París"]
                 Scenario.londres_turn (VStr "Londres"));
      reflexivity.
Defined.

(** C5 as stated fails.  The blob "Londres" is not JSON; [chat] raises
    the decoding error, having sent one request, and no error payload
    reaches the endpoint.  The tutor, given the blob "led, primaria",
    returns the error text without a second request or a tool turn. *)
Lemma undecodable_arguments_are_not_answered :
  json_loads (Runtime := Sample.runtime) (tc_arguments Scenario.bare_word)
  = Raise JSONDecodeError
  /\ Aerolinea.chat (rt := Sample.runtime) Scenario.bad_arguments
       "¿Cuánto cuesta ir a Londres?" [] []
     = (Raise JSONDecodeError, [chat_request "¿Cuánto cuesta ir a Londres?" []])
  /\ (let '(out, w') :=
        TutorSimple.responder (rt := Sample.runtime) Scenario.codigos
          Scenario.undecodable "¿Qué es un LED?" Scenario.fresh in
      out = Ok (Some "Error procesando mensaje: JSONDecodeError", None)
      /\ length (sent w') = 1
      /\ Forall (fun req => count_role tool (req_messages req) = 0) (sent w')).
Proof.
  split; [reflexivity|]. split; [reflexivity|].
  vm_compute. repeat split. repeat constructor.
Qed.

(** C6, as amended.  In the simple tutor, a request whose arguments
    decode and whose tool name is not declared is answered by
    [manejar_herramienta] with a tool turn that carries the id of the
    request and the payload [{"error": "Herramienta <name> no
    reconocida"}], no tool being invoked; and when every request of the
    round is handled, [responder] goes on to its second request, which
    carries those turns.  The airline assistant has no lookup by name:
    [handle_tool_call] gives the same result whatever the name of the
    first request is, that of [get_ticket_price] on its arguments. *)
Theorem unknown_tool_gets_an_error_turn {rt : Runtime} :
  (forall codigos sv tc arguments,
      undeclared TutorSimple.herramientas_educativas (tc_name tc) = true ->
      json_loads (tc_arguments tc) = Ok arguments ->
      TutorSimple.manejar_herramienta codigos sv tc
      = Ok ({| role := tool;
               content :=
                 Some (json_dumps
                         (VDict [("error",
                                  VStr ("Herramienta " +++ tc_name tc
                                        +++ " no reconocida"))]));
               tool_calls := None;
               tool_call_id := Some (tc_id tc) |},
            None))
  /\
  (forall codigos sv mensaje w r1 calls,
      let req1 :=
        first_request TutorSimple.herramientas_educativas (self w) mensaje in
      chat_completions_create sv req1 = Ok r1 ->
      finish_reason r1 = "tool_calls" ->
      msg_tool_calls (choice_message r1) = Some calls ->
      forallb (fun tc => is_ok (TutorSimple.manejar_herramienta codigos sv tc))
              calls = true ->
      exists turns,
        sent (snd (TutorSimple.responder codigos sv mensaje w))
        = sent w
          ++ [req1;
              second_request
                ((req_messages req1
                  ++ [assistant_tool_calls (choice_message r1) calls])
                 ++ turns)]
        /\ Forall2 (handled codigos sv) calls turns)
  /\
  (forall content id name other arguments rest,
      Aerolinea.handle_tool_call
        {| msg_content := content;
           msg_tool_calls :=
             Some ({| tc_id := id; tc_name := name;
                      tc_arguments := arguments |} :: rest) |}
      = Aerolinea.handle_tool_call
          {| msg_content := content;
             msg_tool_calls :=
               Some ({| tc_id := id; tc_name := other;
                        tc_arguments := arguments |} :: rest) |}).
Proof.
  split; [|split].
  - intros codigos sv tc arguments Hundeclared Hloads.
    apply simple_unknown_tool with arguments; [| |exact Hloads];
      intro Hname; rewrite Hname in Hundeclared; vm_compute in Hundeclared;
      discriminate.
  - intros codigos sv mensaje w r1 calls req1.
    apply simple_second_request_sent.
  - intros. now rewrite !handle_tool_call_first.
Qed.

(** The tutor is asked to call "dibujar_circuito", which it never
    declared, with the arguments "{}". *)
Lemma unknown_tool_gets_an_error_turn_witness :
  TutorSimple.manejar_herramienta (rt := Sample.runtime) Scenario.codigos
    Scenario.explains_led (Scenario.ask "call_2" "dibujar_circuito" "{}")
  = Ok ({| role := tool;
           content :=
             Some (Sample.dumps
                     (VDict [("error",
                              VStr "Herramienta dibujar_circuito no reconocida")]));
           tool_calls := None;
           tool_call_id := Some "call_2" |},
        None)
  /\ exists turns,
       sent (snd (TutorSimple.responder (rt := Sample.runtime)
                    Scenario.codigos Scenario.explains_led
                    "¿Qué es un LED?" Scenario.fresh))
       = [first_request TutorSimple.herramientas_educativas
                        (self Scenario.fresh) "¿Qué es un LED?";
          second_request
            ((req_messages
                (first_request TutorSimple.herramientas_educativas
                               (self Scenario.fresh) "¿Qué es un LED?")
              ++ [assistant_tool_calls
                    (choice_message
                       (Scenario.requests_tools Scenario.led_calls))
                    Scenario.led_calls])
             ++ turns)]
       /\ Forall2 (handled (rt := Sample.runtime)
                           Scenario.codigos Scenario.explains_led)
                  Scenario.led_calls turns.
Proof.
  split.
  - apply (proj1 (unknown_tool_gets_an_error_turn (rt := Sample.runtime))
                 Scenario.codigos Scenario.explains_led
                 (Scenario.ask "call_2" "dibujar_circuito" "{}") (VDict []));
      reflexivity.
  - apply (proj1 (proj2 (unknown_tool_gets_an_error_turn (rt := Sample.runtime)))
                 Scenario.codigos Scenario.explains_led
                 "¿Qué es un LED?" Scenario.fresh
                 (Scenario.requests_tools Scenario.led_calls)
                 Scenario.led_calls);
      reflexivity.
Defined.

(** C6 as stated fails for the airline assistant.  The model names
    "cancel_booking", which was never declared; [handle_tool_call] runs
    [get_ticket_price] all the same and the second request carries the
    price of Londres, not an error payload. *)
Lemma chat_prices_for_an_unknown_tool :
  undeclared Aerolinea.tools (tc_name Scenario.cancel_booking) = true
  /\ Aerolinea.handle_tool_call (rt := Sample.runtime)
       (choice_message (Scenario.requests_tools [Scenario.cancel_booking]))
     = Ok (Scenario.londres_turn, VStr "Londres")
  /\ snd (Aerolinea.chat (rt := Sample.runtime) Scenario.unknown_tool
            "Cancela mi reserva a Londres" [] [])
     = [chat_request "Cancela mi reserva a Londres" [];
        second_request
          ((req_messages (chat_request "Cancela mi reserva a Londres" [])
            ++ [Aerolinea.as_turn
                  (choice_message
                     (Scenario.requests_tools [Scenario.cancel_booking]))])
           ++ [Scenario.londres_turn])].
Proof. repeat split. Qed.

(** ** One call of [responder] *)

Lemma sent_during_app before reqs : sent_during before (before ++ reqs) = reqs.
Proof.
  unfold sent_during. rewrite skipn_app, skipn_all, Nat.sub_diag. reflexivity.
Qed.

Section Calls.
Context {rt : Runtime}.
Variable codigos : list (string * list (string * string)).
Variable sv : Services.
Variable mensaje : string.
Variable w : World.

(** The log grows by the requests of the exchange, and the tutor object
    either stays as it was or stores the pair. *)
Lemma simple_responder_step :
  exists reqs resA,
    exchange sv TutorSimple.herramientas_educativas
             (fun calls mensajes =>
                TutorSimple.for_tool_calls codigos sv calls mensajes None)
             None (self w) mensaje reqs resA
    /\ sent (snd (TutorSimple.responder codigos sv mensaje w)) = sent w ++ reqs
    /\ ((exists e,
           TutorSimple.responder codigos sv mensaje w
           = (Ok (simple_error e), logged w reqs)
           /\ (forall e', resA = Raise e' -> e' = e))
        \/
        (exists reply,
           (forall e, resA <> Raise e)
           /\ self (snd (TutorSimple.responder codigos sv mensaje w))
              = self (set_historial
                        (updated (historial_conversacion (self w))
                                 mensaje reply) w))).
Proof.
  destruct (simple_responder_cases codigos sv mensaje w)
    as (reqs & resA & Hex & Hend).
  exists reqs, resA. split; [exact Hex|].
  destruct Hend as [(e & _ & Hresp & Hres) | (r & a & a' & -> & Htry & Hresp)].
  - rewrite Hresp. split; [reflexivity|]. left. exists e.
    split; [reflexivity|].
    intros e' ->. destruct Hres as [Hres | (r & a & Hres)]; congruence.
  - rewrite Hresp, Htry. split; [reflexivity|]. right.
    exists (msg_content (choice_message r)). split; [discriminate|reflexivity].
Qed.

Lemma multimodal_responder_step :
  exists reqs resA,
    exchange sv TutorMultimodal.herramientas_educativas
             (multimodal_dispatch codigos sv) (None, None)
             (self w) mensaje reqs resA
    /\ sent (snd (TutorMultimodal.responder codigos sv mensaje w))
       = sent w ++ reqs
    /\ ((exists e,
           TutorMultimodal.responder codigos sv mensaje w
           = (Ok (multimodal_error e), logged w reqs)
           /\ resA = Raise e)
        \/
        (exists reply,
           (forall e, resA <> Raise e)
           /\ self (snd (TutorMultimodal.responder codigos sv mensaje w))
              = self (set_historial
                        (updated (historial_conversacion (self w))
                                 mensaje reply) w))).
Proof.
  destruct (multimodal_responder_cases codigos sv mensaje w)
    as (reqs & resA & Hex & Hend).
  exists reqs, resA. split; [exact Hex|].
  destruct Hend as [(e & -> & _ & Hresp)
                   | (r & x & imagen & audio & -> & Htry & Hresp)].
  - rewrite Hresp. split; [reflexivity|]. left. now exists e.
  - rewrite Hresp, Htry. split; [reflexivity|]. right.
    exists (msg_content (choice_message r)). split; [discriminate|reflexivity].
Qed.

Lemma well_kept_updated prompt reply :
  well_kept prompt (self w) ->
  well_kept prompt
    (self (set_historial
             (updated (historial_conversacion (self w)) mensaje reply) w)).
Proof.
  intros (_ & Halt & Hprompt). unfold well_kept. cbn.
  split; [apply updated_length|].
  split; [now apply alternates_updated|exact Hprompt].
Qed.

Lemma simple_responder_keeps prompt :
  well_kept prompt (self w) ->
  well_kept prompt (self (snd (TutorSimple.responder codigos sv mensaje w))).
Proof.
  intro Hw.
  destruct simple_responder_step
    as (reqs & resA & _ & _ & [(e & -> & _) | (reply & _ & ->)]).
  - exact Hw.
  - now apply well_kept_updated.
Qed.

Lemma multimodal_responder_keeps prompt :
  well_kept prompt (self w) ->
  well_kept prompt
    (self (snd (TutorMultimodal.responder codigos sv mensaje w))).
Proof.
  intro Hw.
  destruct multimodal_responder_step
    as (reqs & resA & _ & _ & [(e & -> & _) | (reply & _ & ->)]).
  - exact Hw.
  - now apply well_kept_updated.
Qed.

End Calls.

Lemma well_kept_init nivel idioma prompt :
  well_kept prompt (init nivel idioma prompt).
Proof. unfold well_kept. cbn. repeat split. lia. Qed.

(** C7.  In both tutors, whichever request of a call the endpoint
    refuses with an exception [e], [responder] returns the error text
    built from [e] with no media, and the tutor object, its history
    included, is exactly as before the call.  Every call sends at least
    one request. *)
Theorem endpoint_failure_keeps_history {rt : Runtime} :
  (forall codigos sv mensaje w,
      let run := TutorSimple.responder codigos sv mensaje w in
      let reqs := sent_during (sent w) (sent (snd run)) in
      sent (snd run) = sent w ++ reqs
      /\ reqs <> []
      /\ forall req e,
           In req reqs ->
           chat_completions_create sv req = Raise e ->
           fst run
           = Ok (Some ("Error procesando mensaje: " +++ str_exn e), None)
           /\ self (snd run) = self w)
  /\
  (forall codigos sv mensaje w,
      let run := TutorMultimodal.responder codigos sv mensaje w in
      let reqs := sent_during (sent w) (sent (snd run)) in
      sent (snd run) = sent w ++ reqs
      /\ reqs <> []
      /\ forall req e,
           In req reqs ->
           chat_completions_create sv req = Raise e ->
           fst run
           = Ok (Some ("❌ Error procesando mensaje: " +++ str_exn e),
                 None, None)
           /\ self (snd run) = self w).
Proof.
  split; intros codigos sv mensaje w run reqs; subst run reqs.
  - destruct (simple_responder_step codigos sv mensaje w)
      as (reqs & resA & Hex & Hsent & Hend).
    rewrite Hsent, sent_during_app.
    split; [reflexivity|]. split; [now apply exchange_sends in Hex|].
    intros req e Hin Hraise.
    pose proof (exchange_refused _ _ _ _ _ _ _ _ _ _ Hex Hin Hraise) as Hres.
    destruct Hend as [(e' & Hresp & Hsame) | (reply & Hnot & _)].
    + rewrite Hresp, (Hsame e Hres). now split.
    + now destruct (Hnot e).
  - destruct (multimodal_responder_step codigos sv mensaje w)
      as (reqs & resA & Hex & Hsent & Hend).
    rewrite Hsent, sent_during_app.
    split; [reflexivity|]. split; [now apply exchange_sends in Hex|].
    intros req e Hin Hraise.
    pose proof (exchange_refused _ _ _ _ _ _ _ _ _ _ Hex Hin Hraise) as Hres.
    destruct Hend as [(e' & Hresp & Hsame) | (reply & Hnot & _)].
    + rewrite Hresp. rewrite Hres in Hsame. injection Hsame as <-. now split.
    + now destruct (Hnot e).
Qed.

(** The endpoint refuses the first request of the simple tutor with a
    rate-limit error, and the follow-up request of the multimodal tutor
    with a server error. *)
Lemma endpoint_failure_keeps_history_witness :
  (fst (TutorSimple.responder (rt := Sample.runtime) Scenario.codigos
          Scenario.rate_limited "¿Qué es un LED?" Scenario.fresh)
   = Ok (Some "Error procesando mensaje: 429 rate limit", None)
   /\ self (snd (TutorSimple.responder (rt := Sample.runtime) Scenario.codigos
                   Scenario.rate_limited "¿Qué es un LED?" Scenario.fresh))
      = self Scenario.fresh)
  /\
  (fst (TutorMultimodal.responder (rt := Sample.runtime) Scenario.codigos
          Scenario.fails_on_follow_up "¿Qué es un LED?" Scenario.fresh)
   = Ok (Some "❌ Error procesando mensaje: 503 unavailable", None, None)
   /\ self (snd (TutorMultimodal.responder (rt := Sample.runtime)
                   Scenario.codigos Scenario.fails_on_follow_up
                   "¿Qué es un LED?" Scenario.fresh))
      = self Scenario.fresh).
Proof.
  split.
  - apply (proj2 (proj2 (proj1 (endpoint_failure_keeps_history
                                  (rt := Sample.runtime))
                               Scenario.codigos Scenario.rate_limited
                               "¿Qué es un LED?" Scenario.fresh))
                 (first_request TutorSimple.herramientas_educativas
                                (self Scenario.fresh) "¿Qué es un LED?")
                 (APIError "429 rate limit")).
    + vm_compute. left. reflexivity.
    + reflexivity.
  - apply (proj2 (proj2 (proj2 (endpoint_failure_keeps_history
                                  (rt := Sample.runtime))
                               Scenario.codigos Scenario.fails_on_follow_up
                               "¿Qué es un LED?" Scenario.fresh))
                 (last (sent (snd (TutorMultimodal.responder
                                     (rt := Sample.runtime) Scenario.codigos
                                     Scenario.fails_on_follow_up
                                     "¿Qué es un LED?" Scenario.fresh)))
                       (second_request []))
                 (APIError "503 unavailable")).
    + vm_compute. right. left. reflexivity.
    + reflexivity.
Defined.

(** ** Requests and the system turn *)

Section SystemTurn.
Context {rt : Runtime}.

Lemma simple_dispatch_appends_tool_turns codigos sv calls mensajes mensajes' x :
  TutorSimple.for_tool_calls codigos sv calls mensajes None
  = Ok (mensajes', x) ->
  exists turns,
    mensajes' = mensajes ++ turns
    /\ Forall (fun turn => role turn = tool) turns.
Proof.
  intro Hloop.
  apply simple_for_tool_calls_turns in Hloop as (turns & -> & Hturns).
  exists turns. split; [reflexivity|].
  apply answers_of_handled in Hturns.
  induction Hturns as [|tc turn calls turns [Hrole _] _ IH]; constructor; auto.
Qed.

Lemma chat_requests sv message history sent0 :
  count_role system history = 0 ->
  exists reqs,
    snd (Aerolinea.chat sv message history sent0) = sent0 ++ reqs
    /\ reqs <> [] /\ Forall system_first reqs.
Proof.
  intro Hnone.
  assert (Hfirst : system_first (chat_request message history)).
  { change (chat_request message history)
      with (first_request Aerolinea.tools
              {| nivel := ""; idioma := "";
                 historial_conversacion := history;
                 system_prompt := Aerolinea.system_message |} message).
    now apply system_first_first_request. }
  rewrite chat_run. cbv zeta.
  destruct (chat_completions_create sv (chat_request message history))
    as [r1|e].
  2:{ exists [chat_request message history].
      split; [reflexivity|]. split; [discriminate|].
      apply Forall_cons; [exact Hfirst|apply Forall_nil]. }
  destruct (String.eqb _ _).
  2:{ exists [chat_request message history].
      split; [reflexivity|]. split; [discriminate|].
      apply Forall_cons; [exact Hfirst|apply Forall_nil]. }
  destruct (Aerolinea.handle_tool_call (choice_message r1))
    as [[tool_response city]|e] eqn:Hhandled.
  2:{ exists [chat_request message history].
      split; [reflexivity|]. split; [discriminate|].
      apply Forall_cons; [exact Hfirst|apply Forall_nil]. }
  apply handle_tool_call_answers in Hhandled as (tc & rest & _ & Hrole & _).
  set (req2 := second_request _).
  assert (Hsecond : system_first req2).
  { subst req2. rewrite <- app_assoc.
    apply system_first_extended; [exact Hfirst|].
    unfold count_role. cbn. now rewrite Hrole. }
  exists [chat_request message history; req2].
  split; [now destruct (chat_completions_create sv req2)|].
  split; [discriminate|].
  apply Forall_cons; [exact Hfirst|]. apply Forall_cons; [exact Hsecond|].
  apply Forall_nil.
Qed.

End SystemTurn.

(** C8.  When the history holds no system turn, every request that
    [chat] of the airline assistant and [responder] of the simple tutor
    send has exactly one system turn, and it is the first one; each call
    sends at least one request. *)
Theorem requests_lead_with_the_system_turn {rt : Runtime} :
  (forall sv message history sent0,
      count_role system history = 0 ->
      let sent' := snd (Aerolinea.chat sv message history sent0) in
      sent' = sent0 ++ sent_during sent0 sent'
      /\ sent_during sent0 sent' <> []
      /\ Forall system_first (sent_during sent0 sent'))
  /\
  (forall codigos sv mensaje w,
      count_role system (historial_conversacion (self w)) = 0 ->
      let sent' := sent (snd (TutorSimple.responder codigos sv mensaje w)) in
      sent' = sent w ++ sent_during (sent w) sent'
      /\ sent_during (sent w) sent' <> []
      /\ Forall system_first (sent_during (sent w) sent')).
Proof.
  split.
  - intros sv message history sent0 Hnone sent'. subst sent'.
    destruct (chat_requests sv message history sent0 Hnone)
      as (reqs & -> & Hsome & Hfirst).
    rewrite sent_during_app. auto.
  - intros codigos sv mensaje w Hnone sent'. subst sent'.
    destruct (simple_responder_step codigos sv mensaje w)
      as (reqs & resA & Hex & -> & _).
    rewrite sent_during_app.
    split; [reflexivity|]. split; [now apply exchange_sends in Hex|].
    eapply exchange_system_first; [|exact Hnone|exact Hex].
    intros calls mensajes mensajes' x.
    apply simple_dispatch_appends_tool_turns.
Qed.

(** A first question to the airline assistant, answered after one tool
    round, and a first question to the tutor, answered after a round of
    two tool calls. *)
Lemma requests_lead_with_the_system_turn_witness :
  Forall system_first
    (snd (Aerolinea.chat (rt := Sample.runtime) Scenario.one_price
            "¿Cuánto cuesta ir a Londres?" [] []))
  /\ Forall system_first
       (sent (snd (TutorSimple.responder (rt := Sample.runtime)
                     Scenario.codigos Scenario.explains_led
                     "¿Qué es un LED?" Scenario.fresh))).
Proof.
  split.
  - apply (proj1 (requests_lead_with_the_system_turn (rt := Sample.runtime))
                 Scenario.one_price "¿Cuánto cuesta ir a Londres?" [] []).
    reflexivity.
  - apply (proj2 (requests_lead_with_the_system_turn (rt := Sample.runtime))
                 Scenario.codigos Scenario.explains_led
                 "¿Qué es un LED?" Scenario.fresh).
    reflexivity.
Defined.

(** ** The stored history *)

(** C2.  In both tutors, a call of [responder] whose [try] block returns
    a reply returns that reply, and the stored history becomes the old
    one, less the turns that the cap of ten pushes out at the old end,
    followed by exactly two turns: the user turn with the message and the
    assistant turn with the reply.  What the tools did in between does
    not show: no system turn and no tool turn is stored. *)
Theorem reply_stores_one_pair {rt : Runtime} :
  (forall codigos sv mensaje w reply audio w',
      TutorSimple.responder_try codigos sv mensaje w
      = (Ok (reply, audio), w') ->
      TutorSimple.responder codigos sv mensaje w = (Ok (reply, audio), w')
      /\ historial_conversacion (self w')
         = skipn (length (historial_conversacion (self w)) + 2 - 10)
                 (historial_conversacion (self w))
           ++ [dict_message user mensaje;
               {| role := assistant; content := reply;
                  tool_calls := None; tool_call_id := None |}])
  /\
  (forall codigos sv mensaje w reply imagen audio w',
      TutorMultimodal.responder_try codigos sv mensaje w
      = (Ok (reply, imagen, audio), w') ->
      TutorMultimodal.responder codigos sv mensaje w
      = (Ok (reply, imagen, audio), w')
      /\ historial_conversacion (self w')
         = skipn (length (historial_conversacion (self w)) + 2 - 10)
                 (historial_conversacion (self w))
           ++ [dict_message user mensaje;
               {| role := assistant; content := reply;
                  tool_calls := None; tool_call_id := None |}]).
Proof.
  split.
  - intros codigos sv mensaje w reply audio w' Htry.
    rewrite simple_responder_of_try, Htry. split; [reflexivity|].
    destruct (simple_responder_cases codigos sv mensaje w)
      as (reqs & resA & _ & [(e & Hraise & _) | (r & a & a' & _ & Hok & _)]);
      [congruence|].
    rewrite Hok in Htry. injection Htry as <- _ <-.
    cbn [set_historial self historial_conversacion].
    apply updated_keeps_pair.
  - intros codigos sv mensaje w reply imagen audio w' Htry.
    rewrite multimodal_responder_of_try, Htry. split; [reflexivity|].
    destruct (multimodal_responder_cases codigos sv mensaje w)
      as (reqs & resA & _
          & [(e & _ & Hraise & _) | (r & x & i & a & _ & Hok & _)]);
      [congruence|].
    rewrite Hok in Htry. injection Htry as <- _ _ <-.
    cbn [set_historial self historial_conversacion].
    apply updated_keeps_pair.
Qed.

(** A plain answer from the simple tutor, and an answer of the
    multimodal tutor after a round of two tool calls. *)
Lemma reply_stores_one_pair_witness :
  historial_conversacion
    (self (snd (TutorSimple.responder_try (rt := Sample.runtime)
                  Scenario.codigos Scenario.plain_answer
                  "¿Qué es Arduino?" Scenario.fresh)))
  = [dict_message user "¿Qué es Arduino?";
     dict_message assistant "Arduino es una placa programable."]
  /\ historial_conversacion
       (self (snd (TutorMultimodal.responder_try (rt := Sample.runtime)
                     Scenario.codigos Scenario.explains_led
                     "¿Qué es un LED?" Scenario.fresh)))
     = [dict_message user "¿Qué es un LED?";
        dict_message assistant "Un LED es una luz pequeña."].
Proof.
  split.
  - apply (proj1 (reply_stores_one_pair (rt := Sample.runtime))
                 Scenario.codigos Scenario.plain_answer
                 "¿Qué es Arduino?" Scenario.fresh
                 (Some "Arduino es una placa programable.") None).
    reflexivity.
  - apply (proj2 (reply_stores_one_pair (rt := Sample.runtime))
                 Scenario.codigos Scenario.explains_led
                 "¿Qué es un LED?" Scenario.fresh
                 (Some "Un LED es una luz pequeña.") None None).
    reflexivity.
Defined.

Section Sessions.
Context {rt : Runtime}.
Variable codigos : list (string * list (string * string)).

Lemma simple_session_well_kept calls nivel idioma prompt sent0 :
  well_kept prompt
    (self (successive_calls (TutorSimple.responder codigos) calls
             {| self := init nivel idioma prompt; sent := sent0 |})).
Proof.
  apply successive_calls_invariant.
  - intros sv mensaje w. apply simple_responder_keeps.
  - apply well_kept_init.
Qed.

Lemma multimodal_session_well_kept calls nivel idioma prompt sent0 :
  well_kept prompt
    (self (successive_calls (TutorMultimodal.responder codigos) calls
             {| self := init nivel idioma prompt; sent := sent0 |})).
Proof.
  apply successive_calls_invariant.
  - intros sv mensaje w. apply multimodal_responder_keeps.
  - apply well_kept_init.
Qed.

End Sessions.

(** C3.  In both tutors, after any number of successive calls of
    [responder] on a tutor object that started with the empty history,
    the stored history has at most ten turns and the system prompt, which
    is kept apart from the history, is the one the tutor started with.
    A call that returns a reply leaves as history the last ten turns of
    the old history extended with the new pair, so what is dropped is
    dropped at the old end. *)
Theorem history_stays_within_cap {rt : Runtime} :
  (forall codigos calls nivel idioma prompt sent0,
      let w := successive_calls (TutorSimple.responder codigos) calls
                 {| self := init nivel idioma prompt; sent := sent0 |} in
      length (historial_conversacion (self w)) <= 10
      /\ system_prompt (self w) = prompt)
  /\
  (forall codigos calls nivel idioma prompt sent0,
      let w := successive_calls (TutorMultimodal.responder codigos) calls
                 {| self := init nivel idioma prompt; sent := sent0 |} in
      length (historial_conversacion (self w)) <= 10
      /\ system_prompt (self w) = prompt)
  /\
  (forall codigos sv mensaje w reply audio w',
      TutorSimple.responder_try codigos sv mensaje w
      = (Ok (reply, audio), w') ->
      historial_conversacion (self w')
      = last_n 10 (historial_conversacion (self w)
                   ++ [dict_message user mensaje;
                       {| role := assistant; content := reply;
                          tool_calls := None; tool_call_id := None |}])
      /\ system_prompt (self w') = system_prompt (self w))
  /\
  (forall codigos sv mensaje w reply imagen audio w',
      TutorMultimodal.responder_try codigos sv mensaje w
      = (Ok (reply, imagen, audio), w') ->
      historial_conversacion (self w')
      = last_n 10 (historial_conversacion (self w)
                   ++ [dict_message user mensaje;
                       {| role := assistant; content := reply;
                          tool_calls := None; tool_call_id := None |}])
      /\ system_prompt (self w') = system_prompt (self w)).
Proof.
  split; [|split; [|split]].
  - intros codigos calls nivel idioma prompt sent0 w.
    destruct (simple_session_well_kept codigos calls nivel idioma prompt sent0)
      as (Hlen & _ & Hprompt).
    now split.
  - intros codigos calls nivel idioma prompt sent0 w.
    destruct (multimodal_session_well_kept codigos calls nivel idioma prompt
                sent0) as (Hlen & _ & Hprompt).
    now split.
  - intros codigos sv mensaje w reply audio w' Htry.
    destruct (simple_responder_cases codigos sv mensaje w)
      as (reqs & resA & _ & [(e & Hraise & _) | (r & a & a' & _ & Hok & _)]);
      [congruence|].
    rewrite Hok in Htry. injection Htry as <- _ <-.
    cbn [set_historial self historial_conversacion system_prompt logged].
    split; [apply updated_last_n|reflexivity].
  - intros codigos sv mensaje w reply imagen audio w' Htry.
    destruct (multimodal_responder_cases codigos sv mensaje w)
      as (reqs & resA & _
          & [(e & _ & Hraise & _) | (r & x & i & a & _ & Hok & _)]);
      [congruence|].
    rewrite Hok in Htry. injection Htry as <- _ _ <-.
    cbn [set_historial self historial_conversacion system_prompt logged].
    split; [apply updated_last_n|reflexivity].
Qed.

(** A tutor that already holds six stored pairs, two turns above the
    cap, answers once more: the last ten turns remain. *)
Lemma history_stays_within_cap_witness :
  historial_conversacion
    (self (snd (TutorSimple.responder_try (rt := Sample.runtime)
                  Scenario.codigos Scenario.plain_answer
                  "¿Qué es Arduino?" Scenario.crowded)))
  = last_n 10 (Scenario.six_pairs
               ++ [dict_message user "¿Qué es Arduino?";
                   dict_message assistant "Arduino es una placa programable."])
  /\ system_prompt
       (self (snd (TutorSimple.responder_try (rt := Sample.runtime)
                     Scenario.codigos Scenario.plain_answer
                     "¿Qué es Arduino?" Scenario.crowded)))
     = "Eres un tutor.".
Proof.
  apply (proj1 (proj2 (proj2 (history_stays_within_cap (rt := Sample.runtime))))
               Scenario.codigos Scenario.plain_answer "¿Qué es Arduino?"
               Scenario.crowded
               (Some "Arduino es una placa programable.") None).
  reflexivity.
Defined.

(** C10.  In both tutors, after any number of successive calls of
    [responder] on a tutor object that started with the empty history,
    the stored history is made of (user, assistant) pairs: it holds user
    and assistant turns only, has even length, and alternates starting
    with a user turn.  Keeping the last ten turns of such a history never
    splits a pair, ten being even. *)
Theorem history_alternates_in_pairs {rt : Runtime} :
  (forall codigos calls nivel idioma prompt sent0,
      let h := historial_conversacion
                 (self (successive_calls (TutorSimple.responder codigos) calls
                          {| self := init nivel idioma prompt;
                             sent := sent0 |})) in
      alternates h = true
      /\ Nat.even (length h) = true
      /\ Forall (fun t => role t = user \/ role t = assistant) h)
  /\
  (forall codigos calls nivel idioma prompt sent0,
      let h := historial_conversacion
                 (self (successive_calls (TutorMultimodal.responder codigos)
                          calls
                          {| self := init nivel idioma prompt;
                             sent := sent0 |})) in
      alternates h = true
      /\ Nat.even (length h) = true
      /\ Forall (fun t => role t = user \/ role t = assistant) h)
  /\
  (forall h, alternates h = true -> alternates (last_n 10 h) = true).
Proof.
  split; [|split].
  - intros codigos calls nivel idioma prompt sent0 h.
    destruct (simple_session_well_kept codigos calls nivel idioma prompt sent0)
      as (_ & Halt & _).
    auto using alternates_even, alternates_roles.
  - intros codigos calls nivel idioma prompt sent0 h.
    destruct (multimodal_session_well_kept codigos calls nivel idioma prompt
                sent0) as (_ & Halt & _).
    auto using alternates_even, alternates_roles.
  - intros h Halt. now apply alternates_last_n_even.
Qed.

(** Six stored pairs cut to their last ten turns are five pairs. *)
Lemma history_alternates_in_pairs_witness :
  alternates (last_n 10 Scenario.six_pairs) = true.
Proof.
  apply (proj2 (proj2 (history_alternates_in_pairs (rt := Sample.runtime)))
               Scenario.six_pairs).
  reflexivity.
Defined.

(** Six questions in a row to a fresh tutor would store twelve turns;
    ten remain, and the first question is gone. *)
Example six_questions_keep_ten_turns :
  let w := successive_calls
             (TutorSimple.responder (rt := Sample.runtime) Scenario.codigos)
             [(Scenario.plain_answer, "uno"); (Scenario.plain_answer, "dos");
              (Scenario.plain_answer, "tres"); (Scenario.plain_answer, "cuatro");
              (Scenario.plain_answer, "cinco"); (Scenario.plain_answer, "seis")]
             Scenario.fresh in
  length (historial_conversacion (self w)) = 10
  /\ hd_error (historial_conversacion (self w)) = Some (dict_message user "dos")
  /\ length (sent w) = 6.
Proof. vm_compute. repeat split. Qed.


(** * Further properties *)

(** ** [str.replace] of a text by itself *)

Lemma append_empty_r s : s +++ EmptyString = s.
Proof. induction s as [|c s IH]; cbn; [reflexivity|now rewrite IH]. Qed.

Lemma insert_before_each_empty s : insert_before_each EmptyString s = s.
Proof.
  induction s as [|c s IH]; cbn [insert_before_each]; [reflexivity|].
  rewrite IH. now destruct (is_continuation c).
Qed.

Lemma prefix_drop old s :
  prefix old s = true -> s = old +++ drop_chars (String.length old) s.
Proof.
  revert s. induction old as [|c old IH]; intros s Hpre.
  - now destruct s.
  - destruct s as [|c' s]; cbn in Hpre; [discriminate|].
    destruct (ascii_dec c c') as [<-|]; [|discriminate].
    cbn. f_equal. now apply IH.
Qed.

Lemma drop_chars_length n s :
  String.length (drop_chars n s) = String.length s - n.
Proof.
  revert s. induction n as [|n IH]; intros [|c s]; cbn; auto.
Qed.

Lemma replace_from_skip old new k s :
  replace_from old new k s = replace_from old new 0 (drop_chars k s).
Proof.
  revert s. induction k as [|k IH]; intros [|c s]; cbn [drop_chars];
    try reflexivity.
  cbn [replace_from]. apply IH.
Qed.

Lemma replace_from_same c old s :
  replace_from (String c old) (String c old) 0 s = s.
Proof.
  remember (String.length s) as n eqn:Hn. revert s Hn.
  induction n as [n IH] using lt_wf_ind. intros [|c' s] Hn; [reflexivity|].
  cbn [replace_from].
  destruct (prefix (String c old) (String c' s)) eqn:Hpre.
  - rewrite replace_from_skip.
    apply prefix_drop in Hpre. cbn [String.length drop_chars] in Hpre |- *.
    replace (S (String.length old) - 1) with (String.length old) by lia.
    rewrite (IH (String.length (drop_chars (String.length old) s)));
      [now rewrite <- Hpre| |reflexivity].
    rewrite drop_chars_length. subst n. cbn. lia.
  - f_equal. apply (IH (String.length s)); [subst n; cbn; lia|reflexivity].
Qed.

Lemma str_replace_same old s : str_replace old old s = s.
Proof.
  destruct old as [|c old]; cbn [str_replace].
  - now rewrite insert_before_each_empty, append_empty_r.
  - apply replace_from_same.
Qed.

(** ** Levels, constructors and reconfiguration *)

Section Configuration.
Context {rt : Runtime}.

Lemma es_nivel_cases nivel :
  es_nivel nivel = true ->
  nivel = "preescolar" \/ nivel = "primaria" \/ nivel = "secundaria"
  \/ nivel = "preparatoria".
Proof.
  unfold es_nivel, niveles. cbn [existsb].
  rewrite !orb_true_iff, !String.eqb_eq. intuition discriminate.
Qed.

Lemma simple_prompt_known nivel idioma :
  es_nivel nivel = true ->
  exists prompt, SimpleApp.prompt_init nivel idioma = Ok prompt.
Proof.
  intro Hn.
  destruct (es_nivel_cases nivel Hn) as [-> | [-> | [-> | ->]]];
    eexists; reflexivity.
Qed.

Lemma simple_prompt_unknown nivel idioma :
  es_nivel nivel = false ->
  SimpleApp.prompt_init nivel idioma = Raise (KeyError nivel).
Proof.
  unfold es_nivel, niveles. cbn [existsb].
  rewrite !orb_false_iff. intros (H1 & H2 & H3 & H4 & _).
  unfold SimpleApp.prompt_init, SimpleApp.campo, dict_item,
    SimpleApp.NIVELES_EDUCATIVOS.
  cbn [assoc rbind]. now rewrite H1, H2, H3, H4.
Qed.

Lemma multimodal_prompt_known nivel idioma :
  es_nivel nivel = true ->
  exists prompt, MultimodalApp.prompt_init nivel idioma = Ok prompt.
Proof.
  intro Hn.
  destruct (es_nivel_cases nivel Hn) as [-> | [-> | [-> | ->]]];
    eexists; reflexivity.
Qed.

Lemma multimodal_prompt_unknown nivel idioma :
  es_nivel nivel = false ->
  MultimodalApp.prompt_init nivel idioma = Raise (KeyError nivel).
Proof.
  unfold es_nivel, niveles. cbn [existsb].
  rewrite !orb_false_iff. intros (H1 & H2 & H3 & H4 & _).
  unfold MultimodalApp.prompt_init, MultimodalApp.campo, dict_item,
    MultimodalApp.NIVELES_EDUCATIVOS.
  cbn [assoc rbind]. now rewrite H1, H2, H3, H4.
Qed.

(** X1.  Both constructors return a tutor exactly for the four levels of
    [NIVELES_EDUCATIVOS]: for one of them the new tutor has the level and
    language given and the empty history; for any other level the
    constructor raises [KeyError] on that level, whatever the language. *)
Theorem constructors_need_a_known_level (nivel idioma : string) :
  (es_nivel nivel = true ->
   (exists prompt,
       SimpleApp.TutorRoboticaSimple nivel idioma
       = Ok {| nivel := nivel; idioma := idioma;
               historial_conversacion := []; system_prompt := prompt |})
   /\ (exists prompt,
         MultimodalApp.TutorRoboticaMultimodal nivel idioma
         = Ok {| nivel := nivel; idioma := idioma;
                 historial_conversacion := []; system_prompt := prompt |}))
  /\
  (es_nivel nivel = false ->
   SimpleApp.TutorRoboticaSimple nivel idioma = Raise (KeyError nivel)
   /\ MultimodalApp.TutorRoboticaMultimodal nivel idioma
      = Raise (KeyError nivel)).
Proof.
  split; intro Hn.
  - destruct (simple_prompt_known nivel idioma Hn) as [p Hp].
    destruct (multimodal_prompt_known nivel idioma Hn) as [q Hq].
    unfold SimpleApp.TutorRoboticaSimple,
      MultimodalApp.TutorRoboticaMultimodal.
    rewrite Hp, Hq. split; eexists; reflexivity.
  - unfold SimpleApp.TutorRoboticaSimple,
      MultimodalApp.TutorRoboticaMultimodal.
    now rewrite simple_prompt_unknown, multimodal_prompt_unknown.
Qed.

(** The f-string of [actualizar_configuracion] is the one of [__init__]. *)
Lemma prompt_actualizado_prompt_init nivel idioma :
  SimpleApp.prompt_actualizado nivel idioma = SimpleApp.prompt_init nivel idioma.
Proof. reflexivity. Qed.

(** The body of [actualizar_configuracion] over any prompt builder. *)
Lemma configuracion_run (build : string -> string -> result string)
    nuevo_nivel nuevo_idioma t :
  (nivel_actual <- gets self_nivel ;;
   match nuevo_nivel with
   | Some n =>
       if truthy nuevo_nivel && negb (String.eqb n nivel_actual)
       then modify (set_nivel n) else ret tt
   | None => ret tt
   end ;;;
   idioma_actual <- gets self_idioma ;;
   match nuevo_idioma with
   | Some i =>
       if truthy nuevo_idioma && negb (String.eqb i idioma_actual)
       then modify (set_idioma i) else ret tt
   | None => ret tt
   end ;;;
   nivel_actual <- gets self_nivel ;;
   idioma_actual <- gets self_idioma ;;
   prompt <- lift (build nivel_actual idioma_actual) ;;
   modify (set_system_prompt prompt))%m t =
  let t1 :=
    set_idioma (elegido nuevo_idioma (idioma t))
               (set_nivel (elegido nuevo_nivel (nivel t)) t) in
  match build (nivel t1) (idioma t1) with
  | Ok prompt => (Ok tt, set_system_prompt prompt t1)
  | Raise e => (Raise e, t1)
  end.
Proof.
  destruct t as [n i h p].
  assert (Hnivel :
            forall (nuevo : option string) (u : Tutor),
              (match nuevo with
               | Some x =>
                   if truthy nuevo && negb (String.eqb x (self_nivel u))
                   then modify (set_nivel x) else ret tt
               | None => ret tt
               end) u = (Ok tt, set_nivel (elegido nuevo (nivel u)) u)).
  { intros [x|] [un ui uh up]; unfold_m; cbn [truthy elegido self_nivel nivel];
      [|reflexivity].
    destruct (String.eqb x "") eqn:Hx; cbn [negb andb]; [reflexivity|].
    destruct (String.eqb x un) eqn:Hxa; cbn [negb]; [|reflexivity].
    apply String.eqb_eq in Hxa. now subst. }
  assert (Hidioma :
            forall (nuevo : option string) (u : Tutor),
              (match nuevo with
               | Some x =>
                   if truthy nuevo && negb (String.eqb x (self_idioma u))
                   then modify (set_idioma x) else ret tt
               | None => ret tt
               end) u = (Ok tt, set_idioma (elegido nuevo (idioma u)) u)).
  { intros [x|] [un ui uh up]; unfold_m;
      cbn [truthy elegido self_idioma idioma]; [|reflexivity].
    destruct (String.eqb x "") eqn:Hx; cbn [negb andb]; [reflexivity|].
    destruct (String.eqb x ui) eqn:Hxa; cbn [negb]; [|reflexivity].
    apply String.eqb_eq in Hxa. now subst. }
  unfold bind at 1. unfold gets at 1. unfold bind at 1.
  rewrite Hnivel.
  unfold bind at 1. unfold gets at 1. unfold bind at 1.
  rewrite Hidioma.
  unfold_m. cbv zeta.
  cbn [set_nivel set_idioma self_nivel self_idioma nivel idioma
       historial_conversacion system_prompt].
  destruct (build _ _); reflexivity.
Qed.

(** [actualizar_configuracion] by cases on the prompt it rebuilds. *)
Lemma actualizar_configuracion_run nuevo_nivel nuevo_idioma t :
  SimpleApp.actualizar_configuracion nuevo_nivel nuevo_idioma t =
  let t1 :=
    set_idioma (elegido nuevo_idioma (idioma t))
               (set_nivel (elegido nuevo_nivel (nivel t)) t) in
  match SimpleApp.prompt_init (nivel t1) (idioma t1) with
  | Ok prompt => (Ok tt, set_system_prompt prompt t1)
  | Raise e => (Raise e, t1)
  end.
Proof.
  cbv zeta. rewrite <- prompt_actualizado_prompt_init.
  exact (configuracion_run SimpleApp.prompt_actualizado
           nuevo_nivel nuevo_idioma t).
Qed.

(** X2.  [actualizar_configuracion] never writes the stored history.
    It keeps each attribute whose argument is [None] or empty and takes
    the argument otherwise; and when the level it ends with is one of
    the four levels, it returns with the prompt that the constructor
    builds for the level and language the tutor now has. *)
Theorem actualizar_configuracion_rebuilds_the_prompt
    (nuevo_nivel nuevo_idioma : option string) (t : Tutor) :
  let run := SimpleApp.actualizar_configuracion nuevo_nivel nuevo_idioma t in
  let t' := snd run in
  historial_conversacion t' = historial_conversacion t
  /\ nivel t' = elegido nuevo_nivel (nivel t)
  /\ idioma t' = elegido nuevo_idioma (idioma t)
  /\ (es_nivel (nivel t') = true ->
      fst run = Ok tt
      /\ SimpleApp.TutorRoboticaSimple (nivel t') (idioma t')
         = Ok {| nivel := nivel t'; idioma := idioma t';
                 historial_conversacion := [];
                 system_prompt := system_prompt t' |}).
Proof.
  cbv zeta. rewrite actualizar_configuracion_run. cbv zeta.
  set (n := elegido nuevo_nivel (nivel t)).
  set (i := elegido nuevo_idioma (idioma t)).
  cbn [set_idioma set_nivel nivel idioma].
  destruct (SimpleApp.prompt_init n i) as [prompt|e] eqn:Hp;
    cbn [fst snd set_system_prompt set_idioma set_nivel nivel idioma
         historial_conversacion system_prompt];
    (split; [reflexivity|split; [reflexivity|split; [reflexivity|]]]);
    intro Hn.
  - split; [reflexivity|].
    unfold SimpleApp.TutorRoboticaSimple. now rewrite Hp.
  - destruct (simple_prompt_known n i Hn) as [q Hq]. congruence.
Qed.

(** X3.  When the level [actualizar_configuracion] ends with is not one
    of the four levels, it raises [KeyError] on that level after having
    stored the new level and language: the tutor keeps them together
    with the prompt it had before. *)
Theorem actualizar_configuracion_fails_half_way
    (nuevo_nivel nuevo_idioma : option string) (t : Tutor) :
  es_nivel (elegido nuevo_nivel (nivel t)) = false ->
  SimpleApp.actualizar_configuracion nuevo_nivel nuevo_idioma t
  = (Raise (KeyError (elegido nuevo_nivel (nivel t))),
     {| nivel := elegido nuevo_nivel (nivel t);
        idioma := elegido nuevo_idioma (idioma t);
        historial_conversacion := historial_conversacion t;
        system_prompt := system_prompt t |}).
Proof.
  intro Hn. rewrite actualizar_configuracion_run. cbv zeta.
  cbn [set_idioma set_nivel nivel idioma].
  now rewrite simple_prompt_unknown.
Qed.

(** The reconfiguration of the multimodal interface, as one record. *)
Lemma configurar_run nuevo_nivel nuevo_idioma t :
  MultimodalApp.configurar nuevo_nivel nuevo_idioma t
  = {| nivel := nuevo_nivel; idioma := nuevo_idioma;
       historial_conversacion := historial_conversacion t;
       system_prompt := system_prompt t |}.
Proof.
  destruct t as [n i h p]. unfold MultimodalApp.configurar.
  cbn [self_nivel self_idioma nivel idioma].
  destruct (String.eqb nuevo_nivel n) eqn:Hn;
    destruct (String.eqb nuevo_idioma i) eqn:Hi;
    cbn [negb orb set_system_prompt set_idioma set_nivel self_nivel
         self_idioma nivel idioma historial_conversacion system_prompt];
    rewrite ?str_replace_same; try reflexivity.
  apply String.eqb_eq in Hn, Hi. now subst.
Qed.

(** X4.  The reconfiguration of the multimodal interface stores the
    level and language selected and leaves the system prompt and the
    stored history as they were: it looks in the prompt for the level and
    language it has just stored and replaces them by themselves. *)
Theorem configurar_leaves_the_prompt (nuevo_nivel nuevo_idioma : string)
    (t : Tutor) :
  let t' := MultimodalApp.configurar nuevo_nivel nuevo_idioma t in
  system_prompt t' = system_prompt t
  /\ historial_conversacion t' = historial_conversacion t
  /\ nivel t' = nuevo_nivel
  /\ idioma t' = nuevo_idioma.
Proof.
  cbv zeta. unfold MultimodalApp.configurar.
  destruct (String.eqb nuevo_nivel (self_nivel t)) eqn:Hn;
    destruct (String.eqb nuevo_idioma (self_idioma t)) eqn:Hi;
    cbn [negb orb set_system_prompt set_idioma set_nivel self_nivel
         self_idioma nivel idioma historial_conversacion system_prompt];
    rewrite ?str_replace_same; repeat split;
    try (apply String.eqb_eq in Hn; now rewrite Hn);
    try (apply String.eqb_eq in Hi; now rewrite Hi).
Qed.

End Configuration.

(** ** One call of [responder], further *)

Section ExchangeShape.
Context {X : Type}.
Variable sv : Services.
Variable tools : list ToolSchema.
Variable dispatch : list ToolCall -> list Turn -> result (list Turn * X).
Variable x0 : X.
Variable t : Tutor.
Variable mensaje : string.

(** One request, or two when the first response asks for tools. *)
Lemma exchange_shape reqs resA :
  exchange sv tools dispatch x0 t mensaje reqs resA ->
  reqs = [first_request tools t mensaje]
  \/ exists r1 mensajes,
       chat_completions_create sv (first_request tools t mensaje) = Ok r1
       /\ finish_reason r1 = "tool_calls"
       /\ reqs = [first_request tools t mensaje; second_request mensajes].
Proof.
  destruct 1; auto; right;
    match goal with
    | H : String.eqb _ _ = true |- _ => apply String.eqb_eq in H
    end; eauto.
Qed.

End ExchangeShape.

(** X5.  [responder] of both tutors never lets an exception out: on
    every message and whatever the services do, it returns. *)
Theorem responder_never_raises {rt : Runtime} :
  forall codigos sv mensaje w,
    (exists out, fst (TutorSimple.responder codigos sv mensaje w) = Ok out)
    /\ (exists out,
          fst (TutorMultimodal.responder codigos sv mensaje w) = Ok out).
Proof.
  intros codigos sv mensaje w. split.
  - destruct (simple_responder_cases codigos sv mensaje w)
      as (reqs & resA & _
          & [(e & _ & -> & _) | (r & a & a' & _ & Htry & ->)]);
      [|rewrite Htry]; eexists; reflexivity.
  - destruct (multimodal_responder_cases codigos sv mensaje w)
      as (reqs & resA & _
          & [(e & _ & _ & ->) | (r & x & i & a & _ & Htry & ->)]);
      [|rewrite Htry]; eexists; reflexivity.
Qed.

(** X6.  One call of [responder] of either tutor, and one call of [chat],
    sends one request or two, never more: the first declares the tools;
    a second one is sent only after a response whose finish reason is
    "tool_calls", and declares no tools. *)
Theorem at_most_one_tool_round {rt : Runtime} :
  (forall codigos sv mensaje w,
      let req1 :=
        first_request TutorSimple.herramientas_educativas (self w) mensaje in
      let reqs :=
        sent_during (sent w)
          (sent (snd (TutorSimple.responder codigos sv mensaje w))) in
      reqs = [req1]
      \/ exists r1 mensajes,
           chat_completions_create sv req1 = Ok r1
           /\ finish_reason r1 = "tool_calls"
           /\ reqs = [req1; {| req_messages := mensajes; req_tools := None |}])
  /\
  (forall codigos sv mensaje w,
      let req1 :=
        first_request TutorMultimodal.herramientas_educativas (self w)
                      mensaje in
      let reqs :=
        sent_during (sent w)
          (sent (snd (TutorMultimodal.responder codigos sv mensaje w))) in
      reqs = [req1]
      \/ exists r1 mensajes,
           chat_completions_create sv req1 = Ok r1
           /\ finish_reason r1 = "tool_calls"
           /\ reqs = [req1; {| req_messages := mensajes; req_tools := None |}])
  /\
  (forall sv message history sent0,
      let req1 := chat_request message history in
      let reqs :=
        sent_during sent0 (snd (Aerolinea.chat sv message history sent0)) in
      reqs = [req1]
      \/ exists r1 mensajes,
           chat_completions_create sv req1 = Ok r1
           /\ finish_reason r1 = "tool_calls"
           /\ reqs = [req1; {| req_messages := mensajes; req_tools := None |}]).
Proof.
  split; [|split].
  - intros codigos sv mensaje w req1 reqs. subst reqs.
    destruct (simple_responder_step codigos sv mensaje w)
      as (reqs & resA & Hex & -> & _).
    rewrite sent_during_app. now apply exchange_shape in Hex.
  - intros codigos sv mensaje w req1 reqs. subst reqs.
    destruct (multimodal_responder_step codigos sv mensaje w)
      as (reqs & resA & Hex & -> & _).
    rewrite sent_during_app. now apply exchange_shape in Hex.
  - intros sv message history sent0 req1 reqs. subst reqs.
    rewrite chat_run. cbv zeta. fold req1.
    destruct (chat_completions_create sv req1) as [r1|e] eqn:Hfirst;
      [|cbn [snd]; rewrite sent_during_app; now left].
    destruct (String.eqb (finish_reason r1) "tool_calls") eqn:Hfin;
      [|cbn [snd]; rewrite sent_during_app; now left].
    apply String.eqb_eq in Hfin.
    destruct (Aerolinea.handle_tool_call _) as [[tr city]|e];
      [|cbn [snd]; rewrite sent_during_app; now left].
    right. exists r1. eexists. split; [reflexivity|]. split; [exact Hfin|].
    destruct (chat_completions_create sv (second_request _));
      cbn [snd]; rewrite sent_during_app; reflexivity.
Qed.

(** X7.  In the simple tutor, a final response without text, when no
    tool produced audio, ends in the handler: [responder] returns the
    error text built from [AttributeError] and stores nothing.  This is
    so for a first response that asks for no tools, and for the response
    to the second request. *)
Theorem simple_reply_without_text {rt : Runtime} :
  (forall codigos sv mensaje w r1,
      let req1 :=
        first_request TutorSimple.herramientas_educativas (self w) mensaje in
      chat_completions_create sv req1 = Ok r1 ->
      finish_reason r1 <> "tool_calls" ->
      msg_content (choice_message r1) = None ->
      TutorSimple.responder codigos sv mensaje w
      = (Ok (Some ("Error procesando mensaje: " +++ str_exn AttributeError),
             None),
         {| self := self w; sent := sent w ++ [req1] |}))
  /\
  (forall codigos sv mensaje w r1 calls mensajes audio r2,
      let req1 :=
        first_request TutorSimple.herramientas_educativas (self w) mensaje in
      chat_completions_create sv req1 = Ok r1 ->
      finish_reason r1 = "tool_calls" ->
      msg_tool_calls (choice_message r1) = Some calls ->
      TutorSimple.for_tool_calls codigos sv calls
        (req_messages req1 ++ [assistant_tool_calls (choice_message r1) calls])
        None
      = Ok (mensajes, audio) ->
      truthy audio = false ->
      chat_completions_create sv (second_request mensajes) = Ok r2 ->
      msg_content (choice_message r2) = None ->
      TutorSimple.responder codigos sv mensaje w
      = (Ok (Some ("Error procesando mensaje: " +++ str_exn AttributeError),
             None),
         {| self := self w;
            sent := sent w ++ [req1; second_request mensajes] |})).
Proof.
  split.
  - intros codigos sv mensaje w r1 req1 Hfirst Hfinish Hnone. subst req1.
    apply String.eqb_neq in Hfinish.
    destruct (simple_responder_try_run codigos sv mensaje w)
      as (reqs & resA & Hex & Hrun).
    rewrite simple_responder_of_try, Hrun.
    inversion Hex; subst; clash.
    cbv zeta. rewrite Hnone. reflexivity.
  - intros codigos sv mensaje w r1 calls mensajes audio r2 req1
           Hfirst Hfinish Hcalls Hloop Haudio Hsecond Hnone. subst req1.
    apply String.eqb_eq in Hfinish.
    destruct (simple_responder_try_run codigos sv mensaje w)
      as (reqs & resA & Hex & Hrun).
    rewrite simple_responder_of_try, Hrun.
    inversion Hex; subst; clash.
    cbv zeta. rewrite Hnone, Haudio. reflexivity.
Qed.

(** X8.  In the multimodal tutor, the reply is the content of the first
    response when it asks for no tools, whatever that content is: a
    response without text is returned as [None] and stored as an
    assistant turn without content, after the user turn. *)
Theorem multimodal_reply_without_text {rt : Runtime} :
  forall codigos sv mensaje w r1,
    let req1 :=
      first_request TutorMultimodal.herramientas_educativas (self w) mensaje in
    let run := TutorMultimodal.responder codigos sv mensaje w in
    chat_completions_create sv req1 = Ok r1 ->
    finish_reason r1 <> "tool_calls" ->
    msg_content (choice_message r1) = None ->
    (exists imagen audio, fst run = Ok (None, imagen, audio))
    /\ historial_conversacion (self (snd run))
       = last_n 10 (historial_conversacion (self w)
                    ++ [dict_message user mensaje;
                        {| role := assistant; content := None;
                           tool_calls := None; tool_call_id := None |}])
    /\ sent (snd run) = sent w ++ [req1].
Proof.
  intros codigos sv mensaje w r1 req1 run Hfirst Hfinish Hnone.
  subst run req1.
  apply String.eqb_neq in Hfinish.
  destruct (multimodal_responder_try_run codigos sv mensaje w)
    as (reqs & resA & Hex & Hrun).
  rewrite multimodal_responder_of_try.
  inversion Hex; subst; clash.
  destruct Hrun as (imagen & audio & ->). rewrite Hnone.
  cbn [fst snd set_historial self sent historial_conversacion logged].
  split; [eauto|]. split; [apply updated_last_n|reflexivity].
Qed.

(** X9.  On a tutor that started with the empty history, after any
    number of calls, the first request of the next call carries the
    system turn, the stored history and the user turn: at most twelve
    messages.  This holds for both tutors. *)
Theorem first_request_has_at_most_twelve_messages {rt : Runtime} :
  (forall codigos calls nivel idioma prompt sent0 sv mensaje,
      let w := successive_calls (TutorSimple.responder codigos) calls
                 {| self := init nivel idioma prompt; sent := sent0 |} in
      exists req rest,
        sent_during (sent w)
          (sent (snd (TutorSimple.responder codigos sv mensaje w)))
        = req :: rest
        /\ length (req_messages req)
           = length (historial_conversacion (self w)) + 2
        /\ length (req_messages req) <= 12)
  /\
  (forall codigos calls nivel idioma prompt sent0 sv mensaje,
      let w := successive_calls (TutorMultimodal.responder codigos) calls
                 {| self := init nivel idioma prompt; sent := sent0 |} in
      exists req rest,
        sent_during (sent w)
          (sent (snd (TutorMultimodal.responder codigos sv mensaje w)))
        = req :: rest
        /\ length (req_messages req)
           = length (historial_conversacion (self w)) + 2
        /\ length (req_messages req) <= 12).
Proof.
  assert (Hlen : forall tools t mensaje,
             length (req_messages (first_request tools t mensaje))
             = length (historial_conversacion t) + 2).
  { intros. cbn [first_request req_messages].
    rewrite !length_app. cbn [length]. lia. }
  split; intros codigos calls nivel idioma prompt sent0 sv mensaje w.
  - destruct (simple_session_well_kept codigos calls nivel idioma prompt sent0)
      as (Hcap & _). fold w in Hcap.
    destruct (simple_responder_step codigos sv mensaje w)
      as (reqs & resA & Hex & -> & _).
    rewrite sent_during_app. apply exchange_shape in Hex.
    destruct Hex as [-> | (r1 & m & _ & _ & ->)];
      do 2 eexists; (split; [reflexivity|]); rewrite Hlen; lia.
  - destruct (multimodal_session_well_kept codigos calls nivel idioma prompt
                sent0) as (Hcap & _). fold w in Hcap.
    destruct (multimodal_responder_step codigos sv mensaje w)
      as (reqs & resA & Hex & -> & _).
    rewrite sent_during_app. apply exchange_shape in Hex.
    destruct Hex as [-> | (r1 & m & _ & _ & ->)];
      do 2 eexists; (split; [reflexivity|]); rewrite Hlen; lia.
Qed.

(** ** The tools and their arguments *)

Section Tools.
Context {rt : Runtime}.
Variable codigos : list (string * list (string * string)).
Variable sv : Services.





(** X11.  In the simple tutor, when the arguments of a request for a
    declared tool decode to something that is not an object,
    [manejar_herramienta] raises [TypeError]; when they decode to an
    object that lacks a parameter, it raises [KeyError] on the first
    parameter that is missing, in the order in which the tool takes
    them. *)
Theorem manejar_herramienta_checks_its_arguments
    (tc : ToolCall) (arguments : value) :
  json_loads (tc_arguments tc) = Ok arguments ->
  (tc_name tc = "explicar_componente_arduino" ->
   (is_dict arguments = false ->
    TutorSimple.manejar_herramienta codigos sv tc = Raise TypeError)
   /\ (forall d, arguments = VDict d ->
         assoc "componente" d = None ->
         TutorSimple.manejar_herramienta codigos sv tc
         = Raise (KeyError "componente"))
   /\ (forall d componente, arguments = VDict d ->
         assoc "componente" d = Some componente ->
         assoc "nivel" d = None ->
         TutorSimple.manejar_herramienta codigos sv tc
         = Raise (KeyError "nivel")))
  /\
  (tc_name tc = "mostrar_codigo_ejemplo" ->
   (is_dict arguments = false ->
    TutorSimple.manejar_herramienta codigos sv tc = Raise TypeError)
   /\ (forall d, arguments = VDict d ->
         assoc "concepto" d = None ->
         TutorSimple.manejar_herramienta codigos sv tc
         = Raise (KeyError "concepto"))
   /\ (forall d concepto, arguments = VDict d ->
         assoc "concepto" d = Some concepto ->
         assoc "nivel" d = None ->
         TutorSimple.manejar_herramienta codigos sv tc
         = Raise (KeyError "nivel"))).
Proof.
  intro Hloads.
  split; intro Hname; unfold TutorSimple.manejar_herramienta;
    rewrite Hloads, Hname; cbn [rbind];
    rewrite ?String.eqb_refl;
    replace (String.eqb "mostrar_codigo_ejemplo" "explicar_componente_arduino")
      with false by reflexivity;
    (split; [|split]).
  - intro Hdict. now destruct arguments.
  - intros d -> Hnone. cbn [getitem]. now rewrite Hnone.
  - intros d componente -> Hsome Hnone. cbn [getitem].
    now rewrite Hsome, Hnone.
  - intro Hdict. now destruct arguments.
  - intros d -> Hnone. cbn [getitem]. now rewrite Hnone.
  - intros d concepto -> Hsome Hnone. cbn [getitem].
    now rewrite Hsome, Hnone.
Qed.

Lemma simple_manejar_audio tc t audio :
  TutorSimple.manejar_herramienta codigos sv tc = Ok (t, audio) ->
  tc_name tc <> "explicar_componente_arduino" ->
  audio = None.
Proof.
  intros Hok Hname. apply String.eqb_neq in Hname.
  unfold TutorSimple.manejar_herramienta, rbind in Hok.
  rewrite Hname in Hok.
  destruct (json_loads _) as [arguments|]; [|discriminate].
  destruct (String.eqb (tc_name tc) "mostrar_codigo_ejemplo").
  - destruct (getitem arguments "concepto"); [|discriminate].
    destruct (getitem arguments "nivel"); [|discriminate].
    destruct (TutorSimple.mostrar_codigo_ejemplo _ _ _); [|discriminate].
    now injection Hok as _ <-.
  - now injection Hok as _ <-.
Qed.

Lemma simple_for_tool_calls_audio calls :
  forall mensajes audio0 mensajes' audio,
    TutorSimple.for_tool_calls codigos sv calls mensajes audio0
    = Ok (mensajes', audio) ->
    audio = audio0
    \/ exists tc t,
         In tc calls
         /\ TutorSimple.manejar_herramienta codigos sv tc = Ok (t, audio)
         /\ truthy audio = true.
Proof.
  induction calls as [|tc rest IH]; cbn [TutorSimple.for_tool_calls];
    intros mensajes audio0 mensajes' audio Hrun.
  - left. now injection Hrun as _ <-.
  - unfold rbind in Hrun.
    destruct (TutorSimple.manejar_herramienta codigos sv tc)
      as [[t a]|] eqn:Htc; [|discriminate].
    apply IH in Hrun as [-> | (tc' & t' & Hin & Hok & Htrue)].
    + destruct (truthy a) eqn:Ha; [|now left].
      right. exists tc, t. cbn [In]. auto.
    + right. exists tc', t'. cbn [In]. auto.
Qed.

(** X12.  In the simple tutor only the explanation tool is spoken: the
    audio that a round of tool calls hands on, if any, is the non-empty
    path that [manejar_herramienta] returned for a request of
    [explicar_componente_arduino]; requests for any other tool give no
    audio. *)
Theorem only_explanations_are_spoken :
  (forall tc t audio,
      TutorSimple.manejar_herramienta codigos sv tc = Ok (t, audio) ->
      tc_name tc <> "explicar_componente_arduino" ->
      audio = None)
  /\
  (forall calls mensajes mensajes' audio,
      TutorSimple.for_tool_calls codigos sv calls mensajes None
      = Ok (mensajes', audio) ->
      audio = None
      \/ exists tc t,
           In tc calls
           /\ tc_name tc = "explicar_componente_arduino"
           /\ TutorSimple.manejar_herramienta codigos sv tc = Ok (t, audio)
           /\ truthy audio = true).
Proof.
  split; [exact simple_manejar_audio|].
  intros calls mensajes mensajes' audio Hrun.
  apply simple_for_tool_calls_audio in Hrun
    as [-> | (tc & t & Hin & Hok & Htrue)]; [now left|].
  right. exists tc, t. repeat split; try assumption.
  destruct (string_dec (tc_name tc) "explicar_componente_arduino")
    as [Heq|Hneq]; [exact Heq|].
  rewrite (simple_manejar_audio tc t audio Hok Hneq) in Htrue. discriminate.
Qed.

End Tools.

(** ** The airline assistant, further *)

(** X13.  [handle_tool_call] by the shape of what it is given.  Without
    a list of tool calls it raises [TypeError], with an empty list
    [IndexError].  Otherwise only the first request counts: an exception
    of [json.loads] on its arguments is raised as it is; arguments that
    decode to something other than an object, or to an object whose
    "destination_city" is absent or not a string, raise [AttributeError];
    and for a string city the tool turn carries the id of the request and
    the city with its price, and the city is returned with it. *)
Theorem handle_tool_call_by_cases {rt : Runtime} (content : option string) :
  Aerolinea.handle_tool_call
    {| msg_content := content; msg_tool_calls := None |}
  = Raise TypeError
  /\ Aerolinea.handle_tool_call
       {| msg_content := content; msg_tool_calls := Some [] |}
     = Raise IndexError
  /\ forall tc rest,
       let message :=
         {| msg_content := content; msg_tool_calls := Some (tc :: rest) |} in
       (forall e,
           json_loads (tc_arguments tc) = Raise e ->
           Aerolinea.handle_tool_call message = Raise e)
       /\ (forall arguments,
             json_loads (tc_arguments tc) = Ok arguments ->
             is_dict arguments = false ->
             Aerolinea.handle_tool_call message = Raise AttributeError)
       /\ (forall d,
             json_loads (tc_arguments tc) = Ok (VDict d) ->
             match assoc "destination_city" d with
             | Some city => is_str city
             | None => false
             end = false ->
             Aerolinea.handle_tool_call message = Raise AttributeError)
       /\ (forall d city,
             json_loads (tc_arguments tc) = Ok (VDict d) ->
             assoc "destination_city" d = Some (VStr city) ->
             exists price,
               Aerolinea.get_ticket_price (VStr city) = Ok price
               /\ Aerolinea.handle_tool_call message
                  = Ok ({| role := tool;
                           content :=
                             Some (json_dumps
                                     (VDict [("destination_city", VStr city);
                                             ("price", VStr price)]));
                           tool_calls := None;
                           tool_call_id := Some (tc_id tc) |},
                        VStr city)).
Proof.
  split; [reflexivity|]. split; [reflexivity|].
  intros tc rest message. subst message.
  rewrite handle_tool_call_first.
  split; [|split; [|split]].
  - intros e Hloads. now rewrite Hloads.
  - intros arguments Hloads Hdict. rewrite Hloads. now destruct arguments.
  - intros d Hloads Hcity. rewrite Hloads. cbn [rbind method_get].
    destruct (assoc "destination_city" d) as [[| | |s| |]|];
      try reflexivity; discriminate.
  - intros d city Hloads Hcity. rewrite Hloads. cbn [rbind method_get].
    rewrite Hcity. cbn [rbind]. rewrite get_ticket_price_str. cbn [rbind].
    eexists. split; reflexivity.
Qed.

(** X14.  [chat] has no handler.  An exception of the endpoint on the
    first request, or on the second, is raised by [chat] itself; and
    when the first response asks for no tools, [chat] returns its content
    as it is after that one request. *)
Theorem chat_passes_the_endpoint_through {rt : Runtime}
    (sv : Services) (message : string) (history : list Turn)
    (sent0 : list Request) :
  let req1 := chat_request message history in
  (forall e,
      chat_completions_create sv req1 = Raise e ->
      Aerolinea.chat sv message history sent0 = (Raise e, sent0 ++ [req1]))
  /\
  (forall r1 tool_response city e,
      let req2 :=
        second_request
          ((req_messages req1 ++ [Aerolinea.as_turn (choice_message r1)])
           ++ [tool_response]) in
      chat_completions_create sv req1 = Ok r1 ->
      finish_reason r1 = "tool_calls" ->
      Aerolinea.handle_tool_call (choice_message r1)
      = Ok (tool_response, city) ->
      chat_completions_create sv req2 = Raise e ->
      Aerolinea.chat sv message history sent0
      = (Raise e, sent0 ++ [req1; req2]))
  /\
  (forall r1,
      chat_completions_create sv req1 = Ok r1 ->
      finish_reason r1 <> "tool_calls" ->
      Aerolinea.chat sv message history sent0
      = (Ok (msg_content (choice_message r1)), sent0 ++ [req1])).
Proof.
  intro req1. split; [|split].
  - intros e Hfirst. rewrite chat_run. cbv zeta. fold req1.
    now rewrite Hfirst.
  - intros r1 tool_response city e req2 Hfirst Hfinish Hhandled Hsecond.
    apply String.eqb_eq in Hfinish.
    rewrite chat_run. cbv zeta. fold req1.
    rewrite Hfirst, Hfinish, Hhandled. fold req2. now rewrite Hsecond.
  - intros r1 Hfirst Hfinish. apply String.eqb_neq in Hfinish.
    rewrite chat_run. cbv zeta. fold req1.
    now rewrite Hfirst, Hfinish.
Qed.

(** ** The tool round of the multimodal tutor *)

Section MultimodalRounds.
Context {rt : Runtime}.
Variable codigos : list (string * list (string * string)).
Variable sv : Services.

Abbreviation manejar_mm := (TutorMultimodal.manejar_herramienta codigos sv).
Abbreviation for_calls_mm := (TutorMultimodal.for_tool_calls codigos sv).

Lemma multimodal_manejar_answers tc t imagen audio :
  manejar_mm tc = Ok (t, imagen, audio) -> answers tc t.
Proof.
  unfold TutorMultimodal.manejar_herramienta, rbind.
  destruct (json_loads _) as [arguments|]; [|discriminate].
  match goal with
  | |- context [match ?body with Ok _ => _ | Raise _ => _ end] =>
      destruct body as [[[resultado imagen_generada] audio_generado]|]
  end; [|discriminate].
  intro Hok. injection Hok as <- _ _. now split.
Qed.

Lemma multimodal_for_tool_calls_turns calls :
  forall mensajes imagen audio mensajes' imagen' audio',
    for_calls_mm calls mensajes imagen audio = Ok (mensajes', imagen', audio') ->
    exists turns,
      mensajes' = mensajes ++ turns
      /\ Forall2 (handled_mm codigos sv) calls turns.
Proof.
  induction calls as [|tc rest IH]; cbn [TutorMultimodal.for_tool_calls];
    intros mensajes imagen audio mensajes' imagen' audio' Hrun.
  - injection Hrun as <- _ _. exists []. now rewrite app_nil_r.
  - unfold rbind in Hrun.
    destruct (manejar_mm tc) as [[[t i] a]|] eqn:Htc; [|discriminate].
    apply IH in Hrun as (turns & -> & Hturns).
    exists (t :: turns). rewrite <- app_assoc. split; [reflexivity|].
    constructor; [now exists i, a|exact Hturns].
  Qed.

Lemma multimodal_for_tool_calls_ok calls :
  forall mensajes imagen audio,
    forallb (fun tc => is_ok (manejar_mm tc)) calls = true ->
    exists out, for_calls_mm calls mensajes imagen audio = Ok out.
Proof.
  induction calls as [|tc rest IH]; cbn [TutorMultimodal.for_tool_calls forallb];
    intros mensajes imagen audio Hall.
  - eauto.
  - apply andb_true_iff in Hall as [Htc Hrest]. unfold rbind.
    destruct (manejar_mm tc) as [[[t i] a]|]; [|discriminate].
    now apply IH.
Qed.

Lemma multimodal_for_tool_calls_raises pre tc post e :
  forall mensajes imagen audio,
    forallb (fun c => is_ok (manejar_mm c)) pre = true ->
    manejar_mm tc = Raise e ->
    for_calls_mm (pre ++ tc :: post) mensajes imagen audio = Raise e.
Proof.
  induction pre as [|p pre IH];
    cbn [TutorMultimodal.for_tool_calls forallb app];
    intros mensajes imagen audio Hpre Htc.
  - now rewrite Htc.
  - apply andb_true_iff in Hpre as [Hp Hpre]. unfold rbind.
    destruct (manejar_mm p) as [[[t i] a]|]; [|discriminate].
    now apply IH.
Qed.

Lemma answers_of_handled_mm calls turns :
  Forall2 (handled_mm codigos sv) calls turns -> Forall2 answers calls turns.
Proof.
  induction 1 as [|tc t calls turns (i & a & Ht) _ IH]; constructor;
    [|exact IH].
  now apply multimodal_manejar_answers with i a.
Qed.

Lemma multimodal_dispatch_appends_tool_turns calls mensajes mensajes' x :
  multimodal_dispatch codigos sv calls mensajes = Ok (mensajes', x) ->
  exists turns,
    mensajes' = mensajes ++ turns
    /\ Forall (fun turn => role turn = tool) turns.
Proof.
  unfold multimodal_dispatch.
  destruct (for_calls_mm calls mensajes None None)
    as [[[m i] a]|] eqn:Hloop; [|discriminate].
  intro Hok. injection Hok as <- _.
  apply multimodal_for_tool_calls_turns in Hloop as (turns & -> & Hturns).
  exists turns. split; [reflexivity|].
  apply answers_of_handled_mm in Hturns.
  induction Hturns as [|tc turn calls turns [Hrole _] _ IH]; constructor; auto.
Qed.

End MultimodalRounds.

(** X15.  The tool round of the multimodal tutor.  When the first
    response asks for tools with N requests and handling each of them
    returns, the second request carries the messages of the first, the
    assistant turn with the tool calls, and then N tool turns, one per
    request and in the order of the requests, each with the id of its
    request.  When handling a request raises after the ones before it
    returned, no second request is sent and nothing is stored: [responder]
    returns the error text of that exception, without image or audio. *)
Theorem multimodal_tool_round {rt : Runtime} :
  forall codigos sv mensaje w r1 calls,
    let req1 :=
      first_request TutorMultimodal.herramientas_educativas (self w) mensaje in
    let with_calls :=
      req_messages req1 ++ [assistant_tool_calls (choice_message r1) calls] in
    let handles tc :=
      is_ok (TutorMultimodal.manejar_herramienta codigos sv tc) in
    chat_completions_create sv req1 = Ok r1 ->
    finish_reason r1 = "tool_calls" ->
    msg_tool_calls (choice_message r1) = Some calls ->
    (forallb handles calls = true ->
     exists turns,
       sent (snd (TutorMultimodal.responder codigos sv mensaje w))
       = sent w ++ [req1; second_request (with_calls ++ turns)]
       /\ length turns = length calls
       /\ Forall2 answers calls turns)
    /\
    (forall pre tc post e,
        calls = pre ++ tc :: post ->
        forallb handles pre = true ->
        TutorMultimodal.manejar_herramienta codigos sv tc = Raise e ->
        TutorMultimodal.responder codigos sv mensaje w
        = (Ok (Some ("❌ Error procesando mensaje: " +++ str_exn e),
               None, None),
           {| self := self w; sent := sent w ++ [req1] |})).
Proof.
  intros codigos sv mensaje w r1 calls req1 with_calls handles
         Hfirst Hfinish Hcalls.
  subst handles with_calls req1. apply String.eqb_eq in Hfinish.
  split.
  - intro Hall.
    destruct (multimodal_for_tool_calls_ok codigos sv calls
                (req_messages
                   (first_request TutorMultimodal.herramientas_educativas
                      (self w) mensaje)
                 ++ [assistant_tool_calls (choice_message r1) calls])
                None None Hall) as [[[mensajes i] a] Hloop].
    destruct (multimodal_for_tool_calls_turns codigos sv calls _ _ _ _ _ _
                Hloop) as (turns & -> & Hturns).
    exists turns.
    split; [|split; [symmetry; eapply Forall2_length; exact Hturns
                    |now apply answers_of_handled_mm with codigos sv]].
    assert (Hdispatch :
              multimodal_dispatch codigos sv calls
                (req_messages
                   (first_request TutorMultimodal.herramientas_educativas
                      (self w) mensaje)
                 ++ [assistant_tool_calls (choice_message r1) calls])
              = Ok ((req_messages
                       (first_request TutorMultimodal.herramientas_educativas
                          (self w) mensaje)
                     ++ [assistant_tool_calls (choice_message r1) calls])
                    ++ turns, (i, a)))
      by (unfold multimodal_dispatch; now rewrite Hloop).
    destruct (multimodal_responder_step codigos sv mensaje w)
      as (reqs & resA & Hex & -> & _).
    inversion Hex; subst; clash; reflexivity.
  - intros pre tc post e -> Hpre Htc.
    pose proof (multimodal_for_tool_calls_raises codigos sv pre tc post e
                  (req_messages
                     (first_request TutorMultimodal.herramientas_educativas
                        (self w) mensaje)
                   ++ [assistant_tool_calls (choice_message r1)
                         (pre ++ tc :: post)])
                  None None Hpre Htc) as Hloop.
    assert (Hdispatch :
              multimodal_dispatch codigos sv (pre ++ tc :: post)
                (req_messages
                   (first_request TutorMultimodal.herramientas_educativas
                      (self w) mensaje)
                 ++ [assistant_tool_calls (choice_message r1)
                       (pre ++ tc :: post)])
              = Raise e)
      by (unfold multimodal_dispatch; now rewrite Hloop).
    destruct (multimodal_responder_step codigos sv mensaje w)
      as (reqs & resA & Hex & _
          & [(e' & Hresp & ->) | (reply & Hnot & _)]).
    + rewrite Hresp. inversion Hex; subst; clash; reflexivity.
    + inversion Hex; subst; clash; exfalso; eapply Hnot; reflexivity.
Qed.

(** X16.  [manejar_herramienta] of the multimodal tutor, by the request.
    An exception of [json.loads] on the arguments is raised as it is.
    For a name that is not one of the three declared tools it builds a
    tool turn with the id of the request and an "error" payload that
    names the tool, without image or audio.  For the image tool, when
    the arguments are an object with "tema" and "nivel", the payload
    announces the image whatever the image service did: the image is the
    one the service returned, or none when the service raised. *)
Theorem multimodal_manejar_herramienta_by_cases {rt : Runtime}
    (codigos : list (string * list (string * string))) (sv : Services)
    (tc : ToolCall) :
  let turn payload :=
    {| role := tool; content := Some (json_dumps payload);
       tool_calls := None; tool_call_id := Some (tc_id tc) |} in
  (forall e,
      json_loads (tc_arguments tc) = Raise e ->
      TutorMultimodal.manejar_herramienta codigos sv tc = Raise e)
  /\
  (forall arguments,
      json_loads (tc_arguments tc) = Ok arguments ->
      undeclared TutorMultimodal.herramientas_educativas (tc_name tc) = true ->
      TutorMultimodal.manejar_herramienta codigos sv tc
      = Ok (turn (VDict [("error",
                          VStr ("Herramienta " +++ tc_name tc
                                +++ " no reconocida"))]),
            None, None))
  /\
  (forall d tema nivel,
      tc_name tc = "generar_imagen_educativa" ->
      json_loads (tc_arguments tc) = Ok (VDict d) ->
      assoc "tema" d = Some tema ->
      assoc "nivel" d = Some nivel ->
      TutorMultimodal.manejar_herramienta codigos sv tc
      = Ok (turn (VDict [("mensaje",
                          VStr ("Imagen generada para " +++ str_of tema))]),
            match images_generate sv tema nivel
                    (match assoc "descripcion_especifica" d with
                     | Some descripcion => descripcion
                     | None => VStr ""
                     end) with
            | Ok image => Some image
            | Raise _ => None
            end,
            None)).
Proof.
  cbv zeta. unfold TutorMultimodal.manejar_herramienta.
  split; [|split].
  - intros e Hloads. now rewrite Hloads.
  - intros arguments Hloads Hname. rewrite Hloads. cbn [rbind].
    unfold undeclared, TutorMultimodal.herramientas_educativas in Hname.
    cbn [map fn_name existsb] in Hname.
    apply negb_true_iff in Hname.
    rewrite !orb_false_iff in Hname. destruct Hname as (H1 & H2 & H3 & _).
    now rewrite H1, H2, H3.
  - intros d tema nivel Hname Hloads Htema Hnivel.
    rewrite Hloads, Hname. cbn [rbind String.eqb Ascii.eqb Bool.eqb].
    cbn [getitem method_get]. rewrite Htema, Hnivel. reflexivity.
Qed.

(** X17.  Every request of [responder] of the multimodal tutor has
    exactly one system turn, in first position, when the stored history
    holds none; and each call sends at least one request. *)
Theorem multimodal_requests_lead_with_the_system_turn {rt : Runtime} :
  forall codigos sv mensaje w,
    count_role system (historial_conversacion (self w)) = 0 ->
    let sent' := sent (snd (TutorMultimodal.responder codigos sv mensaje w)) in
    sent' = sent w ++ sent_during (sent w) sent'
    /\ sent_during (sent w) sent' <> []
    /\ Forall system_first (sent_during (sent w) sent').
Proof.
  intros codigos sv mensaje w Hnone sent'. subst sent'.
  destruct (multimodal_responder_step codigos sv mensaje w)
    as (reqs & resA & Hex & -> & _).
  rewrite sent_during_app.
  split; [reflexivity|]. split; [now apply exchange_sends in Hex|].
  eapply exchange_system_first; [|exact Hnone|exact Hex].
  intros calls mensajes mensajes' x.
  apply multimodal_dispatch_appends_tool_turns.
Qed.

(** ** Image and audio of a reply without tool round *)

(** [find] returns the first element that satisfies the test. *)
Lemma find_first {A} (f : A -> bool) before x after :
  forallb (fun y => negb (f y)) before = true ->
  f x = true ->
  find f (before ++ x :: after) = Some x
  /\ existsb f (before ++ x :: after) = true.
Proof.
  intros Hbefore Hx.
  induction before as [|y before IH]; cbn [app find existsb forallb] in *.
  - now rewrite Hx.
  - apply andb_true_iff in Hbefore as [Hy Hbefore].
    apply negb_true_iff in Hy. rewrite Hy. now apply IH.
Qed.

(** The multimodal tutor on a first response that asks for no tools. *)
Lemma multimodal_no_tools {rt : Runtime} codigos sv mensaje w r1 :
  chat_completions_create sv
    (first_request TutorMultimodal.herramientas_educativas (self w) mensaje)
  = Ok r1 ->
  String.eqb (finish_reason r1) "tool_calls" = false ->
  fst (TutorMultimodal.responder codigos sv mensaje w)
  = Ok (msg_content (choice_message r1),
        (let en_mensaje palabra := contains palabra (str_lower mensaje) in
         if existsb en_mensaje TutorMultimodal.palabras_clave then
           let tema :=
             match find en_mensaje TutorMultimodal.palabras_clave with
             | Some palabra => palabra
             | None => "robotica"
             end in
           TutorMultimodal.generar_imagen_educativa sv (VStr tema)
             (VStr (nivel (self w)))
             (VStr ("concepto educativo sobre " +++ tema))
         else None),
        TutorMultimodal.generar_audio_educativo sv
          (of_option (msg_content (choice_message r1)))).
Proof.
  intros Hfirst Hfinish.
  unfold TutorMultimodal.responder, TutorMultimodal.responder_try.
  unfold_m. cbn beta iota.
  fold (first_request TutorMultimodal.herramientas_educativas (self w)
          mensaje).
  rewrite Hfirst. cbn beta iota. rewrite Hfinish. reflexivity.
Qed.

(** X18.  On a first response that asks for no tools, the multimodal
    tutor always asks the speech service for the reply, and draws a
    picture exactly when the message, in lower case, contains one of the
    twelve key words: the theme is the first key word of the list that
    the message contains, the level is the one of the tutor.  Without a
    key word there is no picture. *)
Theorem multimodal_picture_by_key_word {rt : Runtime} :
  forall codigos sv mensaje w r1,
    let req1 :=
      first_request TutorMultimodal.herramientas_educativas (self w) mensaje in
    let out := fst (TutorMultimodal.responder codigos sv mensaje w) in
    let reply := msg_content (choice_message r1) in
    let audio :=
      TutorMultimodal.generar_audio_educativo sv (of_option reply) in
    let en_mensaje palabra := contains palabra (str_lower mensaje) in
    chat_completions_create sv req1 = Ok r1 ->
    finish_reason r1 <> "tool_calls" ->
    (existsb en_mensaje TutorMultimodal.palabras_clave = false ->
     out = Ok (reply, None, audio))
    /\
    (forall before tema after,
        TutorMultimodal.palabras_clave = before ++ tema :: after ->
        forallb (fun palabra => negb (en_mensaje palabra)) before = true ->
        en_mensaje tema = true ->
        out = Ok (reply,
                  TutorMultimodal.generar_imagen_educativa sv (VStr tema)
                    (VStr (nivel (self w)))
                    (VStr ("concepto educativo sobre " +++ tema)),
                  audio)).
Proof.
  intros codigos sv mensaje w r1 req1 out reply audio en_mensaje
         Hfirst Hfinish.
  subst req1 out reply audio. apply String.eqb_neq in Hfinish.
  rewrite (multimodal_no_tools codigos sv mensaje w r1 Hfirst Hfinish).
  cbv zeta. fold en_mensaje. split.
  - intros ->. reflexivity.
  - intros before tema after Hlist Hbefore Htema. rewrite Hlist.
    destruct (find_first en_mensaje before tema after Hbefore Htema)
      as [-> ->].
    reflexivity.
Qed.

(** X19.  On a first response with text that asks for no tools, the
    simple tutor speaks the reply exactly when one of the twelve topics
    occurs in the message or in the reply, both in lower case: the
    audio is then what the speech service returned, or none when it
    raised.  Without a topic it returns no audio. *)
Theorem simple_audio_by_topic {rt : Runtime} :
  forall codigos sv mensaje w r1 texto,
    let req1 :=
      first_request TutorSimple.herramientas_educativas (self w) mensaje in
    let mentioned tema :=
      contains tema (str_lower mensaje) || contains tema (str_lower texto) in
    chat_completions_create sv req1 = Ok r1 ->
    finish_reason r1 <> "tool_calls" ->
    msg_content (choice_message r1) = Some texto ->
    fst (TutorSimple.responder codigos sv mensaje w)
    = Ok (Some texto,
          if existsb mentioned TutorSimple.TEMAS_ROBOTICA
          then match audio_speech_create sv (VStr texto) with
               | Ok path => Some path
               | Raise _ => None
               end
          else None).
Proof.
  intros codigos sv mensaje w r1 texto req1 mentioned Hfirst Hfinish Htexto.
  subst req1 mentioned. apply String.eqb_neq in Hfinish.
  destruct (simple_responder_try_run codigos sv mensaje w)
    as (reqs & resA & Hex & Hrun).
  rewrite simple_responder_of_try, Hrun.
  inversion Hex; subst; clash.
  cbv zeta. rewrite Htexto.
  cbn [truthy negb of_option method_lower rbind].
  destruct (existsb _ _); reflexivity.
Qed.

(** ** The interface of the simple tutor *)

Section SimpleInterface.
Context {rt : Runtime}.
Variable codigos : list (string * list (string * string)).
Variable str_strip : string -> string.

Lemma es_nivel_not_empty nivel :
  es_nivel nivel = true -> String.eqb nivel "" = false.
Proof.
  intro Hn.
  destruct (es_nivel_cases nivel Hn) as [-> | [-> | [-> | ->]]]; reflexivity.
Qed.

Lemma ordenado_init nivel idioma prompt :
  SimpleApp.prompt_init nivel idioma = Ok prompt ->
  ordenado (init nivel idioma prompt).
Proof.
  intro Hp. unfold ordenado. cbn. repeat split; [lia|exact Hp].
Qed.

(** [responder] returns, and keeps a tutor in order. *)
Lemma simple_responder_ordenado sv mensaje w :
  ordenado (self w) ->
  let run := TutorSimple.responder codigos sv mensaje w in
  (exists out, fst run = Ok out) /\ ordenado (self (snd run)).
Proof.
  intros (Hcap & Halt & Hprompt) run. subst run.
  destruct (simple_responder_cases codigos sv mensaje w)
    as (reqs & resA & _
        & [(e & _ & -> & _) | (r & a & a' & _ & Htry & ->)]).
  - split; [eexists; reflexivity|]. now repeat split.
  - rewrite Htry. split; [eexists; reflexivity|].
    unfold ordenado. cbn. split; [apply updated_length|].
    split; [now apply alternates_updated|exact Hprompt].
Qed.

(** With a known level selected, [actualizar_configuracion] returns and
    leaves a tutor in order with that level. *)
Lemma actualizar_configuracion_ordenado nivel_elegido idioma_elegido t :
  es_nivel nivel_elegido = true ->
  ordenado t ->
  exists t',
    SimpleApp.actualizar_configuracion (Some nivel_elegido) (Some idioma_elegido) t
    = (Ok tt, t')
    /\ ordenado t' /\ nivel t' = nivel_elegido
    /\ idioma t' = elegido (Some idioma_elegido) (idioma t).
Proof.
  intros Hn (Hcap & Halt & _).
  rewrite actualizar_configuracion_run. cbv zeta.
  cbn [set_idioma set_nivel nivel idioma elegido].
  rewrite (es_nivel_not_empty nivel_elegido Hn).
  destruct (simple_prompt_known nivel_elegido
              (if String.eqb idioma_elegido "" then idioma t else idioma_elegido) Hn)
    as [p Hp].
  rewrite Hp. eexists. split; [reflexivity|].
  unfold ordenado. cbn. auto.
Qed.

(** [procesar_mensaje] with a known level selected. *)
Lemma procesar_mensaje_en_orden sv mensaje nivel_elegido idioma_elegido a :
  es_nivel nivel_elegido = true ->
  en_orden a ->
  let run := SimpleApp.procesar_mensaje codigos sv mensaje nivel_elegido idioma_elegido a in
  (exists out, fst run = Ok out)
  /\ SimpleApp.historial (snd run) = SimpleApp.historial a
  /\ exists t, SimpleApp.tutor (snd run) = Some t
               /\ ordenado t /\ nivel t = nivel_elegido.
Proof.
  intros Hn Ha run. subst run.
  assert (Hresp : forall t a0,
             ordenado t -> nivel t = nivel_elegido ->
             let run := SimpleApp.tutor_responder codigos sv mensaje t a0 in
             (exists out, fst run = Ok out)
             /\ SimpleApp.historial (snd run) = SimpleApp.historial a0
             /\ exists t', SimpleApp.tutor (snd run) = Some t'
                           /\ ordenado t' /\ nivel t' = nivel_elegido).
  { intros t a0 Ht Hnivel run. subst run. unfold SimpleApp.tutor_responder.
    pose proof (simple_responder_ordenado sv mensaje
                  {| self := t; sent := SimpleApp.enviados a0 |} Ht)
      as (Hout & Hord).
    pose proof (simple_responder_step codigos sv mensaje
                  {| self := t; sent := SimpleApp.enviados a0 |})
      as (reqs & resA & _ & _ & Hself).
    destruct (TutorSimple.responder codigos sv mensaje
                {| self := t; sent := SimpleApp.enviados a0 |})
      as [r w] eqn:Hrun.
    cbn [fst snd SimpleApp.tutor SimpleApp.historial] in *.
    split; [exact Hout|]. split; [reflexivity|].
    exists (self w). split; [reflexivity|]. split; [exact Hord|].
    destruct Hself as [(e & Heq & _) | (reply & _ & ->)].
    - injection Heq as _ ->. exact Hnivel.
    - exact Hnivel. }
  unfold SimpleApp.procesar_mensaje, en_orden in *.
  destruct (SimpleApp.tutor a) as [t|].
  - destruct (actualizar_configuracion_ordenado nivel_elegido idioma_elegido t Hn Ha)
      as (t' & -> & Ht' & Hnivel & _).
    exact (Hresp t' (SimpleApp.set_tutor t' a) Ht' Hnivel).
  - destruct (simple_prompt_known nivel_elegido idioma_elegido Hn) as [p Hp].
    unfold SimpleApp.TutorRoboticaSimple. rewrite Hp. cbn [rbind].
    exact (Hresp _ (SimpleApp.set_tutor _ a)
             (ordenado_init nivel_elegido idioma_elegido p Hp) eq_refl).
Qed.

(** [procesar_mensaje] with a known level selected, on any state of the
    interface. *)
Lemma procesar_mensaje_returns sv mensaje nivel_elegido idioma_elegido a :
  es_nivel nivel_elegido = true ->
  let run :=
    SimpleApp.procesar_mensaje codigos sv mensaje nivel_elegido
      idioma_elegido a in
  (exists out, fst run = Ok out)
  /\ SimpleApp.historial (snd run) = SimpleApp.historial a
  /\ exists t, SimpleApp.tutor (snd run) = Some t /\ nivel t = nivel_elegido.
Proof.
  intros Hn run. subst run.
  assert (Hresp : forall t a0,
             nivel t = nivel_elegido ->
             let run := SimpleApp.tutor_responder codigos sv mensaje t a0 in
             (exists out, fst run = Ok out)
             /\ SimpleApp.historial (snd run) = SimpleApp.historial a0
             /\ exists t', SimpleApp.tutor (snd run) = Some t'
                           /\ nivel t' = nivel_elegido).
  { intros t a0 Hnivel run. subst run. unfold SimpleApp.tutor_responder.
    assert (Hout : exists out,
               fst (TutorSimple.responder codigos sv mensaje
                      {| self := t; sent := SimpleApp.enviados a0 |})
               = Ok out).
    { destruct (simple_responder_cases codigos sv mensaje
                  {| self := t; sent := SimpleApp.enviados a0 |})
        as (reqs & resA & _
            & [(e & _ & -> & _) | (r & au & au' & _ & Htry & ->)]);
        [|rewrite Htry]; eexists; reflexivity. }
    pose proof (simple_responder_step codigos sv mensaje
                  {| self := t; sent := SimpleApp.enviados a0 |})
      as (reqs & resA & _ & _ & Hself).
    destruct (TutorSimple.responder codigos sv mensaje
                {| self := t; sent := SimpleApp.enviados a0 |})
      as [r w] eqn:Hrun.
    cbn [fst snd SimpleApp.tutor SimpleApp.historial] in *.
    split; [exact Hout|]. split; [reflexivity|].
    exists (self w). split; [reflexivity|].
    destruct Hself as [(e & Heq & _) | (reply & _ & ->)].
    - injection Heq as _ ->. exact Hnivel.
    - exact Hnivel. }
  unfold SimpleApp.procesar_mensaje.
  destruct (SimpleApp.tutor a) as [t|].
  - rewrite actualizar_configuracion_run. cbv zeta.
    cbn [set_idioma set_nivel nivel idioma elegido].
    rewrite (es_nivel_not_empty nivel_elegido Hn).
    destruct (simple_prompt_known nivel_elegido
                (if String.eqb idioma_elegido "" then idioma t
                 else idioma_elegido) Hn)
      as [p Hp].
    rewrite Hp.
    refine (Hresp _ (SimpleApp.set_tutor _ a) _). reflexivity.
  - destruct (simple_prompt_known nivel_elegido idioma_elegido Hn) as [p Hp].
    unfold SimpleApp.TutorRoboticaSimple. rewrite Hp. cbn [rbind].
    refine (Hresp _ (SimpleApp.set_tutor _ a) _). reflexivity.
Qed.

(** [enviar_mensaje], step by step. *)
Lemma enviar_mensaje_run sv mensaje n i a :
  SimpleApp.enviar_mensaje codigos str_strip sv mensaje n i a =
  if String.eqb (str_strip mensaje) "" then
    (Ok (SimpleApp.historial a, "", None), a)
  else
    match
      SimpleApp.procesar_mensaje codigos sv mensaje n i
        {| SimpleApp.tutor := SimpleApp.tutor a;
           SimpleApp.enviados := SimpleApp.enviados a;
           SimpleApp.historial :=
             SimpleApp.historial a ++ [dict_message user mensaje] |}
    with
    | (Ok (respuesta, audio), a2) =>
        let h :=
          SimpleApp.historial a2
          ++ [{| role := assistant; content := respuesta;
                 tool_calls := None; tool_call_id := None |}] in
        (Ok (h, "", audio),
         {| SimpleApp.tutor := SimpleApp.tutor a2;
            SimpleApp.enviados := SimpleApp.enviados a2;
            SimpleApp.historial := h |})
    | (Raise e, a2) => (Raise e, a2)
    end.
Proof.
  unfold SimpleApp.enviar_mensaje.
  destruct (String.eqb (str_strip mensaje) ""); [reflexivity|].
  unfold SimpleApp.historial_append. unfold_m. cbn beta.
  destruct (SimpleApp.procesar_mensaje _ _ _ _ _ _) as [[[r au]|e] a2];
    reflexivity.
Qed.

(** One event with a known level selected. *)
Lemma atender_en_orden ev a :
  es_nivel (nivel_del_evento ev) = true ->
  en_orden a ->
  en_orden (SimpleApp.atender codigos str_strip ev a)
  /\ length (SimpleApp.historial (SimpleApp.atender codigos str_strip ev a))
     = length (SimpleApp.historial a)
       + (if es_envio str_strip ev then 2 else 0).
Proof.
  intros Hn Ha.
  destruct ev as [n i|sv mensaje n i];
    cbn [nivel_del_evento es_envio SimpleApp.atender] in *.
  - unfold SimpleApp.inicializar_tutor.
    destruct (simple_prompt_known n i Hn) as [p Hp].
    unfold SimpleApp.TutorRoboticaSimple. rewrite Hp. cbn [rbind snd].
    split; [|cbn; lia].
    unfold en_orden. cbn. now apply ordenado_init.
  - rewrite enviar_mensaje_run.
    destruct (String.eqb (str_strip mensaje) ""); cbn [negb].
    + cbn [snd]. split; [exact Ha|lia].
    + destruct (procesar_mensaje_en_orden sv mensaje n i
                  {| SimpleApp.tutor := SimpleApp.tutor a;
                     SimpleApp.enviados := SimpleApp.enviados a;
                     SimpleApp.historial :=
                       SimpleApp.historial a ++ [dict_message user mensaje] |}
                  Hn Ha)
        as ((out & Hout) & Hhist & t & Htutor & Ht & _).
      destruct (SimpleApp.procesar_mensaje _ _ _ _ _ _) as [r a2].
      cbn [fst snd SimpleApp.historial] in Hout, Hhist, Htutor. subst r.
      destruct out as [respuesta audio]. cbv zeta. cbn [snd].
      split.
      * unfold en_orden. cbn [SimpleApp.tutor]. now rewrite Htutor.
      * cbn [SimpleApp.historial]. rewrite Hhist.
        rewrite !length_app. cbn [length]. lia.
Qed.

Lemma sesion_en_orden eventos :
  forall a,
    forallb (fun ev => es_nivel (nivel_del_evento ev)) eventos = true ->
    en_orden a ->
    en_orden (SimpleApp.sesion codigos str_strip eventos a)
    /\ length (SimpleApp.historial
                 (SimpleApp.sesion codigos str_strip eventos a))
       = length (SimpleApp.historial a) + 2 * envios str_strip eventos.
Proof.
  unfold SimpleApp.sesion, envios.
  induction eventos as [|ev eventos IH]; intros a Hall Ha;
    cbn [fold_left forallb filter] in *.
  - split; [exact Ha|cbn; lia].
  - apply andb_true_iff in Hall as [Hev Hall].
    destruct (atender_en_orden ev a Hev Ha) as [Ha' Hlen].
    destruct (IH _ Hall Ha') as [Hend Hlen'].
    split; [exact Hend|]. rewrite Hlen', Hlen.
    destruct (es_envio str_strip ev); cbn [length]; lia.
Qed.

End SimpleInterface.

(** X20.  [enviar_mensaje] of the simple interface.  A message that is
    blank once stripped changes nothing: the chat is returned as it is,
    no tutor is created and no request is sent.  Any other message, with
    one of the four levels selected, is answered: the chat returned is
    the one received followed by the user turn and one assistant turn,
    the text box is cleared, and the tutor has the level selected, in
    whatever state the interface was.  With a level that is neither empty
    nor one of the four, [enviar_mensaje] raises [KeyError] on that level
    and no request is sent. *)
Theorem enviar_mensaje_by_cases {rt : Runtime}
    (codigos : list (string * list (string * string)))
    (str_strip : string -> string) (sv : Services)
    (mensaje nivel_elegido idioma_elegido : string) (a : SimpleApp.App) :
  let run :=
    SimpleApp.enviar_mensaje codigos str_strip sv mensaje nivel_elegido idioma_elegido a in
  (str_strip mensaje = "" ->
   run = (Ok (SimpleApp.historial a, "", None), a))
  /\
  (str_strip mensaje <> "" -> es_nivel nivel_elegido = true ->
   exists respuesta audio t,
     fst run
     = Ok (SimpleApp.historial a
           ++ [dict_message user mensaje;
               {| role := assistant; content := respuesta;
                  tool_calls := None; tool_call_id := None |}],
           "", audio)
     /\ SimpleApp.tutor (snd run) = Some t
     /\ nivel t = nivel_elegido)
  /\
  (str_strip mensaje <> "" -> es_nivel nivel_elegido = false -> nivel_elegido <> "" ->
   fst run = Raise (KeyError nivel_elegido)
   /\ SimpleApp.enviados (snd run) = SimpleApp.enviados a).
Proof.
  cbv zeta. rewrite enviar_mensaje_run. split; [|split].
  - intros ->. reflexivity.
  - intros Hmensaje Hn. apply String.eqb_neq in Hmensaje.
    rewrite Hmensaje.
    destruct (procesar_mensaje_returns codigos sv mensaje nivel_elegido
                idioma_elegido
                {| SimpleApp.tutor := SimpleApp.tutor a;
                   SimpleApp.enviados := SimpleApp.enviados a;
                   SimpleApp.historial :=
                     SimpleApp.historial a ++ [dict_message user mensaje] |}
                Hn)
      as ((out & Hout) & Hhist & t & Htutor & Hnivel).
    destruct (SimpleApp.procesar_mensaje _ _ _ _ _ _) as [r a2].
    cbn [fst snd SimpleApp.historial] in Hout, Hhist, Htutor. subst r.
    destruct out as [respuesta audio].
    exists respuesta, audio, t. cbv zeta.
    cbn [fst snd SimpleApp.historial SimpleApp.tutor].
    rewrite Hhist, <- app_assoc. auto.
  - intros Hmensaje Hn Hnivel. apply String.eqb_neq in Hmensaje.
    apply String.eqb_neq in Hnivel.
    rewrite Hmensaje.
    unfold SimpleApp.procesar_mensaje. cbn [SimpleApp.tutor].
    destruct (SimpleApp.tutor a) as [t|].
    + rewrite actualizar_configuracion_run. cbv zeta.
      cbn [set_idioma set_nivel nivel idioma elegido].
      rewrite Hnivel. rewrite simple_prompt_unknown by exact Hn.
      split; reflexivity.
    + unfold SimpleApp.TutorRoboticaSimple.
      rewrite simple_prompt_unknown by exact Hn. split; reflexivity.
Qed.

(** X21.  A session of the simple interface, from its start with an
    empty chat, with one of the four levels selected at every event.
    The chat shown is never cut: it has two entries for each message
    that was not blank.  The
    tutor, once there is one, stores at most ten turns, in
    (user, assistant) pairs, and its system prompt is the one the
    constructor builds for the level and language it has; before there
    is a tutor no request has been sent. *)
Theorem simple_interface_session {rt : Runtime}
    (codigos : list (string * list (string * string)))
    (str_strip : string -> string) (eventos : list SimpleApp.Evento) :
  forallb (fun ev => es_nivel (nivel_del_evento ev)) eventos = true ->
  let a := SimpleApp.sesion codigos str_strip eventos SimpleApp.inicio in
  length (SimpleApp.historial a) = 2 * envios str_strip eventos
  /\ match SimpleApp.tutor a with
     | Some t =>
         length (historial_conversacion t) <= 10
         /\ alternates (historial_conversacion t) = true
         /\ SimpleApp.TutorRoboticaSimple (nivel t) (idioma t)
            = Ok {| nivel := nivel t; idioma := idioma t;
                    historial_conversacion := [];
                    system_prompt := system_prompt t |}
     | None => SimpleApp.enviados a = []
     end.
Proof.
  intros Hall a. subst a.
  destruct (sesion_en_orden codigos str_strip eventos SimpleApp.inicio Hall)
    as [Hend Hlen]; [reflexivity|].
  split; [exact Hlen|].
  unfold en_orden in Hend.
  destruct (SimpleApp.tutor _) as [t|]; [|exact Hend].
  destruct Hend as (Hcap & Halt & Hprompt).
  split; [exact Hcap|]. split; [exact Halt|].
  unfold SimpleApp.TutorRoboticaSimple. now rewrite Hprompt.
Qed.

(** ** The interface of the multimodal tutor *)

Section MultimodalInterface.
Context {rt : Runtime}.
Variable codigos : list (string * list (string * string)).

Lemma last_default {A} (l : list A) :
  forall y d d', last (y :: l) d = last (y :: l) d'.
Proof.
  induction l as [|z l IH]; intros y d d'; [reflexivity|].
  change (last (z :: l) d = last (z :: l) d'). apply IH.
Qed.

Lemma last_cons_default {A} (x d : A) l : last (x :: l) d = last l x.
Proof.
  destruct l as [|y l]; [reflexivity|].
  change (last (y :: l) d = last (y :: l) x). apply last_default.
Qed.

(** [responder] keeps the level and the language of the tutor. *)
Lemma multimodal_responder_keeps_selection sv mensaje w :
  let t' := self (snd (TutorMultimodal.responder codigos sv mensaje w)) in
  nivel t' = nivel (self w) /\ idioma t' = idioma (self w).
Proof.
  cbv zeta.
  destruct (multimodal_responder_step codigos sv mensaje w)
    as (reqs & resA & _ & _ & [(e & -> & _) | (reply & _ & ->)]);
    split; reflexivity.
Qed.

(** One message through [procesar_mensaje]. *)
Lemma multimodal_procesar_mensaje_step sv mensaje n id i prompt :
  well_kept prompt (self (MultimodalApp.mundo i)) ->
  let i' :=
    snd (MultimodalApp.procesar_mensaje codigos sv mensaje n id i) in
  well_kept prompt (self (MultimodalApp.mundo i'))
  /\ nivel (self (MultimodalApp.mundo i')) = n
  /\ idioma (self (MultimodalApp.mundo i')) = id
  /\ length (MultimodalApp.historial i')
     = length (MultimodalApp.historial i) + 2.
Proof.
  intros Hw i'. subst i'. unfold MultimodalApp.procesar_mensaje.
  set (w1 := {| self := MultimodalApp.configurar n id
                          (self (MultimodalApp.mundo i));
                sent := sent (MultimodalApp.mundo i) |}).
  assert (Hw1 : well_kept prompt (self w1)).
  { destruct Hw as (Hcap & Halt & Hprompt). subst w1. cbn [self].
    rewrite configurar_run. unfold well_kept. cbn. auto. }
  pose proof (multimodal_responder_keeps codigos sv mensaje w1 prompt Hw1)
    as Hkept.
  pose proof (multimodal_responder_keeps_selection sv mensaje w1)
    as [Hnivel Hidioma].
  cbv zeta in Hnivel, Hidioma.
  assert (Hout : exists out,
             fst (TutorMultimodal.responder codigos sv mensaje w1) = Ok out).
  { destruct (multimodal_responder_cases codigos sv mensaje w1)
      as (reqs & resA & _
          & [(e & _ & _ & ->) | (r & x & im & au & _ & Htry & ->)]);
      [|rewrite Htry]; eexists; reflexivity. }
  destruct Hout as [[[respuesta imagen] audio] Hout].
  destruct (TutorMultimodal.responder codigos sv mensaje w1) as [r w'].
  cbn [fst snd] in Hout, Hkept, Hnivel, Hidioma. subst r.
  cbn [snd MultimodalApp.mundo MultimodalApp.historial].
  split; [exact Hkept|].
  subst w1. cbn [self] in Hnivel, Hidioma.
  rewrite configurar_run in Hnivel, Hidioma. cbn in Hnivel, Hidioma.
  split; [exact Hnivel|]. split; [exact Hidioma|].
  rewrite !length_app. cbn [length]. lia.
Qed.

Lemma multimodal_sesion_step mensajes :
  forall i prompt,
    well_kept prompt (self (MultimodalApp.mundo i)) ->
    let i' := MultimodalApp.sesion codigos mensajes i in
    well_kept prompt (self (MultimodalApp.mundo i'))
    /\ nivel (self (MultimodalApp.mundo i'))
       = last (map (fun m => snd (fst m)) mensajes)
              (nivel (self (MultimodalApp.mundo i)))
    /\ idioma (self (MultimodalApp.mundo i'))
       = last (map snd mensajes) (idioma (self (MultimodalApp.mundo i)))
    /\ length (MultimodalApp.historial i')
       = length (MultimodalApp.historial i) + 2 * length mensajes.
Proof.
  unfold MultimodalApp.sesion.
  induction mensajes as [|[[[sv mensaje] n] id] mensajes IH];
    intros i prompt Hw; cbn [fold_left].
  - cbn. repeat split; [apply Hw..|lia].
  - destruct (multimodal_procesar_mensaje_step sv mensaje n id i prompt Hw)
      as (Hw' & Hn & Hid & Hlen).
    destruct (IH _ prompt Hw') as (Hend & Hn' & Hid' & Hlen').
    cbv zeta. split; [exact Hend|].
    cbn [map fst snd length]. rewrite !last_cons_default.
    rewrite Hn', Hid', Hlen', Hn, Hid, Hlen.
    repeat split. lia.
Qed.

End MultimodalInterface.

(** X22.  A session of the multimodal interface, from an empty chat,
    on a tutor that starts with the empty history.  Whatever levels and languages are selected
    along the way, the system prompt stays the one the tutor started
    with; the tutor has the level and the language selected with the
    last message; it stores at most ten turns; and the chat shown has
    two entries for every message. *)
Theorem multimodal_interface_keeps_its_prompt {rt : Runtime}
    (codigos : list (string * list (string * string)))
    (mensajes : list (Services * string * string * string)) (t : Tutor) :
  historial_conversacion t = [] ->
  let i := MultimodalApp.sesion codigos mensajes (MultimodalApp.inicio t) in
  let tutor := self (MultimodalApp.mundo i) in
  system_prompt tutor = system_prompt t
  /\ nivel tutor = last (map (fun m => snd (fst m)) mensajes) (nivel t)
  /\ idioma tutor = last (map snd mensajes) (idioma t)
  /\ length (historial_conversacion tutor) <= 10
  /\ length (MultimodalApp.historial i) = 2 * length mensajes.
Proof.
  intros Hempty i tutor. subst tutor i.
  assert (Hstart : well_kept (system_prompt t)
                     (self (MultimodalApp.mundo (MultimodalApp.inicio t)))).
  { unfold well_kept. cbn. rewrite Hempty. cbn. repeat split. lia. }
  destruct (multimodal_sesion_step codigos mensajes (MultimodalApp.inicio t)
              (system_prompt t) Hstart)
    as ((Hcap & _ & Hprompt) & Hn & Hid & Hlen).
  cbv zeta in *. cbn [MultimodalApp.inicio MultimodalApp.mundo
                      MultimodalApp.historial self length] in Hn, Hid, Hlen.
  repeat split; assumption.
Qed.

(** * Worked examples for the further properties *)

(** "universidad" is not a level: neither constructor returns. *)
Lemma constructors_need_a_known_level_witness :
  SimpleApp.TutorRoboticaSimple "universidad" "Español"
  = Raise (KeyError "universidad")
  /\ MultimodalApp.TutorRoboticaMultimodal "universidad" "Español"
     = Raise (KeyError "universidad").
Proof.
  apply (proj2 (constructors_need_a_known_level "universidad" "Español")).
  reflexivity.
Defined.

(** A tutor for "primaria" is moved to "secundaria": it returns, and its
    prompt is the one of a new tutor for "secundaria". *)
Lemma actualizar_configuracion_rebuilds_the_prompt_witness :
  let run :=
    SimpleApp.actualizar_configuracion (Some "secundaria") None
      (self Scenario.fresh) in
  fst run = Ok tt
  /\ SimpleApp.TutorRoboticaSimple (nivel (snd run)) (idioma (snd run))
     = Ok {| nivel := nivel (snd run); idioma := idioma (snd run);
             historial_conversacion := [];
             system_prompt := system_prompt (snd run) |}.
Proof.
  apply (proj2 (proj2 (proj2
           (actualizar_configuracion_rebuilds_the_prompt
              (Some "secundaria") None (self Scenario.fresh))))).
  reflexivity.
Defined.

(** The same tutor is moved to "universidad" and "English": the call
    raises, and the tutor keeps both with the prompt for "primaria". *)
Lemma actualizar_configuracion_fails_half_way_witness :
  SimpleApp.actualizar_configuracion (Some "universidad") (Some "English")
    (self Scenario.fresh)
  = (Raise (KeyError "universidad"),
     {| nivel := "universidad"; idioma := "English";
        historial_conversacion := [];
        system_prompt := "Eres un tutor experto en robótica." |}).
Proof.
  apply (actualizar_configuracion_fails_half_way
           (Some "universidad") (Some "English") (self Scenario.fresh)).
  reflexivity.
Defined.

(** The endpoint answers without text: the simple tutor reports
    [AttributeError]. *)
Lemma simple_reply_without_text_witness :
  TutorSimple.responder (rt := Sample.runtime) Scenario.codigos
    Cases.says_nothing "Hola" Scenario.fresh
  = (Ok (Some "Error procesando mensaje: AttributeError", None),
     {| self := self Scenario.fresh;
        sent := [first_request TutorSimple.herramientas_educativas
                   (self Scenario.fresh) "Hola"] |}).
Proof.
  apply (proj1 (simple_reply_without_text (rt := Sample.runtime))
               Scenario.codigos Cases.says_nothing "Hola" Scenario.fresh
               {| finish_reason := "stop";
                  choice_message := {| msg_content := None;
                                       msg_tool_calls := None |} |});
    [reflexivity|discriminate|reflexivity].
Defined.

(** The same answer to the multimodal tutor is stored as a reply. *)
Lemma multimodal_reply_without_text_witness :
  let run :=
    TutorMultimodal.responder (rt := Sample.runtime) Scenario.codigos
      Cases.says_nothing "Hola" Scenario.fresh in
  (exists imagen audio, fst run = Ok (None, imagen, audio))
  /\ historial_conversacion (self (snd run))
     = last_n 10 ([] ++ [dict_message user "Hola";
                         {| role := assistant; content := None;
                            tool_calls := None; tool_call_id := None |}])
  /\ sent (snd run)
     = [] ++ [first_request TutorMultimodal.herramientas_educativas
                (self Scenario.fresh) "Hola"].
Proof.
  apply (multimodal_reply_without_text (rt := Sample.runtime)
           Scenario.codigos Cases.says_nothing "Hola" Scenario.fresh
           {| finish_reason := "stop";
              choice_message := {| msg_content := None;
                                   msg_tool_calls := None |} |});
    [reflexivity|discriminate|reflexivity].
Defined.


(** The model leaves the level out. *)
Lemma manejar_herramienta_checks_its_arguments_witness :
  TutorSimple.manejar_herramienta (rt := Sample.runtime) Scenario.codigos
    Scenario.plain_answer Cases.without_nivel
  = Raise (KeyError "nivel").
Proof.
  apply (proj2 (proj2 (proj1 (manejar_herramienta_checks_its_arguments
                                (rt := Sample.runtime) Scenario.codigos
                                Scenario.plain_answer Cases.without_nivel
                                (VDict [("componente", VStr "led")])
                                eq_refl)
                             eq_refl))
               [("componente", VStr "led")] (VStr "led"));
    reflexivity.
Defined.

(** A round that explains a LED and then names an undeclared tool, with
    a speech service that answers: the audio is the one of the
    explanation. *)
Lemma only_explanations_are_spoken_witness :
  Some "/tmp/respuesta.mp3" = None
  \/ exists tc t,
       In tc Scenario.led_calls
       /\ tc_name tc = "explicar_componente_arduino"
       /\ TutorSimple.manejar_herramienta (rt := Sample.runtime)
            Scenario.codigos Cases.plain_answer_with_media tc
          = Ok (t, Some "/tmp/respuesta.mp3")
       /\ truthy (Some "/tmp/respuesta.mp3") = true.
Proof.
  apply (proj2 (only_explanations_are_spoken (rt := Sample.runtime)
                  Scenario.codigos Cases.plain_answer_with_media)
               Scenario.led_calls []
               (match TutorSimple.for_tool_calls (rt := Sample.runtime)
                        Scenario.codigos Cases.plain_answer_with_media
                        Scenario.led_calls [] None with
                | Ok (mensajes, _) => mensajes
                | Raise _ => []
                end)).
  reflexivity.
Defined.

(** The price of Londres, asked in "call_1". *)
Lemma handle_tool_call_by_cases_witness :
  exists price,
    Aerolinea.get_ticket_price (rt := Sample.runtime) (VStr "Londres")
    = Ok price
    /\ Aerolinea.handle_tool_call (rt := Sample.runtime)
         {| msg_content := None;
            msg_tool_calls := Some [Scenario.price_of "call_1" "Londres"] |}
       = Ok ({| role := tool;
                content :=
                  Some (json_dumps (Runtime := Sample.runtime)
                          (VDict [("destination_city", VStr "Londres");
                                  ("price", VStr price)]));
                tool_calls := None;
                tool_call_id := Some "call_1" |},
             VStr "Londres").
Proof.
  apply (proj2 (proj2 (proj2
           (proj2 (proj2 (handle_tool_call_by_cases (rt := Sample.runtime)
                            None))
              (Scenario.price_of "call_1" "Londres") [])))
           [("destination_city", VStr "Londres")] "Londres");
    reflexivity.
Defined.

(** The endpoint refuses the first request of [chat]. *)
Lemma chat_passes_the_endpoint_through_witness :
  Aerolinea.chat (rt := Sample.runtime) Scenario.rate_limited
    "¿Cuánto cuesta ir a Londres?" [] []
  = (Raise (APIError "429 rate limit"),
     [] ++ [chat_request "¿Cuánto cuesta ir a Londres?" []]).
Proof.
  apply (proj1 (chat_passes_the_endpoint_through (rt := Sample.runtime)
                  Scenario.rate_limited "¿Cuánto cuesta ir a Londres?" [] [])).
  reflexivity.
Defined.

(** The multimodal tutor explains a LED and is asked for a tool that was
    never declared: both requests are answered before the follow-up. *)
Lemma multimodal_tool_round_witness :
  exists turns,
    sent (snd (TutorMultimodal.responder (rt := Sample.runtime)
                 Scenario.codigos Scenario.explains_led "¿Qué es un LED?"
                 Scenario.fresh))
    = [] ++ [first_request TutorMultimodal.herramientas_educativas
               (self Scenario.fresh) "¿Qué es un LED?";
             second_request
               ((req_messages
                   (first_request TutorMultimodal.herramientas_educativas
                      (self Scenario.fresh) "¿Qué es un LED?")
                 ++ [assistant_tool_calls
                       (choice_message
                          (Scenario.requests_tools Scenario.led_calls))
                       Scenario.led_calls])
                ++ turns)]
    /\ length turns = length Scenario.led_calls
    /\ Forall2 answers Scenario.led_calls turns.
Proof.
  apply (proj1 (multimodal_tool_round (rt := Sample.runtime)
                  Scenario.codigos Scenario.explains_led "¿Qué es un LED?"
                  Scenario.fresh (Scenario.requests_tools Scenario.led_calls)
                  Scenario.led_calls eq_refl eq_refl eq_refl)).
  reflexivity.
Defined.

(** The image tool announces the picture of a servo although the image
    service is down. *)
Lemma multimodal_manejar_herramienta_by_cases_witness :
  TutorMultimodal.manejar_herramienta (rt := Sample.runtime)
    Scenario.codigos Scenario.plain_answer Cases.draw_servo
  = Ok ({| role := tool;
           content :=
             Some (json_dumps (Runtime := Sample.runtime)
                     (VDict [("mensaje",
                              VStr ("Imagen generada para "
                                    +++ str_of (Runtime := Sample.runtime)
                                          (VStr "servo")))]));
           tool_calls := None;
           tool_call_id := Some "call_1" |},
        None, None).
Proof.
  apply (proj2 (proj2 (multimodal_manejar_herramienta_by_cases
                         (rt := Sample.runtime) Scenario.codigos
                         Scenario.plain_answer Cases.draw_servo))
               [("tema", VStr "servo"); ("nivel", VStr "primaria")]
               (VStr "servo") (VStr "primaria"));
    reflexivity.
Defined.

(** Both requests of that round lead with the system turn. *)
Lemma multimodal_requests_lead_with_the_system_turn_witness :
  let sent' :=
    sent (snd (TutorMultimodal.responder (rt := Sample.runtime)
                 Scenario.codigos Scenario.explains_led "¿Qué es un LED?"
                 Scenario.fresh)) in
  sent' = sent Scenario.fresh ++ sent_during (sent Scenario.fresh) sent'
  /\ sent_during (sent Scenario.fresh) sent' <> []
  /\ Forall system_first (sent_during (sent Scenario.fresh) sent').
Proof.
  apply (multimodal_requests_lead_with_the_system_turn
           (rt := Sample.runtime) Scenario.codigos Scenario.explains_led
           "¿Qué es un LED?" Scenario.fresh).
  reflexivity.
Defined.

(** A question about a LED on an Arduino gets the picture of "arduino",
    the first key word of the list, not of "led". *)
Lemma multimodal_picture_by_key_word_witness :
  fst (TutorMultimodal.responder (rt := Sample.runtime) Scenario.codigos
         Cases.plain_answer_with_media "¿Cómo conecto un LED a mi Arduino?"
         Scenario.fresh)
  = Ok (Some "Arduino es una placa programable.",
        TutorMultimodal.generar_imagen_educativa
          Cases.plain_answer_with_media (VStr "arduino") (VStr "primaria")
          (VStr ("concepto educativo sobre " +++ "arduino")),
        TutorMultimodal.generar_audio_educativo Cases.plain_answer_with_media
          (of_option (Some "Arduino es una placa programable."))).
Proof.
  apply (proj2 (multimodal_picture_by_key_word (rt := Sample.runtime)
                  Scenario.codigos Cases.plain_answer_with_media
                  "¿Cómo conecto un LED a mi Arduino?" Scenario.fresh
                  (Scenario.says "Arduino es una placa programable.")
                  eq_refl ltac:(discriminate))
               [] "arduino"
               ["sensor"; "led"; "motor"; "circuito"; "robot"; "componente";
                "electronica"; "programacion"; "codigo"; "esquema";
                "diagrama"]);
    reflexivity.
Defined.

(** An answer that names Arduino is spoken. *)
Lemma simple_audio_by_topic_witness :
  fst (TutorSimple.responder (rt := Sample.runtime) Scenario.codigos
         Cases.plain_answer_with_media "¿Qué es eso?" Scenario.fresh)
  = Ok (Some "Arduino es una placa programable.",
        Some "/tmp/respuesta.mp3").
Proof.
  apply (simple_audio_by_topic (rt := Sample.runtime) Scenario.codigos
           Cases.plain_answer_with_media "¿Qué es eso?" Scenario.fresh
           (Scenario.says "Arduino es una placa programable.")
           "Arduino es una placa programable.");
    [reflexivity|discriminate|reflexivity].
Defined.

(** A first question through the interface, before any tutor exists. *)
Lemma enviar_mensaje_by_cases_witness :
  let run :=
    SimpleApp.enviar_mensaje (rt := Sample.runtime) Scenario.codigos
      Cases.strip Scenario.plain_answer "¿Qué es Arduino?" "primaria"
      "Español" SimpleApp.inicio in
  exists respuesta audio t,
    fst run
    = Ok (SimpleApp.historial SimpleApp.inicio
          ++ [dict_message user "¿Qué es Arduino?";
              {| role := assistant; content := respuesta;
                 tool_calls := None; tool_call_id := None |}],
          "", audio)
    /\ SimpleApp.tutor (snd run) = Some t
    /\ nivel t = "primaria".
Proof.
  apply (proj1 (proj2 (enviar_mensaje_by_cases (rt := Sample.runtime)
                         Scenario.codigos Cases.strip Scenario.plain_answer
                         "¿Qué es Arduino?" "primaria" "Español"
                         SimpleApp.inicio)));
    [discriminate|reflexivity].
Defined.

(** The tutor is initialised, asked one question for another level, and
    sent a blank message: the chat shows two entries. *)
Lemma simple_interface_session_witness :
  let eventos :=
    [SimpleApp.Inicializar "primaria" "Español";
     SimpleApp.Enviar Scenario.plain_answer "¿Qué es Arduino?"
       "secundaria" "Español";
     SimpleApp.Enviar Scenario.plain_answer "   " "secundaria" "Español"] in
  let a :=
    SimpleApp.sesion (rt := Sample.runtime) Scenario.codigos Cases.strip
      eventos SimpleApp.inicio in
  length (SimpleApp.historial a) = 2 * envios Cases.strip eventos
  /\ match SimpleApp.tutor a with
     | Some t =>
         length (historial_conversacion t) <= 10
         /\ alternates (historial_conversacion t) = true
         /\ SimpleApp.TutorRoboticaSimple (nivel t) (idioma t)
            = Ok {| nivel := nivel t; idioma := idioma t;
                    historial_conversacion := [];
                    system_prompt := system_prompt t |}
     | None => SimpleApp.enviados a = []
     end.
Proof.
  apply (simple_interface_session (rt := Sample.runtime) Scenario.codigos
           Cases.strip
           [SimpleApp.Inicializar "primaria" "Español";
            SimpleApp.Enviar Scenario.plain_answer "¿Qué es Arduino?"
              "secundaria" "Español";
            SimpleApp.Enviar Scenario.plain_answer "   " "secundaria"
              "Español"]).
  reflexivity.
Defined.

(** One question with "secundaria" and "English" selected: the tutor
    takes both, and the prompt stays the one for "primaria". *)
Lemma multimodal_interface_keeps_its_prompt_witness :
  let mensajes :=
    [(Scenario.plain_answer, "¿Qué es Arduino?", "secundaria", "English")] in
  let i :=
    MultimodalApp.sesion (rt := Sample.runtime) Scenario.codigos mensajes
      (MultimodalApp.inicio (self Scenario.fresh)) in
  let tutor := self (MultimodalApp.mundo i) in
  system_prompt tutor = system_prompt (self Scenario.fresh)
  /\ nivel tutor
     = last (map (fun m => snd (fst m)) mensajes) (nivel (self Scenario.fresh))
  /\ idioma tutor = last (map snd mensajes) (idioma (self Scenario.fresh))
  /\ length (historial_conversacion tutor) <= 10
  /\ length (MultimodalApp.historial i) = 2 * length mensajes.
Proof.
  apply (multimodal_interface_keeps_its_prompt (rt := Sample.runtime)
           Scenario.codigos
           [(Scenario.plain_answer, "¿Qué es Arduino?", "secundaria",
             "English")]
           (self Scenario.fresh)).
  reflexivity.
Defined.
